(** * DOCX plugin: style classification, exclusion map and conversion fallback

    A shallow embedding of
    - [docx_plugin/utils/style_analyzer.py]
    - [docx_plugin/services/filter_provider.py]
    - [docx_plugin/services/docx_conversion_logic.py]
    - [src/services/docx_handler.py]
    - [docx_plugin/utils/color_utils.py]
    followed by the properties of the specification that concern them.

    Python [str] values are sequences of code points.  The embedding covers
    the code points below 256 (Latin-1): one [ascii] holds one code point and
    the character classes below are Python's, restricted to that range.
    Style names are kept as [string] where they are dictionary keys and are
    unpacked to [list ascii] where the code scans them.  Python [int] is [Z];
    [dict] is [gmap], [set] is [gset] (a set literal that is only searched
    is a list).  An exception is an outcome of its own where the code
    catches or propagates one; [int] has the interpreter's default limit
    of 4300 decimal digits, beyond which it raises [ValueError].  Logging
    and the progress callback are not modelled. *)

From Stdlib Require Import ZArith NArith Ascii String Bool.
From stdpp Require Import base option list gmap strings.

Local Open Scope Z_scope.

(** ** Python string primitives *)

Module pystr.

Definition chars (s : string) : list ascii := list_ascii_of_string s.
Definition text (l : list ascii) : string := string_of_list_ascii l.

Definition code (c : ascii) : N := N_of_ascii c.

Definition between (lo hi : N) (c : ascii) : bool :=
  ((lo <=? code c) && (code c <=? hi))%N.

(** [str.isspace] on one character; this is also the class [\s] of [re]
    and the set removed by [str.strip()]. *)
Definition isspace (c : ascii) : bool :=
  between 9 13 c || between 28 32 c || between 133 133 c || between 160 160 c.

(** [\d] of [re] and [str.isdecimal]. *)
Definition isdecimal (c : ascii) : bool := between 48 57 c.

(** [str.isdigit] on one character: decimals and the superscripts 1, 2, 3. *)
Definition isdigit_char (c : ascii) : bool :=
  isdecimal c || between 178 179 c || between 185 185 c.

(** [str.isnumeric] on one character: adds the vulgar fractions. *)
Definition isnumeric_char (c : ascii) : bool :=
  isdigit_char c || between 188 190 c.

Definition isalpha_char (c : ascii) : bool :=
  between 65 90 c || between 97 122 c
  || between 170 170 c || between 181 181 c || between 186 186 c
  || between 192 214 c || between 216 246 c || between 248 255 c.

(** [\w] of [re]: alphanumeric or underscore. *)
Definition isword (c : ascii) : bool :=
  isalpha_char c || isnumeric_char c || between 95 95 c.

Definition isupper_char (c : ascii) : bool :=
  between 65 90 c || between 192 214 c || between 216 222 c.

Definition lower_char (c : ascii) : ascii :=
  if isupper_char c then ascii_of_N (code c + 32) else c.

(** [str.lower()] *)
Definition lower (s : list ascii) : list ascii := map lower_char s.

(** Longest prefix whose characters satisfy [p], and the rest. *)
Fixpoint span (p : ascii -> bool) (s : list ascii) : list ascii * list ascii :=
  match s with
  | [] => ([], [])
  | c :: r => if p c then let '(a, b) := span p r in (c :: a, b) else ([], s)
  end.

(** A run of [p] cannot go on into [s]. *)
Definition stops (p : ascii -> bool) (s : list ascii) : bool :=
  match s with
  | [] => true
  | c :: _ => negb (p c)
  end.

Definition lstrip (s : list ascii) : list ascii := snd (span isspace s).
Definition rstrip (s : list ascii) : list ascii := rev (lstrip (rev s)).
(** [str.strip()] *)
Definition strip (s : list ascii) : list ascii := rstrip (lstrip s).

Fixpoint startswith (p s : list ascii) : bool :=
  match p, s with
  | [], _ => true
  | a :: p', b :: s' => if Ascii.eqb a b then startswith p' s' else false
  | _ :: _, [] => false
  end.

(** [p in s] for two strings. *)
Fixpoint contains (p s : list ascii) : bool :=
  startswith p s ||
  match s with
  | [] => false
  | _ :: s' => contains p s'
  end.

(** [any(pattern in s for pattern in patterns)] *)
Definition any_in (patterns : list string) (s : list ascii) : bool :=
  existsb (fun pattern => contains (chars pattern) s) patterns.

(** [str.isdigit()]: non-empty and every character a digit. *)
Definition isdigit (s : list ascii) : bool :=
  match s with
  | [] => false
  | _ => forallb isdigit_char s
  end.

(** [re.split(sep_class, s)] for a one-character class. *)
Fixpoint re_split (sep : ascii -> bool) (s : list ascii) : list (list ascii) :=
  match s with
  | [] => [[]]
  | c :: r =>
      if sep c then [] :: re_split sep r
      else match re_split sep r with
           | piece :: pieces => (c :: piece) :: pieces
           | [] => [[c]]
           end
  end.

Definition digit_value (c : ascii) : Z := Z.of_N (code c) - 48.

(** The number that a run of decimals writes, most significant digit
    first. *)
Definition int_of_digits (ds : list ascii) : Z :=
  fold_left (fun acc c => 10 * acc + digit_value c) ds 0.

(** Digits of an integer literal after the sign: groups of decimals
    separated by single underscores.  [after_digit] tells whether the
    previous character was a decimal. *)
Fixpoint literal_digits (after_digit : bool) (s : list ascii) (acc : Z) : option Z :=
  match s with
  | [] => if after_digit then Some acc else None
  | c :: r =>
      if isdecimal c then literal_digits true r (10 * acc + digit_value c)
      else if Ascii.eqb c "_" && after_digit then literal_digits false r acc
      else None
  end.

(** The white space that [int] skips at both ends: the separators
    U+001C to U+001F are white space for [str] and not for [int]. *)
Definition isspace_int (c : ascii) : bool :=
  between 9 13 c || between 32 32 c || between 133 133 c || between 160 160 c.

Definition strip_int (s : list ascii) : list ascii :=
  rev (snd (span isspace_int (rev (snd (span isspace_int s))))).

(** [sys.int_info.default_max_str_digits]: [int] refuses a string that
    has more decimal digits than this. *)
Definition max_str_digits : Z := 4300.

(** [int(s)] for a string in base 10; [None] stands for [ValueError]. *)
Definition int (s : list ascii) : option Z :=
  if max_str_digits <? Z.of_nat (length (List.filter isdecimal s)) then None
  else
    match strip_int s with
    | c :: r =>
        if Ascii.eqb c "-" then Z.opp <$> literal_digits false r 0
        else if Ascii.eqb c "+" then literal_digits false r 0
        else literal_digits false (c :: r) 0
    | [] => None
    end.

(** [s.replace(old, new)] for a non-empty [old]; the fuel is the length
    of [s], which bounds the number of steps. *)
Fixpoint replace_fuel (fuel : nat) (old new s : list ascii) : list ascii :=
  match fuel with
  | O => s
  | S fuel' =>
      match s with
      | [] => []
      | c :: r =>
          if startswith old s
          then new ++ replace_fuel fuel' old new (drop (length old) s)
          else c :: replace_fuel fuel' old new r
      end
  end.

Definition replace (old new s : list ascii) : list ascii :=
  replace_fuel (length s) old new s.

End pystr.

(** ** The regular expressions of [re] that the code uses *)

Module re.
Import pystr.

(** The fragment of the pattern language that occurs in the sources.
    [Greedy p least] is a greedy repetition of one character class
    ([\s*], [\s+], [\d+]); [UpTo n r] is [(r){0,n}]; [Group] is the
    capturing group number 1. *)
Inductive Pattern :=
| Eps
| Char (p : ascii -> bool)
| Seq (r1 r2 : Pattern)
| Greedy (p : ascii -> bool) (least : nat)
| UpTo (n : nat) (r : Pattern)
| Group (r : Pattern)
| Caret
| Dollar
| WordBoundary.

(** A match object: [group(0)] and [group(1)]. *)
Record Match := { group_0 : list ascii; group_1 : option (list ascii) }.

Definition orelse {R} (a b : option R) : option R :=
  match a with
  | Some x => Some x
  | None => b
  end.

Definition word_at (c : option ascii) : bool :=
  match c with
  | Some c => isword c
  | None => false
  end.

(** [$] without [re.MULTILINE]: the end of the string, or just before a
    newline that ends the string. *)
Definition at_dollar (s : list ascii) : bool :=
  match s with
  | [] => true
  | [c] => Ascii.eqb c "010"
  | _ => false
  end.

Section engine.
Context {R : Type}.

(** What remains to be matched: it is given the character before the
    position, the rest of the subject and the text of group 1, and it
    answers [None] to make the engine backtrack. *)
Definition Cont : Type := option ascii -> list ascii -> option (list ascii) -> option R.

(** Greedy repetition of a class: the longest run first, then shorter
    ones down to [least] characters. *)
Fixpoint greedy (p : ascii -> bool) (least count : nat)
    (prev : option ascii) (s : list ascii) (g : option (list ascii)) (k : Cont) : option R :=
  let here := if (least <=? count)%nat then k prev s g else None in
  match s with
  | c :: s' =>
      if p c then orelse (greedy p least (S count) (Some c) s' g k) here else here
  | [] => here
  end.

(** [(body){0,n}], greedy: one more repetition first, none as the way
    back. *)
Fixpoint upto (body : option ascii -> list ascii -> option (list ascii) -> Cont -> option R)
    (n : nat) (prev : option ascii) (s : list ascii) (g : option (list ascii))
    (k : Cont) : option R :=
  match n with
  | O => k prev s g
  | S m => orelse (body prev s g (fun prev' s' g' => upto body m prev' s' g' k))
                  (k prev s g)
  end.

(** The backtracking matcher. *)
Fixpoint exec (r : Pattern) (prev : option ascii) (s : list ascii)
    (g : option (list ascii)) (k : Cont) {struct r} : option R :=
  match r with
  | Eps => k prev s g
  | Char p =>
      match s with
      | c :: s' => if p c then k (Some c) s' g else None
      | [] => None
      end
  | Seq r1 r2 => exec r1 prev s g (fun prev' s' g' => exec r2 prev' s' g' k)
  | Greedy p least => greedy p least 0 prev s g k
  | UpTo n r' => upto (exec r') n prev s g k
  | Group r' =>
      exec r' prev s g
        (fun prev' s' _ => k prev' s' (Some (take (length s - length s') s)))
  | Caret => match prev with None => k prev s g | Some _ => None end
  | Dollar => if at_dollar s then k prev s g else None
  | WordBoundary =>
      if xorb (word_at prev) (word_at (head s)) then k prev s g else None
  end.

End engine.

(** One attempt at the position whose left neighbour is [prev]. *)
Definition attempt (r : Pattern) (prev : option ascii) (s : list ascii) : option Match :=
  exec r prev s None
    (fun _ rest g => Some {| group_0 := take (length s - length rest) s; group_1 := g |}).

(** [pattern.match(s)] *)
Definition match_ (r : Pattern) (s : list ascii) : option Match := attempt r None s.

Fixpoint search_from (r : Pattern) (prev : option ascii) (s : list ascii) : option Match :=
  orelse (attempt r prev s)
         match s with
         | c :: s' => search_from r (Some c) s'
         | [] => None
         end.

(** [re.search(pattern, s)]: the leftmost position where an attempt
    succeeds. *)
Definition search (r : Pattern) (s : list ascii) : option Match := search_from r None s.

(** A literal under [re.IGNORECASE]: both characters are compared in
    lower case. *)
Fixpoint literal_ignorecase_chars (lit : list ascii) : Pattern :=
  match lit with
  | [] => Eps
  | a :: lit' =>
      Seq (Char (fun c => Ascii.eqb (lower_char a) (lower_char c)))
          (literal_ignorecase_chars lit')
  end.

Definition literal_ignorecase (lit : string) : Pattern :=
  literal_ignorecase_chars (chars lit).

End re.

(** ** [docx_plugin/utils/style_analyzer.py] *)

Module style_analyzer.
Import pystr.

(** *** The document's style catalog, as python-docx presents it *)

Inductive WD_STYLE_TYPE := CHARACTER | LIST | PARAGRAPH | TABLE.

Definition is_paragraph (t : WD_STYLE_TYPE) : bool :=
  match t with PARAGRAPH => true | _ => false end.

(** What step 10 sees of a style: no [_element] attribute, an xpath
    query that raises, or the list of [w:outlineLvl/@w:val] strings. *)
Inductive OutlineLookup :=
| NoElement
| XPathRaises
| OutlineVals (vals : list string).

Record Style := {
  type : WD_STYLE_TYPE;
  name : option string;          (* [None] is Python's [None] *)
  outline : OutlineLookup
}.

(** One step of [for style in doc.styles]: either a style object whose
    attributes can be read, or an exception raised while the style is
    produced or its attributes are read.  (The one exception that the
    rules themselves can raise, in step 1, is an outcome of
    [apply_rules] below.) *)
Inductive StyleEntry :=
| Readable (style : Style)
| Raises.

(** [doc.styles]: evaluating it may itself raise. *)
Inductive Styles :=
| Unreadable
| Catalog (entries : list StyleEntry).

Class Document (D : Type) := styles : D -> Styles.

(** A document that is nothing but its style catalog. *)
#[global] Instance catalog_only : Document Styles := fun s => s.

(** *** Tables of the classifier *)

(** A [set] in the source; it is searched by membership and by one loop
    that looks for an equal lower-case form. *)

Definition builtin_non_heading_styles : list string := [
  "Normal"; "No Spacing"; "Quote"; "Intense Quote"; "Subtle Emphasis";
  "Intense Emphasis"; "Strong"; "Subtle Reference"; "Intense Reference";
  "Book Title"; "List Paragraph"; "Body Text"; "Body Text 2"; "Body Text 3";
  "Body Text Indent"; "Body Text First Indent"; "Body Text First Indent 2";
  "List"; "List 2"; "List 3"; "List Bullet"; "List Bullet 2"; "List Bullet 3";
  "List Continue"; "List Continue 2"; "List Continue 3"; "List Number";
  "List Number 2"; "List Number 3"; "Caption"; "Figure Caption"; "Table Caption";
  "Image Caption"; "Footnote Text"; "Footnote Reference"; "Endnote Text";
  "Endnote Reference"; "Bibliography"; "Index 1"; "Index 2"; "Index 3";
  "Index 4"; "Index 5"; "Index 6"; "Index 7"; "Index 8"; "Index 9";
  "TOC 1"; "TOC 2"; "TOC 3"; "TOC 4"; "TOC 5"; "TOC 6"; "TOC 7"; "TOC 8";
  "TOC 9"; "TOC Heading"; "Table of Contents"; "Header"; "Footer"; "Page Number";
  "Compact"; "Plain Text"; "HTML Preformatted"; "Document Map"; "Hyperlink";
  "FollowedHyperlink"; "Macro Text"; "Block Text"; "Date"; "Salutation";
  "Signature"; "Closing"; "Sans Interligne"; "Texte Normal"; "Citation"; "Legende"
]%string.

Definition strong_exclusions : list string := [
  "caption"; "footnote"; "endnote"; "toc"; "bibliography";
  "format"; "case"; "overview"; "break"; "divider"; "separator"
]%string.

Definition medium_exclusions : list string := [
  "quote"; "emphasis"; "strong"; "list"; "continue"; "text"
]%string.

Definition international_patterns : list string := [
  "titre"; "titulo"; "uberschrift"; "haupt"; "sous-titre";
  "chapitre"; "partie"; "sous-chapitre"; "sous chapitre"; "sous-section"; "sous section"
]%string.

Definition org_patterns : list string := [
  "department head"; "section header"; "chapter title"; "part title"
]%string.

Definition title_header_patterns : list string := ["title"; "header"]%string.

(** *** The compiled patterns *)

(** [re.compile(r"^Heading\s+(\d+)$", re.IGNORECASE)] *)
Definition builtin_heading_pattern : re.Pattern :=
  re.Seq re.Caret
    (re.Seq (re.literal_ignorecase "Heading")
       (re.Seq (re.Greedy isspace 1)
          (re.Seq (re.Group (re.Greedy isdecimal 1)) re.Dollar))).

Definition is_dot_dash (c : ascii) : bool := Ascii.eqb c "." || Ascii.eqb c "-".

(** [[.\-]\d+] *)
Definition segment_pattern : re.Pattern :=
  re.Seq (re.Char is_dot_dash) (re.Greedy isdecimal 1).

(** [([.\-]\d+){0,8}\b]; the group is group 2, which the code never
    reads. *)
Definition segments_then_boundary : re.Pattern :=
  re.Seq (re.UpTo 8 segment_pattern) re.WordBoundary.

(** [re.compile(r"^\s*(\d+)([.\-]\d+){0,8}\b")] *)
Definition numeric_leading_pattern : re.Pattern :=
  re.Seq re.Caret
    (re.Seq (re.Greedy isspace 0)
       (re.Seq (re.Group (re.Greedy isdecimal 1)) segments_then_boundary)).

(** [r'(\d+)'] *)
Definition number_pattern : re.Pattern := re.Group (re.Greedy isdecimal 1).

(** *** [_infer_heading_level] *)

Definition _infer_heading_level (style_name : string) : Z :=
  let style_lower := lower (chars style_name) in
  let explicit :=
    match re.search number_pattern (chars style_name) ≫= re.group_1 with
    | Some ds =>
        match int ds with
        | Some level => if (1 <=? level) && (level <=? 9) then Some level else None
        | None => None                              (* except ValueError: pass *)
        end
    | None => None
    end in
  match explicit with
  | Some level => level
  | None =>
      if any_in ["title"; "main"; "principal"; "primary"]%string style_lower then 1
      else if any_in ["section"; "chapter"; "part"]%string style_lower then 2
      else if any_in ["subsection"; "subchapter"]%string style_lower then 3
      else 2
  end.

(** *** [_detect_builtin_heading_level] *)

Definition _detect_builtin_heading_level (style_name : string) : option Z :=
  match chars style_name with
  | [] => None
  | _ :: _ =>
      match re.match_ builtin_heading_pattern (chars style_name) ≫= re.group_1 with
      | Some ds => int ds                 (* [None]: except ValueError: pass *)
      | None => None
      end
  end.

(** *** [build_style_heading_map] *)

(** Step 10: the explicit outline level of the style.  Every exception
    inside it is swallowed by the inner [try]. *)
Definition outline_level (o : OutlineLookup) : option Z :=
  match o with
  | OutlineVals (v :: _) =>
      match int (chars v) with
      | Some outline_level =>
          if (0 <=? outline_level) && (outline_level <=? 8)
          then Some (outline_level + 1) else None
      | None => None
      end
  | _ => None
  end.

(** How steps 1 to 11 end for a paragraph style with a non-empty name:
    the style is stored at a level, it is left out of the map, or
    [int] raises in step 1, which has no [try] of its own. *)
Inductive Verdict :=
| Heading (level : Z)
| BodyText
| ValueError.

Definition apply_rules (style_name : string) (o : OutlineLookup) : Verdict :=
  let style_lower := strip (lower (chars style_name)) in
  (* step 1: [None] when [int] raises, otherwise the level if it is stored *)
  let builtin : option (option Z) :=
    match re.match_ builtin_heading_pattern (chars style_name) ≫= re.group_1 with
    | Some ds =>
        match int ds with
        | Some level => Some (if (1 <=? level) && (level <=? 9) then Some level else None)
        | None => None
        end
    | None => Some None
    end in
  match builtin with
  | None => ValueError
  | Some (Some level) => Heading level                                (* 1 *)
  | Some None =>
  match re.group_0 <$> re.match_ numeric_leading_pattern (chars style_name) with
  | Some matched =>                                                   (* 2 *)
      let segments := re_split is_dot_dash (lstrip matched) in
      let segments := filter (fun s => isdigit s = true) segments in
      Heading (Z.max 1 (Z.min 6 (Z.of_nat (length segments))))
  | None =>
  if bool_decide (style_name ∈ builtin_non_heading_styles) then BodyText  (* 3 *)
  else if existsb (fun builtin =>
                     bool_decide (lower (chars builtin) = style_lower))
                  builtin_non_heading_styles then BodyText
  else if any_in strong_exclusions style_lower then BodyText          (* 4 *)
  else if any_in medium_exclusions style_lower then BodyText          (* 5 *)
  else if any_in international_patterns style_lower                   (* 6 *)
    then Heading (_infer_heading_level style_name)
  else if contains (chars "heading") style_lower then                 (* 7 *)
    if contains (chars "style") style_lower
      then Heading (_infer_heading_level style_name)
    else if contains (chars "text") style_lower then BodyText
    else Heading (_infer_heading_level style_name)
  else if any_in org_patterns style_lower                             (* 8 *)
    then Heading (_infer_heading_level style_name)
  else if any_in title_header_patterns style_lower                    (* 9 *)
    then Heading (_infer_heading_level style_name)
  else match outline_level o with                                     (* 10 *)
       | Some level => Heading level
       | None => BodyText                                             (* 11 *)
       end
  end
  end.

(** The level that steps 1 to 11 store under [style_name], if they
    store one. *)
Definition classify (style_name : string) (o : OutlineLookup) : option Z :=
  match apply_rules style_name o with
  | Heading level => Some level
  | BodyText | ValueError => None
  end.

(** The body of the loop for one readable style: the map after it, or
    [None] when the iteration raises. *)
Definition visit (style : Style) (heading_map : gmap string Z)
  : option (gmap string Z) :=
  match name style with
  | Some style_name =>
      if is_paragraph (type style) && negb (String.eqb style_name "")
      then match apply_rules style_name (outline style) with
           | Heading level => Some (<[style_name := level]> heading_map)
           | BodyText => Some heading_map
           | ValueError => None
           end
      else Some heading_map
  | None => Some heading_map
  end.

(** The [for] loop inside the outer [try]: an exception leaves the loop
    and the [except] clause keeps what the map holds by then. *)
Fixpoint visit_all (entries : list StyleEntry) (heading_map : gmap string Z)
  : gmap string Z :=
  match entries with
  | [] => heading_map
  | Readable style :: rest =>
      match visit style heading_map with
      | Some heading_map => visit_all rest heading_map
      | None => heading_map
      end
  | Raises :: _ => heading_map
  end.

(** [plugin_config] is accepted and not read. *)
Definition build_style_heading_map `{Document D} {Cfg : Type}
    (doc : D) (plugin_config : option Cfg) : gmap string Z :=
  match styles doc with
  | Unreadable => ∅
  | Catalog entries => visit_all entries ∅
  end.

End style_analyzer.

(** ** [docx_plugin/services/filter_provider.py] *)

Module filter_provider.

(** [DocxFilterProvider.build_exclusion_map]; [exclusions] may be [None]
    ([exclusions or {}]).  The loop runs over [items()]. *)
Definition build_exclusion_map (exclusions : option (gmap string bool))
  : gmap Z (gset string) :=
  map_fold
    (fun style (excluded : bool) (style_excl_map : gmap Z (gset string)) =>
       if excluded
       then (* setdefault(1, set()).add(style) *)
            <[1 := default ∅ (style_excl_map !! 1) ∪ {[style]}]> style_excl_map
       else style_excl_map)
    ∅ (default ∅ exclusions).

End filter_provider.

(** ** [os.path] (POSIX flavour) and [xml.etree] values used by the conversion *)

Module ospath.
Import pystr.

Fixpoint rfind_from (c : ascii) (p : list ascii) (i found : Z) : Z :=
  match p with
  | [] => found
  | x :: r => rfind_from c r (i + 1) (if Ascii.eqb x c then i else found)
  end.

(** [p.rfind(c)]: the last index of [c], or -1. *)
Definition rfind (c : ascii) (p : list ascii) : Z := rfind_from c p 0 (-1).

(** [p[i:j]] for indices that are not negative. *)
Definition slice (p : list ascii) (i j : Z) : list ascii :=
  take (Z.to_nat j - Z.to_nat i) (drop (Z.to_nat i) p).

Definition basename (p : list ascii) : list ascii :=
  let i := rfind "/" p + 1 in
  drop (Z.to_nat i) p.

(** [genericpath._splitext(p, '/', None, '.')]: the loop over the
    leading dots is the test that all of [p[sepIndex+1:dotIndex]] are
    dots. *)
Definition splitext (p : list ascii) : list ascii * list ascii :=
  let sepIndex := rfind "/" p in
  let dotIndex := rfind "." p in
  if sepIndex <? dotIndex then
    if forallb (fun c => Ascii.eqb c ".") (slice p (sepIndex + 1) dotIndex)
    then (p, [])
    else (take (Z.to_nat dotIndex) p, drop (Z.to_nat dotIndex) p)
  else (p, []).

End ospath.

Module ET.

Local Set Warnings "-register-all".

Inductive Element := mkElement {
  tag : string;
  attrib : list (string * string);
  text : option string;
  children : list Element
}.

(** [ET.Element(tag, attrib)] *)
Definition new (tag : string) (attrib : list (string * string)) : Element :=
  mkElement tag attrib None [].

Fixpoint assoc_set (k v : string) (l : list (string * string)) : list (string * string) :=
  match l with
  | [] => [(k, v)]
  | (k', v') :: r => if String.eqb k k' then (k, v) :: r else (k', v') :: assoc_set k v r
  end.

Fixpoint assoc_get (k : string) (l : list (string * string)) : option string :=
  match l with
  | [] => None
  | (k', v) :: r => if String.eqb k k' then Some v else assoc_get k r
  end.

(** [e.set(k, v)] *)
Definition set (k v : string) (e : Element) : Element :=
  mkElement (tag e) (assoc_set k v (attrib e)) (text e) (children e).

(** [e.get(k)] *)
Definition get (k : string) (e : Element) : option string := assoc_get k (attrib e).

(** [e.text = v] *)
Definition set_text (v : string) (e : Element) : Element :=
  mkElement (tag e) (attrib e) (Some v) (children e).

(** The effect on [parent] of [ET.SubElement(parent, ...)] once the
    new child has reached the value [child]. *)
Definition append (child parent : Element) : Element :=
  mkElement (tag parent) (attrib parent) (text parent) (children parent ++ [child]).

(** An element with one descendant singled out: the descendant is an
    object of its own that the code goes on mutating, and the element
    is read back with [plug]. *)
Inductive Around :=
| Here
| Inside (tag : string) (attrib : list (string * string)) (text : option string)
         (before : list Element) (around : Around) (after : list Element).

Fixpoint plug (a : Around) (e : Element) : Element :=
  match a with
  | Here => e
  | Inside t at_ tx before a' after =>
      mkElement t at_ tx (before ++ plug a' e :: after)
  end.

(** [e.findall(tag)]: the direct children with that tag. *)
Definition findall (t : string) (e : Element) : list Element :=
  filter (fun c => tag c = t) (children e).

End ET.

(** ** [docx_plugin/services/docx_conversion_logic.py] *)

Module docx_conversion_logic.
Import pystr style_analyzer.

(** Exceptions: a computation returns a value or raises. *)
Inductive Result (E A : Type) :=
| Ok (a : A)
| Raise (e : E).
Arguments Ok {E A} a.
Arguments Raise {E A} e.

#[global] Instance Result_ret {E} : MRet (Result E) := fun A a => Ok a.
#[global] Instance Result_bind {E} : MBind (Result E) := fun A B f m =>
  match m with
  | Ok a => f a
  | Raise e => Raise e
  end.

(** The run metadata, with the keys the conversion reads.  A field is
    [None] when the key is missing; [style_heading_map] is also [None]
    when the value is not a [dict]. *)
Record Metadata := {
  manual_title : option string;
  revision_date : option string;
  style_heading_map : option (gmap string Z)
}.

Record DitaContext {Images : Type} := {
  metadata : Metadata;
  topics : gmap string ET.Element;
  images : Images;
  ditamap_root : option ET.Element
}.
Arguments DitaContext Images : clear implicits.

Record PluginConfig {ColorRules : Type} := {
  docx_color_conversion : option ColorRules
}.
Arguments PluginConfig ColorRules : clear implicits.

(** What the run takes from its surroundings: the random identifier and
    the two readings of the clock as [strftime("%Y-%m-%d")] gives them. *)
Record Ambient := {
  uuid4_hex : string;
  today_for_concept : string;
  today_for_critdates : string
}.

Section conversion.
(** Objects of python-docx and of the sibling modules
    [docx_parser], [formatting_helpers] and [structure_analyzer],
    which the conversion only passes around, and the functions it calls
    on them.  A function that mutates one of its arguments returns the
    new value of that argument; any of them may raise. *)
Context {E D Block Images ImageMap ColorRules Node : Type} `{!Document D}.

Variable open_document : string -> Result E D.             (* docx.Document *)
Variable no_images : Images.                                (* DitaContext() *)
Variable no_color_rules : ColorRules.                       (* {} *)
Variable STYLE_MAP : gmap string Z.
Variable extract_images_to_context :
  D -> DitaContext Images -> Result E (ImageMap * DitaContext Images).
Variable add_orlando_topicmeta : ET.Element -> Metadata -> Result E ET.Element.
Variable build_document_structure :
  D -> gmap string Z -> ImageMap -> Result E (list Node).
Variable determine_node_roles : list Node -> Result E (list Node).
(** The generator mutates [context] and [map_root]; it returns both. *)
Variable generate_dita_from_structure :
  list Node -> DitaContext Images -> Metadata -> ImageMap -> ET.Element ->
  list Z -> ColorRules -> Result E (DitaContext Images * ET.Element).
Variable iter_block_items : D -> Result E (list Block).
(** [concept_root] is returned as what surrounds [conbody]. *)
Variable create_dita_concept :
  string -> string -> string -> Result E (ET.Around * ET.Element).
Variable _add_content_to_topic :
  ET.Element -> list Block -> ImageMap -> ColorRules -> Result E ET.Element.

(** [context.ditamap_root] and the local [map_root] are one object. *)
Definition with_root (context : DitaContext Images) (map_root : ET.Element)
  : DitaContext Images :=
  {| metadata := metadata context; topics := topics context;
     images := images context; ditamap_root := Some map_root |}.

Definition with_topic (context : DitaContext Images) (file_name : string)
    (topic : ET.Element) : DitaContext Images :=
  {| metadata := metadata context;
     topics := <[file_name := topic]> (topics context);
     images := images context; ditamap_root := ditamap_root context |}.

(** Lines 106-111: fill in the entries of [STYLE_MAP] that
    classification left out. *)
Definition legacy_fill (style_heading_map : gmap string Z) : gmap string Z :=
  map_fold (fun k v m => if bool_decide (is_Some (m !! k)) then m else <[k := v]> m)
           style_heading_map STYLE_MAP.

(** Lines 113-125: the caller's overrides, applied last.  The [try]
    inside the loop guards a lookup, a comparison and an assignment,
    none of which fails on string keys and integer levels. *)
Definition user_override (md : Metadata) (style_heading_map : gmap string Z)
  : gmap string Z :=
  match md.(docx_conversion_logic.style_heading_map) with
  | Some user_overrides =>
      map_fold (fun k v m => <[k := v]> m) style_heading_map user_overrides
  | None => style_heading_map
  end.

(** Lines 103-125: the style-to-level map handed to the structure pass. *)
Definition final_style_heading_map (doc : D) (md : Metadata)
    (plugin_config : option (PluginConfig ColorRules)) : gmap string Z :=
  user_override md (legacy_fill (build_style_heading_map doc plugin_config)).

(** What is live after line 170. *)
Record Generated := {
  g_doc : D;
  g_images : ImageMap;
  g_color_rules : ColorRules;
  g_context : DitaContext Images;
  g_map_root : ET.Element
}.

(** Lines 62-170. *)
Definition generate (file_path : string) (md : Metadata)
    (plugin_config : option (PluginConfig ColorRules)) : Result E Generated :=
  let context :=
    {| metadata := md; topics := ∅; images := no_images; ditamap_root := None |} in
  doc ← open_document file_path;
  '(all_images_map_rid, context) ← extract_images_to_context doc context;
  let map_root := ET.new "map" [] in
  let map_root := ET.set "{http://www.w3.org/XML/1998/namespace}lang" "en-US" map_root in
  let context := with_root context map_root in
  let map_title := ET.new "title" [] in
  let map_title := ET.set_text (default "Document Title" (manual_title md)) map_title in
  let map_root := ET.append map_title map_root in
  let context := with_root context map_root in
  map_root ← add_orlando_topicmeta map_root (metadata context);
  let context := with_root context map_root in
  let color_rules :=
    match plugin_config with
    | Some cfg => default no_color_rules (docx_color_conversion cfg)
    | None => no_color_rules
    end in
  let style_heading_map := final_style_heading_map doc md plugin_config in
  root_nodes ← build_document_structure doc style_heading_map all_images_map_rid;
  root_nodes ← determine_node_roles root_nodes;
  let heading_counters := replicate 9 0 in
  '(context, map_root) ←
    generate_dita_from_structure root_nodes context (metadata context)
      all_images_map_rid map_root heading_counters color_rules;
  mret {| g_doc := doc; g_images := all_images_map_rid;
          g_color_rules := color_rules;
          g_context := with_root context map_root; g_map_root := map_root |}.

Section fallback.
Variable amb : Ambient.
Variable file_path : string.

Definition fallback_title : string :=
  let stem := fst (ospath.splitext (ospath.basename (chars file_path))) in
  match stem with
  | [] => "Document"
  | _ :: _ => text stem
  end.

Definition file_name : string :=
  "topic_" +:+ text (take 10 (chars (uuid4_hex amb))) +:+ ".dita".

Definition topic_id : string :=
  text (replace (chars ".dita") [] (chars file_name)).

(** [context.metadata.get("revision_date") or today] *)
Definition _rev_date_fb (md : Metadata) : string :=
  match revision_date md with
  | Some d => if String.eqb d "" then today_for_critdates amb else d
  | None => today_for_critdates amb
  end.

(** Lines 195-211: the navigation entry, as it stands when the
    block ends. *)
Definition fallback_topicref (md : Metadata) : ET.Element :=
  let topicref :=
    ET.new "topicref" [("href", "topics/" +:+ file_name); ("locktitle", "yes")] in
  let topicref := ET.set "data-level" "1" topicref in
  let navtitle_ref := ET.set_text fallback_title (ET.new "navtitle" []) in
  let critdates_ref := ET.new "critdates" [] in
  let critdates_ref :=
    ET.append (ET.new "created" [("date", _rev_date_fb md)]) critdates_ref in
  let critdates_ref :=
    ET.append (ET.new "revised" [("modified", _rev_date_fb md)]) critdates_ref in
  let topicmeta_ref := ET.new "topicmeta" [] in
  let topicmeta_ref := ET.append navtitle_ref topicmeta_ref in
  let topicmeta_ref := ET.append critdates_ref topicmeta_ref in
  let topicmeta_ref :=
    ET.append (ET.new "othermeta" [("name", "tocIndex"); ("content", "1")])
              topicmeta_ref in
  let topicmeta_ref :=
    ET.append (ET.new "othermeta" [("name", "foldout"); ("content", "false")])
              topicmeta_ref in
  let topicmeta_ref :=
    ET.append (ET.new "othermeta" [("name", "tdm"); ("content", "false")])
              topicmeta_ref in
  ET.append topicmeta_ref topicref.

(** Lines 176-213. *)
Definition fallback (g : Generated) : Result E (DitaContext Images) :=
  let context := g_context g in
  if bool_decide (topics context = ∅) then
    let md := metadata context in
    '(concept_root, conbody) ←
      create_dita_concept fallback_title topic_id
        (default (today_for_concept amb) (revision_date md));
    all_blocks ← iter_block_items (g_doc g);
    conbody ← _add_content_to_topic conbody all_blocks (g_images g) (g_color_rules g);
    let map_root := ET.append (fallback_topicref md) (g_map_root g) in
    mret (with_topic (with_root context map_root) file_name
                     (ET.plug concept_root conbody))
  else mret context.

Definition convert_docx_to_dita_internal (md : Metadata)
    (plugin_config : option (PluginConfig ColorRules))
  : Result E (DitaContext Images) :=
  g ← generate file_path md plugin_config;
  fallback g.

End fallback.
End conversion.

End docx_conversion_logic.

(** ** [pathlib] (POSIX flavour, as in CPython 3.11) *)

Module pathlib.
Import pystr.

(** A [PurePosixPath] as the library keeps it once parsed: the root
    (empty, "/" or "//") and the components after it; the parser leaves
    no component that is empty, is "." or has a "/" in it. *)
Record Path := {
  root : list ascii;
  parts : list (list ascii)
}.

(** [sep.join(parts)] *)
Fixpoint join (sep : list ascii) (parts : list (list ascii)) : list ascii :=
  match parts with
  | [] => []
  | [part] => part
  | part :: rest => part ++ sep ++ join sep rest
  end.

(** [str(path)] *)
Definition str (path : Path) : list ascii :=
  match root path ++ join (chars "/") (parts path) with
  | [] => chars "."
  | s => s
  end.

(** [path.name]: the last component, if there is one. *)
Definition name (path : Path) : list ascii := default [] (last (parts path)).

(** [path.suffix] *)
Definition suffix (path : Path) : list ascii :=
  let name := name path in
  let i := ospath.rfind "." name in
  if (0 <? i) && (i <? Z.of_nat (length name) - 1)
  then drop (Z.to_nat i) name
  else [].

End pathlib.

(** ** The document handler ([docx_handler.py]) *)

Module docx_handler.
Import pystr docx_conversion_logic.

(** [DocxDocumentHandler.can_handle] *)
Definition can_handle (file_path : pathlib.Path) : bool :=
  bool_decide (lower (pathlib.suffix file_path) = chars ".docx").

(** [DocxDocumentHandler.get_supported_extensions] *)
Definition get_supported_extensions : list string := [".docx"%string].

Section handler.
Context {E D Block Images ImageMap ColorRules Node : Type} `{!style_analyzer.Document D}.

Variable open_document : string -> Result E D.
Variable no_images : Images.
Variable no_color_rules : ColorRules.
Variable STYLE_MAP : gmap string Z.
Variable extract_images_to_context :
  D -> DitaContext Images -> Result E (ImageMap * DitaContext Images).
Variable add_orlando_topicmeta : ET.Element -> Metadata -> Result E ET.Element.
Variable build_document_structure :
  D -> gmap string Z -> ImageMap -> Result E (list Node).
Variable determine_node_roles : list Node -> Result E (list Node).
Variable generate_dita_from_structure :
  list Node -> DitaContext Images -> Metadata -> ImageMap -> ET.Element ->
  list Z -> ColorRules -> Result E (DitaContext Images * ET.Element).
Variable iter_block_items : D -> Result E (list Block).
Variable create_dita_concept :
  string -> string -> string -> Result E (ET.Around * ET.Element).
Variable _add_content_to_topic :
  ET.Element -> list Block -> ImageMap -> ColorRules -> Result E ET.Element.
(** [DocumentHandlerBase.validate_file_exists], of the toolkit. *)
Variable validate_file_exists : pathlib.Path -> Result E unit.

(** [DocxDocumentHandler.convert_to_dita].  [_plugin_config] is the
    attribute that the plugin sets when it activates: [None] when it is
    not set (the handler then passes an empty dict), otherwise its
    value, which may itself be [None]. *)
Definition convert_to_dita (amb : Ambient)
    (_plugin_config : option (option (PluginConfig ColorRules)))
    (file_path : pathlib.Path) (md : Metadata) : Result E (DitaContext Images) :=
  _ ← validate_file_exists file_path;
  let plugin_config :=
    default (Some {| docx_color_conversion := None |}) _plugin_config in
  convert_docx_to_dita_internal open_document no_images no_color_rules STYLE_MAP
    extract_images_to_context add_orlando_topicmeta build_document_structure
    determine_node_roles generate_dita_from_structure iter_block_items
    create_dita_concept _add_content_to_topic amb
    (text (pathlib.str file_path)) md plugin_config.

End handler.
End docx_handler.

(** ** Colours ([color_utils.py]) *)

Module color_utils.
Import pystr.

(** *** [int(s, 16)] *)

Definition hex_value (c : ascii) : option Z :=
  if between 48 57 c then Some (Z.of_N (code c) - 48)
  else if between 97 102 c then Some (Z.of_N (code c) - 87)
  else if between 65 70 c then Some (Z.of_N (code c) - 55)
  else None.

(** Groups of hexadecimal digits separated by single underscores. *)
Fixpoint literal_hex (after_digit : bool) (s : list ascii) (acc : Z) : option Z :=
  match s with
  | [] => if after_digit then Some acc else None
  | c :: r =>
      match hex_value c with
      | Some d => literal_hex true r (16 * acc + d)
      | None =>
          if Ascii.eqb c "_" && after_digit then literal_hex false r acc else None
      end
  end.

(** After the sign: an optional "0x" or "0X", which one underscore may
    follow, then the digits. *)
Definition hex_body (body : list ascii) : option Z :=
  match body with
  | z :: x :: rest =>
      if Ascii.eqb z "0" && (Ascii.eqb x "x" || Ascii.eqb x "X") then
        match rest with
        | u :: rest' =>
            if Ascii.eqb u "_" then literal_hex false rest' 0
            else literal_hex false rest 0
        | [] => None
        end
      else literal_hex false body 0
  | _ => literal_hex false body 0
  end.

(** [int(s, 16)]; [None] stands for [ValueError]. *)
Definition int_base16 (s : list ascii) : option Z :=
  match strip_int s with
  | c :: r =>
      if Ascii.eqb c "-" then Z.opp <$> hex_body r
      else if Ascii.eqb c "+" then hex_body r
      else hex_body (c :: r)
  | [] => None
  end.

(** The rules of the configuration: [color_rules.get(key, {})] for the
    three keys the function reads.  [tolerance] is kept in the order of
    [items()]. *)
Record ColorRules {Spec : Type} := {
  color_mappings : gmap string string;
  theme_map : gmap string string;
  tolerance : list (string * Spec)
}.
Arguments ColorRules Spec : clear implicits.

Section tolerance.
(** The floating-point part is kept abstract.  [rgb_to_hsv r g b] is
    lines 52-61 after the three conversions: the channels divided by
    255.0, [colorsys.rgb_to_hsv], and the scaling to degrees and per
    cent; [in_spec hsv spec] is lines 65-80, the test of one entry.
    Either may raise, which is [None]. *)
Context {Spec HSV : Type}.
Variable rgb_to_hsv : Z -> Z -> Z -> option HSV.
Variable in_spec : HSV -> Spec -> option bool.

(** Lines 63-81: the first entry that accepts the colour; an entry that
    raises ends the search. *)
Fixpoint first_in_tolerance (hsv : HSV) (tolerance_cfg : list (string * Spec))
  : option string :=
  match tolerance_cfg with
  | [] => None
  | (out_class, spec) :: rest =>
      match in_spec hsv spec with
      | Some true => Some out_class
      | Some false => first_in_tolerance hsv rest
      | None => None
      end
  end.

Definition convert_color_to_outputclass (color_value : option string)
    (color_rules : ColorRules Spec) : option string :=
  match color_value with
  | None => None
  | Some color_value =>
      if String.eqb color_value "" then None else
      let color_lower := lower (chars color_value) in
      match color_mappings color_rules !! text color_lower with
      | Some out_class => Some out_class
      | None =>
          if startswith (chars "theme-") (chars color_value) then
            theme_map color_rules !! text (drop 6 (chars color_value))
          else if startswith (chars "background-") (chars color_value) then
            color_mappings color_rules !! color_value
          else
            let tolerance_cfg := tolerance color_rules in
            if startswith (chars "#") color_lower
               && (length color_lower =? 7)%nat
               && negb (bool_decide (tolerance_cfg = []))
            then
              r ← int_base16 (ospath.slice color_lower 1 3);
              g ← int_base16 (ospath.slice color_lower 3 5);
              b ← int_base16 (ospath.slice color_lower 5 7);
              hsv ← rgb_to_hsv r g b;
              first_in_tolerance hsv tolerance_cfg
            else None
      end
  end.

End tolerance.
End color_utils.

(** ** The specification's words, for comparison with the code *)

Module spec.
Import pystr style_analyzer.

(** A name that the pattern [^Heading\s+\d+$] accepts without regard to
    letter case: the word, white space, the number [ds], and the end of
    the name (a final newline is allowed by [$]). *)
Record heading_name (h ws ds nl : list ascii) : Prop := {
  hn_word : lower h = lower (chars "Heading");
  hn_space : ws <> [] /\ forallb isspace ws = true;
  hn_number : ds <> [] /\ forallb isdecimal ds = true;
  hn_end : nl = [] \/ nl = ["010"%char]
}.

(** One more segment of a numeric prefix: a dot or a dash and a number. *)
Definition segment (g : ascii * list ascii) : bool :=
  is_dot_dash (fst g) && forallb isdecimal (snd g)
  && negb (bool_decide (snd g = [])).

Definition segments_text (gs : list (ascii * list ascii)) : list ascii :=
  concat (map (fun g => fst g :: snd g) gs).

(** [rest] neither prolongs the last number nor starts a further
    segment. *)
Definition prefix_ends (rest : list ascii) : bool :=
  match rest with
  | c :: r => negb (isdecimal c) && negb (is_dot_dash c && negb (stops isdecimal r) )
  | [] => true
  end.

(** The prefix ends at a word boundary ([\b] right after a decimal):
    nothing follows it, or a character that is not a word character. *)
Definition boundary_after_word (s : list ascii) : bool :=
  match s with
  | [] => true
  | c :: _ => negb (isword c)
  end.

(** A name that begins with a numeric dotted or dashed prefix: the
    number [d0], the further segments [gs], and whatever follows. *)
Record numeric_prefix (d0 : list ascii) (gs : list (ascii * list ascii))
    (rest : list ascii) : Prop := {
  np_first : d0 <> [] /\ forallb isdecimal d0 = true;
  np_more : forallb segment gs = true;
  np_end : prefix_ends rest = true
}.



End spec.

(** ** A small instance of the collaborators *)

Module sample.
Import style_analyzer docx_conversion_logic.

(** A document is its catalog and its blocks; blocks are numbers;
    nothing raises; generation produces no topic. *)
Record Doc := { doc_styles : Styles; doc_blocks : list nat }.

#[global] Instance Doc_document : Document Doc := doc_styles.

Definition open_document (path : string) : Result unit Doc :=
  Ok {| doc_styles := Catalog []; doc_blocks := [1; 2; 3]%nat |}.

Definition extract_images_to_context (doc : Doc) (context : DitaContext unit)
  : Result unit (unit * DitaContext unit) := Ok (tt, context).

Definition add_orlando_topicmeta (map_root : ET.Element) (md : Metadata)
  : Result unit ET.Element := Ok (ET.append (ET.new "topicmeta" []) map_root).

Definition build_document_structure (doc : Doc) (m : gmap string Z) (imgs : unit)
  : Result unit (list unit) := Ok [].

Definition determine_node_roles (nodes : list unit) : Result unit (list unit) :=
  Ok nodes.

Definition generate_dita_from_structure (nodes : list unit)
    (context : DitaContext unit) (md : Metadata) (imgs : unit)
    (map_root : ET.Element) (counters : list Z) (rules : unit)
  : Result unit (DitaContext unit * ET.Element) := Ok (context, map_root).

Definition iter_block_items (doc : Doc) : Result unit (list nat) :=
  Ok (doc_blocks doc).

Definition create_dita_concept (title id date : string)
  : Result unit (ET.Around * ET.Element) :=
  Ok (ET.Inside "concept" [("id", id)] None
                [ET.set_text title (ET.new "title" [])] ET.Here [],
      ET.new "conbody" []).

Definition _add_content_to_topic (conbody : ET.Element) (blocks : list nat)
    (imgs : unit) (rules : unit) : Result unit ET.Element :=
  Ok (fold_left (fun body _ => ET.append (ET.new "p" []) body) blocks conbody).

Definition amb : Ambient :=
  {| uuid4_hex := "0123456789abcdef0123456789abcdef";
     today_for_concept := "2024-05-01";
     today_for_critdates := "2024-05-01" |}.

Definition md : Metadata :=
  {| manual_title := Some "Manual"%string; revision_date := None;
     style_heading_map := None |}.

Definition run (file_path : string) : Result unit (DitaContext unit) :=
  convert_docx_to_dita_internal open_document tt tt ∅
    extract_images_to_context add_orlando_topicmeta build_document_structure
    determine_node_roles generate_dita_from_structure iter_block_items
    create_dita_concept _add_content_to_topic amb file_path md None.

End sample.

(** ** Vocabulary of the proofs *)

Module vocabulary.
Import pystr style_analyzer spec.

(** Groups of a match as strings, for display. *)
Definition group_1_text (m : option re.Match) : option string :=
  text <$> (m ≫= re.group_1).

Definition group_0_text (m : option re.Match) : option string :=
  text <$> (re.group_0 <$> m).

(** *** The patterns as single scans *)

(** A literal of the pattern against the subject under [re.IGNORECASE]:
    the engine lower-cases the subject character. *)
Fixpoint match_literal_ignorecase (lit s : list ascii) : option (list ascii) :=
  match lit, s with
  | [], _ => Some s
  | a :: lit', b :: s' =>
      if Ascii.eqb (lower_char a) (lower_char b)
      then match_literal_ignorecase lit' s' else None
  | _ :: _, [] => None
  end.

(** Group 1 of [builtin_heading_pattern] by a single scan: the classes
    [\s] and [\d] are disjoint and [$] cannot hold before a decimal, so
    the greedy runs are the only candidates. *)
Definition heading_scan (name : list ascii) : option (list ascii) :=
  match match_literal_ignorecase (chars "Heading") name with
  | None => None
  | Some r =>
      let '(ws, r1) := span isspace r in
      let '(ds, r2) := span isdecimal r1 in
      match ws, ds with
      | _ :: _, _ :: _ => if re.at_dollar r2 then Some ds else None
      | _, _ => None
      end
  end.

(** [([.\-]\d+){0,n}\b] on [s], greedy with backtracking: one more
    repetition is tried first and given up when the rest then fails.
    Returns the text matched.  A shorter run of decimals is never a
    candidate: it would be followed by a decimal, where neither [[.\-]]
    nor [\b] matches. *)
Fixpoint numeric_groups (n : nat) (s : list ascii) : option (list ascii) :=
  let stop := if boundary_after_word s then Some [] else None in
  match n with
  | O => stop
  | S n' =>
      match s with
      | c :: r =>
          if is_dot_dash c then
            let '(ds, r') := span isdecimal r in
            match ds with
            | [] => stop
            | _ :: _ =>
                match numeric_groups n' r' with
                | Some m => Some (c :: ds ++ m)
                | None => stop
                end
            end
          else stop
      | [] => stop
      end
  end.

(** Group 0 of [numeric_leading_pattern] by a single scan. *)
Definition numeric_scan (name : list ascii) : option (list ascii) :=
  let '(ws, r0) := span isspace name in
  let '(d0, r1) := span isdecimal r0 in
  match d0 with
  | [] => None
  | _ :: _ =>
      match numeric_groups 8 r1 with
      | Some m => Some (ws ++ d0 ++ m)
      | None => None
      end
  end.

(** Group 1 of the search for [number_pattern]: the first maximal run
    of decimals. *)
Definition first_decimals (name : list ascii) : option (list ascii) :=
  let '(_, r) := span (fun c => negb (isdecimal c)) name in
  let '(ds, _) := span isdecimal r in
  match ds with
  | [] => None
  | _ :: _ => Some ds
  end.

(** The character before the position once [a] has been consumed. *)
Fixpoint last_seen (prev : option ascii) (a : list ascii) : option ascii :=
  match a with
  | [] => prev
  | c :: a' => last_seen (Some c) a'
  end.

(** [\b] and then a final answer computed by [F]. *)
Definition then_boundary {R} (F : list ascii -> option (list ascii) -> R) : @re.Cont R :=
  fun prev s g =>
    if xorb (re.word_at prev) (re.word_at (head s)) then Some (F s g) else None.

(** An entry of the catalog that does not end the loop: it can be read
    and its iteration does not raise (the map it starts from plays no
    role in that). *)
Definition passes (e : StyleEntry) : bool :=
  match e with
  | Readable style => bool_decide (is_Some (visit style ∅))
  | Raises => false
  end.

(** The characters that a lower-cased "Heading N" name is made of. *)
Definition heading_char (c : ascii) : bool :=
  isspace c || isdecimal c || existsb (Ascii.eqb c) (chars "heading").

(** A pattern with a character that no such name has. *)
Definition foreign (pattern : string) : bool :=
  existsb (fun c => negb (heading_char c)) (chars pattern).

(** The characters of [uuid.uuid4().hex]: lower-case hexadecimal digits. *)
Definition hex_char (c : ascii) : bool :=
  between 48 57 c || between 97 102 c.

(** What the parser of [pathlib] guarantees of a path: the root is
    empty, "/" or "//", and no component is empty, is "." or has a "/". *)
Definition parsed (path : pathlib.Path) : bool :=
  bool_decide (pathlib.root path ∈ [[]; chars "/"; chars "//"])
  && forallb (fun part =>
                negb (bool_decide (part = [])) && negb (bool_decide (part = chars "."))
                && forallb (fun c => negb (Ascii.eqb c "/")) part)
             (pathlib.parts path).

(** A stand-in for the floating-point part of the colour test: the
    colour is kept as its three channels, and an entry of the tolerance
    table is the least red it accepts. *)
Definition channels (r g b : Z) : option (Z * Z * Z) := Some (r, g, b).

Definition red_at_least (rgb : Z * Z * Z) (least : Z) : option bool :=
  Some (least <=? fst (fst rgb)).

(** Neither white space nor a decimal comes first. *)
Definition starts_plain (s : list ascii) : bool :=
  match s with
  | [] => true
  | c :: _ => negb (isspace c) && negb (isdecimal c)
  end.

(** Reading a navigation entry: the [content] of the [othermeta]
    children called [key] under its [topicmeta], and the texts of its
    [navtitle]. *)
Definition othermeta_values (key : string) (topicref : ET.Element)
  : list (option string) :=
  topicmeta ← ET.findall "topicmeta" topicref;
  othermeta ← ET.findall "othermeta" topicmeta;
  if bool_decide (ET.get "name" othermeta = Some key)
  then [ET.get "content" othermeta] else [].

Definition navtitle_texts (topicref : ET.Element) : list (option string) :=
  topicmeta ← ET.findall "topicmeta" topicref;
  navtitle ← ET.findall "navtitle" topicmeta;
  [ET.text navtitle].

(** Every level of a style-to-level map is between 1 and 9. *)
Definition in_range (m : gmap string Z) : Prop :=
  forall nm l, m !! nm = Some l -> 1 <= l <= 9.

(** The exclusion map built so far [r] against the entries seen so far
    [m]: level 1 is its only key and holds the flagged styles. *)
Record level_1_only (r : gmap Z (gset string)) (m : gmap string bool) : Prop := {
  only_key : forall lvl, lvl <> 1 -> r !! lvl = None;
  flagged_in : forall s, s ∈ default ∅ (r !! 1) <-> m !! s = Some true;
  key_when_flagged : is_Some (r !! 1) <-> exists s, m !! s = Some true
}.

End vocabulary.

(** * Properties *)

(** ** The patterns at work *)

Section pattern_examples.
Import pystr style_analyzer vocabulary.

Example heading_any_case :
  group_1_text (re.match_ builtin_heading_pattern (chars "hEADING   07")) = Some "07"%string.
Proof. reflexivity. Qed.

Example heading_before_final_newline :
  group_1_text (re.match_ builtin_heading_pattern
                  (chars "Heading 3" ++ ["010"%char])) = Some "3"%string.
Proof. reflexivity. Qed.

Example heading_needs_space :
  re.match_ builtin_heading_pattern (chars "Heading3") = None.
Proof. reflexivity. Qed.

Example prefix_with_dots_and_dashes :
  group_0_text (re.match_ numeric_leading_pattern (chars " 1.2-3 Title"))
  = Some " 1.2-3"%string.
Proof. reflexivity. Qed.

Example prefix_backs_off_to_a_boundary :
  group_0_text (re.match_ numeric_leading_pattern (chars "1.2abc")) = Some "1"%string.
Proof. reflexivity. Qed.

Example prefix_without_boundary :
  re.match_ numeric_leading_pattern (chars "12abc") = None.
Proof. reflexivity. Qed.

Example prefix_of_at_most_nine_numbers :
  group_0_text (re.match_ numeric_leading_pattern (chars "1.2.3.4.5.6.7.8.9.10.11"))
  = Some "1.2.3.4.5.6.7.8.9"%string.
Proof. reflexivity. Qed.

Example first_number_of_a_name :
  group_1_text (re.search number_pattern (chars "Level 12, part 3")) = Some "12"%string.
Proof. reflexivity. Qed.

End pattern_examples.

Import pystr style_analyzer vocabulary.

(** ** Characters and strings *)

Section char_facts.

(** A property of characters that holds by running through all 256. *)
Ltac by_chars :=
  let c := fresh "c" in
  intros c; destruct c as [[] [] [] [] [] [] [] []]; vm_compute;
  first [ reflexivity | discriminate | tauto | congruence
        | intros; first [ discriminate | reflexivity | congruence | tauto ] ].

Lemma decimal_not_space : forall c, isdecimal c = true -> isspace c = false.
Proof. by_chars. Qed.

Lemma space_not_decimal : forall c, isspace c = true -> isdecimal c = false.
Proof. by_chars. Qed.

Lemma decimal_is_word : forall c, isdecimal c = true -> isword c = true.
Proof. by_chars. Qed.

Lemma decimal_is_digit : forall c, isdecimal c = true -> isdigit_char c = true.
Proof. by_chars. Qed.

Lemma decimal_not_dot_dash : forall c, isdecimal c = true -> is_dot_dash c = false.
Proof. by_chars. Qed.

Lemma dot_dash_not_word : forall c, is_dot_dash c = true -> isword c = false.
Proof. by_chars. Qed.

Lemma dot_dash_not_decimal : forall c, is_dot_dash c = true -> isdecimal c = false.
Proof. by_chars. Qed.

Lemma lower_keeps_space : forall c, isspace (lower_char c) = isspace c.
Proof. by_chars. Qed.

Lemma lower_keeps_decimal : forall c, isdecimal (lower_char c) = isdecimal c.
Proof. by_chars. Qed.

Lemma lower_char_idem : forall c, lower_char (lower_char c) = lower_char c.
Proof. by_chars. Qed.

Lemma decimal_lower : forall c, isdecimal c = true -> lower_char c = c.
Proof. by_chars. Qed.

Lemma space_lower : forall c, isspace c = true -> lower_char c = c.
Proof. by_chars. Qed.

Lemma digit_value_rangeb :
  forall c, isdecimal c = true -> (0 <=? digit_value c) && (digit_value c <=? 9) = true.
Proof. by_chars. Qed.

Lemma digit_value_range : forall c, isdecimal c = true -> 0 <= digit_value c <= 9.
Proof. intros c H. apply digit_value_rangeb in H. lia. Qed.

End char_facts.

Lemma chars_text l : chars (text l) = l.
Proof. apply list_ascii_of_string_of_list_ascii. Qed.

Lemma text_chars s : text (chars s) = s.
Proof. apply string_of_list_ascii_of_string. Qed.

Lemma ascii_eqb_true a b : Ascii.eqb a b = true <-> a = b.
Proof. apply Ascii.eqb_eq. Qed.

Section span_facts.
Variable p : ascii -> bool.

Lemma span_app s : fst (span p s) ++ snd (span p s) = s.
Proof.
  induction s as [|c r IH]; simpl; [done|].
  destruct (p c); [|done]. destruct (span p r) as [a b]; simpl in *. by rewrite IH.
Qed.

Lemma span_fst_all s : forallb p (fst (span p s)) = true.
Proof.
  induction s as [|c r IH]; simpl; [done|].
  destruct (p c) eqn:Hc; [|done]. destruct (span p r) as [a b]; simpl in *.
  by rewrite Hc.
Qed.

Lemma span_snd_head s c r : snd (span p s) = c :: r -> p c = false.
Proof.
  induction s as [|x s IH]; simpl; [done|].
  destruct (p x) eqn:Hx.
  - destruct (span p s) as [a b]; simpl in *. exact IH.
  - simpl. intros [= <- _]. exact Hx.
Qed.

Lemma span_run a b : forallb p a = true -> stops p b = true -> span p (a ++ b) = (a, b).
Proof.
  intros Ha Hb. induction a as [|c a IH]; simpl in *.
  - destruct b as [|c b]; [done|]. simpl in Hb. destruct (p c) eqn:Hc; [discriminate Hb | simpl; by rewrite Hc].
  - apply andb_prop in Ha as [Hc Ha]. rewrite Hc. rewrite (IH Ha). done.
Qed.

Lemma span_stops s : stops p (snd (span p s)) = true.
Proof.
  destruct (snd (span p s)) as [|c r] eqn:H; [done|].
  simpl. by rewrite (span_snd_head _ _ _ H).
Qed.

End span_facts.

(** ** The backtracking matcher on the patterns of the classifier *)

Section engine_facts.
Import re.
Context {R : Type}.
Implicit Types k : @Cont R.

Lemma orelse_none (a : option R) : orelse a None = a.
Proof. by destruct a. Qed.

Lemma greedy_run p least k (ok : option ascii -> Prop) :
  (forall c, p c = true -> ok (Some c)) ->
  (forall prev c s g, ok prev -> p c = true -> k prev (c :: s) g = None) ->
  forall s count prev g, ((least <= count)%nat -> ok prev) ->
    greedy p least count prev s g k =
      if (least <=? count + length (fst (span p s)))%nat
      then k (last_seen prev (fst (span p s))) (snd (span p s)) g else None.
Proof.
  intros Hok Hk s. induction s as [|c s IH]; intros count prev g Hprev.
  - simpl. by rewrite Nat.add_0_r.
  - cbn [greedy span]. destruct (p c) eqn:Hc.
    + rewrite IH by (intros _; by apply Hok).
      destruct (span p s) as [a b]. cbn [fst snd length last_seen].
      replace (count + S (length a))%nat with (S count + length a)%nat by lia.
      destruct (least <=? count)%nat eqn:Hle.
      * rewrite (Hk prev c s g) by (apply Hprev; by apply Nat.leb_le) || done.
        apply orelse_none.
      * apply orelse_none.
    + simpl. by rewrite Nat.add_0_r.
Qed.

Lemma greedy_total p least k :
  (forall prev s g, is_Some (k prev s g)) ->
  forall s count prev g,
    greedy p least count prev s g k =
      if (least <=? count + length (fst (span p s)))%nat
      then k (last_seen prev (fst (span p s))) (snd (span p s)) g else None.
Proof.
  intros Hk s. induction s as [|c s IH]; intros count prev g.
  - simpl. by rewrite Nat.add_0_r.
  - cbn [greedy span]. destruct (p c) eqn:Hc.
    + rewrite IH. destruct (span p s) as [a b]. cbn [fst snd length last_seen].
      replace (count + S (length a))%nat with (S count + length a)%nat by lia.
      destruct (least <=? S count + length a)%nat eqn:Hle.
      * by destruct (Hk (last_seen (Some c) a) b g) as [x ->].
      * simpl. apply Nat.leb_gt in Hle.
        destruct (least <=? count)%nat eqn:Hle'; [|done].
        apply Nat.leb_le in Hle'. lia.
    + simpl. by rewrite Nat.add_0_r.
Qed.

End engine_facts.

Section pattern_facts.
Import re spec.

Lemma exec_literal {R} lit : forall prev s g (k : @Cont R),
  exec (literal_ignorecase_chars lit) prev s g k =
    match match_literal_ignorecase lit s with
    | Some r => k (last_seen prev (take (length lit) s)) r g
    | None => None
    end.
Proof.
  induction lit as [|a lit IH]; intros prev s g k; [done|].
  cbn [literal_ignorecase_chars exec match_literal_ignorecase].
  destruct s as [|c s]; [done|].
  destruct (Ascii.eqb (lower_char a) (lower_char c)); [|done].
  by rewrite IH.
Qed.

Lemma decimal_not_at_dollar c s : isdecimal c = true -> re.at_dollar (c :: s) = false.
Proof.
  destruct s; [|done]. revert c.
  intros c; destruct c as [[] [] [] [] [] [] [] []]; vm_compute;
    first [ reflexivity | discriminate ].
Qed.

Lemma span_length p s :
  (length s - length (snd (span p s)))%nat = length (fst (span p s)).
Proof.
  rewrite <- (span_app p s) at 1. rewrite length_app. lia.
Qed.

Lemma take_span p s :
  take (length s - length (snd (span p s))) s = fst (span p s).
Proof.
  rewrite span_length. rewrite <- (span_app p s) at 2. by rewrite take_app_length.
Qed.

Lemma take_all_but {A} (a b : list A) :
  take (length (a ++ b) - length b) (a ++ b) = a.
Proof.
  rewrite length_app. replace (length a + length b - length b)%nat with (length a) by lia.
  apply take_app_length.
Qed.

Lemma match_builtin_heading s :
  re.match_ builtin_heading_pattern s ≫= group_1 = heading_scan s.
Proof.
  unfold re.match_, attempt, builtin_heading_pattern, literal_ignorecase, heading_scan.
  cbn [exec]. rewrite exec_literal.
  destruct (match_literal_ignorecase (chars "Heading") s) as [r|]; [|done].
  rewrite (greedy_run isspace 1 _ (fun _ => True)); [|done| |done].
  - rewrite (greedy_run isdecimal 1 _ (fun _ => True)); [|done| |done].
    + rewrite take_span.
      destruct (span isspace r) as [ws r1]. cbn [fst snd].
      destruct (span isdecimal r1) as [ds r2]. cbn [fst snd].
      destruct ws as [|w ws]; [done|]. destruct ds as [|d ds]; [done|].
      simpl.
      by destruct (re.at_dollar r2).
    + intros prev c s' g _ Hc. cbn [exec]. by rewrite decimal_not_at_dollar.
  - intros prev c s' g _ Hc. cbn [exec greedy]. by rewrite (space_not_decimal _ Hc).
Qed.



Lemma upto_rejects_decimal {R} (F : list ascii -> option (list ascii) -> R) n :
  forall prev c s g, word_at prev = true -> isdecimal c = true ->
    upto (exec segment_pattern) n prev (c :: s) g (then_boundary F) = None.
Proof.
  intros prev c s g Hprev Hc.
  assert (Hb : then_boundary F prev (c :: s) g = None).
  { unfold then_boundary. simpl. by rewrite Hprev, (decimal_is_word _ Hc). }
  destruct n as [|n]; simpl; [done|].
  by rewrite (decimal_not_dot_dash _ Hc), Hb.
Qed.

Lemma last_seen_word prev ds :
  ds <> [] -> forallb isdecimal ds = true -> word_at (last_seen prev ds) = true.
Proof.
  revert prev. induction ds as [|d ds IH]; intros prev Hne Hds; [done|].
  simpl in *. apply andb_prop in Hds as [Hd Hds].
  destruct ds as [|d' ds']; [by apply decimal_is_word|]. by apply IH.
Qed.

Lemma upto_numeric_groups {R} (F : list ascii -> option (list ascii) -> R) n :
  forall prev s g, word_at prev = true ->
    upto (exec segment_pattern) n prev s g (then_boundary F) =
      (m ← numeric_groups n s; Some (F (drop (length m) s) g)).
Proof.
  induction n as [|n IH]; intros prev s g Hprev.
  - cbn [upto numeric_groups]. unfold then_boundary, boundary_after_word.
    rewrite Hprev. destruct s as [|c s]; [done|]. simpl. by destruct (isword c).
  - assert (Hstop : then_boundary F prev s g =
              ((if boundary_after_word s then Some [] else None)
                 ≫= fun m : list ascii => Some (F (drop (length m) s) g))).
    { unfold then_boundary, boundary_after_word. rewrite Hprev.
      destruct s as [|c s]; [done|]. simpl. by destruct (isword c). }
    cbn [upto numeric_groups]. unfold segment_pattern at 1. cbn [exec].
    destruct s as [|c r]; [by rewrite Hstop|].
    destruct (is_dot_dash c) eqn:Hc; [|by rewrite Hstop].
    rewrite (greedy_run isdecimal 1 _ (fun prev => word_at prev = true)).
    + pose proof (span_fst_all isdecimal r) as Hds.
      pose proof (span_app isdecimal r) as Hr.
      destruct (span isdecimal r) as [ds r']. cbn [fst snd] in *.
      destruct ds as [|d ds]; [by rewrite Hstop|].
      cbn [length Nat.leb Nat.add].
      rewrite IH by (by apply last_seen_word).
      destruct (numeric_groups n r') as [m|]; [|by rewrite Hstop].
      simpl. f_equal. f_equal. rewrite <- Hr. simpl.
      by rewrite length_app, <- drop_drop, drop_app_length.
    + intros c' Hc'. by apply decimal_is_word.
    + intros prev' c' s' g' Hp Hc'. by apply upto_rejects_decimal.
    + simpl. lia.
Qed.

Lemma numeric_groups_prefix n : forall s m,
  numeric_groups n s = Some m -> s = m ++ drop (length m) s.
Proof.
  induction n as [|n IH]; intros s m.
  - simpl. destruct (boundary_after_word s); [|done]. by intros [= <-].
  - assert (Hstop : (if boundary_after_word s then Some [] else None) = Some m ->
              s = m ++ drop (length m) s).
    { destruct (boundary_after_word s); [|done]. by intros [= <-]. }
    cbn [numeric_groups]. destruct s as [|c r]; [done|].
    destruct (is_dot_dash c); [|done].
    pose proof (span_app isdecimal r) as Hr.
    destruct (span isdecimal r) as [ds r']. cbn [fst snd] in *.
    destruct ds as [|d ds]; [done|].
    destruct (numeric_groups n r') as [m'|] eqn:Hm; [|done].
    intros [= <-]. apply IH in Hm. rewrite <- Hr. simpl. f_equal. f_equal.
    rewrite <- app_assoc. rewrite length_app, <- drop_drop.
    rewrite drop_app_length. by rewrite <- Hm.
Qed.

Lemma exec_segments_then_boundary {R} (F : list ascii -> option (list ascii) -> R)
    prev s g :
  word_at prev = true ->
  exec segments_then_boundary prev s g (fun _ rest g' => Some (F rest g')) =
    (m ← numeric_groups 8 s; Some (F (drop (length m) s) g)).
Proof. exact (upto_numeric_groups F 8 prev s g). Qed.

Lemma segments_reject_decimal {R} (F : list ascii -> option (list ascii) -> R)
    prev c s g :
  word_at prev = true -> isdecimal c = true ->
  exec segments_then_boundary prev (c :: s) g (fun _ rest g' => Some (F rest g')) = None.
Proof. exact (upto_rejects_decimal F 8 prev c s g). Qed.

Lemma match_numeric_leading s :
  group_0 <$> re.match_ numeric_leading_pattern s = numeric_scan s.
Proof.
  unfold re.match_, attempt, numeric_leading_pattern, numeric_scan.
  cbn [exec].
  rewrite (greedy_run isspace 0 _ (fun _ => True)); [|done| |done].
  - cbn [Nat.leb]. pose proof (span_app isspace s) as Hs.
    destruct (span isspace s) as [ws r0]. cbn [fst snd] in *.
    rewrite (greedy_run isdecimal 1 _ (fun prev => word_at prev = true)).
    + pose proof (span_app isdecimal r0) as Hr0.
      pose proof (span_fst_all isdecimal r0) as Hd0.
      destruct (span isdecimal r0) as [d0 r1]. cbn [fst snd] in *.
      destruct d0 as [|d d0]; [done|]. cbn [length Nat.leb Nat.add].
      rewrite exec_segments_then_boundary by (by apply last_seen_word).
      destruct (numeric_groups 8 r1) as [m|] eqn:Hm; [|done].
      simpl. f_equal. apply numeric_groups_prefix in Hm.
      remember (drop (length m) r1) as rest eqn:Hrest. clear Hrest.
      subst s r0 r1.
      replace (ws ++ (d :: d0) ++ m ++ rest) with ((ws ++ (d :: d0) ++ m) ++ rest)
        by (by rewrite <- !app_assoc).
      apply take_all_but.
    + intros c' Hc'. by apply decimal_is_word.
    + intros prev' c' s' g' Hp Hc'. by apply segments_reject_decimal.
    + simpl. lia.
  - intros prev c s' g _ Hc. cbn [exec greedy]. by rewrite (space_not_decimal _ Hc).
Qed.

Lemma search_number s : forall prev,
  re.search_from number_pattern prev s ≫= group_1 = first_decimals s.
Proof.
  induction s as [|c s IH]; intros prev; [done|].
  cbn [search_from]. unfold attempt at 1, number_pattern at 1. cbn [exec].
  rewrite greedy_total by eauto. rewrite take_span.
  unfold first_decimals. cbn [span].
  destruct (isdecimal c) eqn:Hc; cbn [negb span]; rewrite ?Hc.
  - destruct (span isdecimal s) as [a b]. done.
  - cbn [fst snd length Nat.add Nat.leb orelse]. rewrite IH.
    unfold first_decimals. destruct (span (fun c => negb (isdecimal c)) s) as [x y].
    done.
Qed.

Lemma search_number_pattern s :
  re.search number_pattern s ≫= group_1 = first_decimals s.
Proof. apply search_number. Qed.

End pattern_facts.

(** ** [int] on a run of decimals *)

Section int_of_a_run.

Lemma forallb_rev {A} (f : A -> bool) l : forallb f (rev l) = forallb f l.
Proof.
  induction l as [|x l IH]; simpl; [done|].
  rewrite forallb_app, IH. simpl. rewrite andb_true_r. apply andb_comm.
Qed.

Lemma decimal_not_int_space : forall c, isdecimal c = true -> isspace_int c = false.
Proof.
  intros c; destruct c as [[] [] [] [] [] [] [] []]; vm_compute;
    first [reflexivity | discriminate].
Qed.

Lemma decimal_not_sign :
  forall c, isdecimal c = true -> Ascii.eqb c "-" = false /\ Ascii.eqb c "+" = false.
Proof.
  intros c; destruct c as [[] [] [] [] [] [] [] []]; vm_compute;
    first [by split | discriminate].
Qed.

Lemma filter_all {A} (p : A -> bool) l : forallb p l = true -> List.filter p l = l.
Proof.
  induction l as [|x l IH]; simpl; [done|]. intros H.
  apply andb_prop in H as [Hx Hl]. by rewrite Hx, IH.
Qed.

Lemma span_none p s : stops p s = true -> span p s = ([], s).
Proof. intros H. by apply (span_run p [] s). Qed.

Lemma decimals_stop_int_space ds :
  ds <> [] -> forallb isdecimal ds = true -> stops isspace_int ds = true.
Proof.
  destruct ds as [|d ds]; [done|]. simpl. intros _ H.
  apply andb_prop in H as [H _]. by rewrite (decimal_not_int_space _ H).
Qed.

Lemma strip_int_run ds :
  ds <> [] -> forallb isdecimal ds = true -> strip_int ds = ds.
Proof.
  intros Hne Hds. unfold strip_int.
  rewrite (span_none _ _ (decimals_stop_int_space ds Hne Hds)). cbn [snd].
  rewrite span_none; [apply rev_involutive|].
  apply decimals_stop_int_space; [|by rewrite forallb_rev].
  intros Hrev. apply Hne. by rewrite <- (rev_involutive ds), Hrev.
Qed.

Lemma literal_digits_run ds : forall after_digit acc,
  forallb isdecimal ds = true -> ds <> [] \/ after_digit = true ->
  literal_digits after_digit ds acc
  = Some (fold_left (fun acc c => 10 * acc + digit_value c) ds acc).
Proof.
  induction ds as [|c r IH]; intros after_digit acc Hds Hne.
  - destruct Hne as [Hne| ->]; done.
  - simpl in *. apply andb_prop in Hds as [Hc Hr]. rewrite Hc.
    apply IH; [done|by right].
Qed.

(** On a run of decimals [int] gives the number it writes, unless the
    run has more than 4300 digits. *)
Lemma int_of_decimals ds :
  ds <> [] -> forallb isdecimal ds = true ->
  int ds = if Z.of_nat (length ds) <=? max_str_digits
           then Some (int_of_digits ds) else None.
Proof.
  intros Hne Hds. unfold int. rewrite (filter_all _ _ Hds), Z.ltb_antisym.
  destruct (Z.of_nat (length ds) <=? max_str_digits); [|done]. cbn [negb].
  rewrite (strip_int_run ds Hne Hds).
  destruct ds as [|c r]; [done|].
  pose proof Hds as Hc. simpl in Hc. apply andb_prop in Hc as [Hc _].
  destruct (decimal_not_sign c Hc) as [-> ->].
  by apply literal_digits_run; [|left].
Qed.

Lemma first_decimals_inv s ds :
  first_decimals s = Some ds -> ds <> [] /\ forallb isdecimal ds = true.
Proof.
  unfold first_decimals.
  destruct (span (fun c => negb (isdecimal c)) s) as [a r].
  pose proof (span_fst_all isdecimal r) as Hall.
  destruct (span isdecimal r) as [ds' r']. cbn [fst] in Hall.
  destruct ds' as [|d ds']; [done|]. by intros [= <-].
Qed.

Lemma int_first_decimals s ds :
  first_decimals s = Some ds ->
  int ds = if Z.of_nat (length ds) <=? max_str_digits
           then Some (int_of_digits ds) else None.
Proof.
  intros H. destruct (first_decimals_inv s ds H) as [Hne Hds]. by apply int_of_decimals.
Qed.

End int_of_a_run.

(** ** The loop over the catalog *)

Section catalog_loop.

Lemma classify_Some nm o N : classify nm o = Some N <-> apply_rules nm o = Heading N.
Proof.
  unfold classify. destruct (apply_rules nm o); split; intros H; congruence.
Qed.

Lemma visit_lookup style (m m' : gmap string Z) nm :
  visit style m = Some m' ->
  m' !! nm = m !! nm \/
  (exists N, name style = Some nm /\ type style = PARAGRAPH /\ nm <> ""%string /\
             classify nm (outline style) = Some N /\ m' !! nm = Some N).
Proof.
  unfold visit. destruct (name style) as [sn|] eqn:Hn; [|intros [= <-]; by left].
  destruct (type style) eqn:Ht; simpl; try (intros [= <-]; by left).
  destruct (String.eqb sn "") eqn:He; simpl; [intros [= <-]; by left|].
  destruct (apply_rules sn (outline style)) as [N| |] eqn:Hc;
    [|intros [= <-]; by left|done].
  intros [= <-]. destruct (decide (sn = nm)) as [->|Hne].
  - right. exists N. rewrite lookup_insert_eq. repeat split; try done.
    + intros ->. by rewrite String.eqb_refl in He.
    + by apply classify_Some.
  - left. by rewrite lookup_insert_ne.
Qed.

(** Whether an iteration raises does not depend on the map. *)
Lemma visit_raises_anywhere style (m m' : gmap string Z) :
  visit style m = None -> visit style m' = None.
Proof.
  unfold visit. destruct (name style) as [sn|]; [|done].
  destruct (is_paragraph (type style) && negb (String.eqb sn "")); [|done].
  by destruct (apply_rules sn (outline style)).
Qed.

Lemma passes_visit style (m : gmap string Z) :
  passes (Readable style) = true -> is_Some (visit style m).
Proof.
  intros H. apply bool_decide_eq_true_1 in H.
  destruct (visit style m) eqn:Hv; [by eexists|].
  rewrite (visit_raises_anywhere style m ∅ Hv) in H. by destruct H.
Qed.

(** A level that depends on the name alone stays once it is stored. *)
Lemma visit_all_keeps nm N entries (m : gmap string Z) :
  (forall o, classify nm o = Some N) ->
  m !! nm = Some N -> visit_all entries m !! nm = Some N.
Proof.
  intros Hcl. revert m. induction entries as [|[style|] rest IH]; intros m Hm; simpl; try done.
  destruct (visit style m) as [m'|] eqn:Hv; [|done].
  apply IH. destruct (visit_lookup style m m' nm Hv) as [->|(N' & _ & _ & _ & Hc & ->)]; [done|].
  rewrite Hcl in Hc. congruence.
Qed.

Lemma visit_all_app pre rest (m : gmap string Z) :
  forallb passes pre = true ->
  visit_all (pre ++ rest) m = visit_all rest (visit_all pre m).
Proof.
  revert m. induction pre as [|[style|] pre IH]; intros m H; try done.
  cbn [forallb] in H. apply andb_prop in H as [Hs H]. cbn [app visit_all].
  destruct (passes_visit style m Hs) as [m' ->]. by apply IH.
Qed.

(** A paragraph style that the loop reaches, and whose level depends
    on its name alone, is in the map at that level. *)
Lemma visit_all_reaches pre style post nm N (m : gmap string Z) :
  forallb passes pre = true ->
  type style = PARAGRAPH -> name style = Some nm -> nm <> ""%string ->
  (forall o, classify nm o = Some N) ->
  visit_all (pre ++ Readable style :: post) m !! nm = Some N.
Proof.
  intros Hpre Ht Hn Hne Hcl. rewrite visit_all_app by done. cbn [visit_all].
  unfold visit. rewrite Hn, Ht. simpl.
  destruct (String.eqb nm "") eqn:He; [by apply String.eqb_eq in He|].
  simpl. rewrite (proj1 (classify_Some _ _ _) (Hcl (outline style))).
  apply visit_all_keeps; [done|]. apply lookup_insert_eq.
Qed.

Lemma text_nonempty l : l <> [] -> text l <> ""%string.
Proof. destruct l; [done|]. intros _. discriminate. Qed.

End catalog_loop.

(** ** Rule 1: the built-in heading pattern *)

Section builtin_heading.

Lemma match_literal_ignorecase_app lit h r :
  lower h = lower lit -> match_literal_ignorecase lit (h ++ r) = Some r.
Proof.
  revert h. induction lit as [|a lit IH]; intros [|b h] H; simpl in *; try done.
  injection H as Hab Hrest. rewrite Hab, Ascii.eqb_refl. by apply IH.
Qed.

Lemma match_literal_ignorecase_inv lit s r :
  match_literal_ignorecase lit s = Some r ->
  exists h, s = h ++ r /\ lower h = lower lit.
Proof.
  revert s. induction lit as [|a lit IH]; intros s H; simpl in H.
  - injection H as ->. by exists [].
  - destruct s as [|b s]; [done|].
    destruct (Ascii.eqb (lower_char a) (lower_char b)) eqn:Hab; [|done].
    apply Ascii.eqb_eq in Hab. destruct (IH _ H) as (h & -> & Hh).
    exists (b :: h). simpl. by rewrite Hh, Hab.
Qed.

Lemma newline_stops_decimal nl :
  nl = [] \/ nl = ["010"%char] -> stops isdecimal nl = true /\ re.at_dollar nl = true.
Proof. by intros [-> | ->]. Qed.

Lemma decimals_stop_space ds r :
  ds <> [] -> forallb isdecimal ds = true -> stops isspace (ds ++ r) = true.
Proof.
  destruct ds as [|d ds]; [done|]. simpl. intros _ H.
  apply andb_prop in H as [H _]. by rewrite (decimal_not_space _ H).
Qed.

Lemma heading_pattern_accepts h ws ds nl :
  spec.heading_name h ws ds nl ->
  heading_scan (h ++ ws ++ ds ++ nl) = Some ds.
Proof.
  intros [Hh [Hws1 Hws2] [Hds1 Hds2] Hnl]. unfold heading_scan.
  rewrite (match_literal_ignorecase_app _ _ _ Hh).
  rewrite (span_run isspace ws (ds ++ nl) Hws2 (decimals_stop_space _ _ Hds1 Hds2)).
  destruct (newline_stops_decimal nl Hnl) as [Hstop Hend].
  rewrite (span_run isdecimal ds nl Hds2 Hstop).
  destruct ws; [done|]. destruct ds; [done|]. by rewrite Hend.
Qed.

Lemma heading_pattern_only name ds :
  heading_scan name = Some ds ->
  exists h ws nl, name = h ++ ws ++ ds ++ nl /\ spec.heading_name h ws ds nl.
Proof.
  unfold heading_scan.
  destruct (match_literal_ignorecase _ name) as [r|] eqn:Hm; [|done].
  destruct (match_literal_ignorecase_inv _ _ _ Hm) as (h & -> & Hh).
  pose proof (span_app isspace r) as Hr. pose proof (span_fst_all isspace r) as Hws.
  destruct (span isspace r) as [ws r1]. simpl in *.
  pose proof (span_app isdecimal r1) as Hr1. pose proof (span_fst_all isdecimal r1) as Hds.
  destruct (span isdecimal r1) as [ds' r2]. simpl in *.
  destruct ws as [|w ws]; [done|]. destruct ds' as [|d ds']; [done|].
  destruct (re.at_dollar r2) eqn:Hend; [|done]. intros [= <-].
  exists h, (w :: ws), r2. split; [by rewrite <- Hr, <- Hr1|].
  split; try done.
  destruct r2 as [|c [|? ?]]; [by left| |done].
  right. simpl in Hend. apply Ascii.eqb_eq in Hend. by subst.
Qed.

(** The pattern of rule 1 matches exactly the names of the shape
    [spec.heading_name], and group 1 is the number. *)
Lemma builtin_heading_pattern_matches name ds :
  re.match_ builtin_heading_pattern name ≫= re.group_1 = Some ds <->
  exists h ws nl, name = h ++ ws ++ ds ++ nl /\ spec.heading_name h ws ds nl.
Proof.
  rewrite match_builtin_heading. split.
  - apply heading_pattern_only.
  - intros (h & ws & nl & -> & Hshape). by apply heading_pattern_accepts.
Qed.

Lemma int_heading_scan s ds :
  heading_scan s = Some ds ->
  int ds = if Z.of_nat (length ds) <=? max_str_digits
           then Some (int_of_digits ds) else None.
Proof.
  intros H. apply heading_pattern_only in H as (h & ws & nl & _ & [_ _ [Hne Hds] _]).
  by apply int_of_decimals.
Qed.

Lemma classify_builtin nm o ds :
  heading_scan (chars nm) = Some ds ->
  Z.of_nat (length ds) <= max_str_digits ->
  1 <= int_of_digits ds <= 9 ->
  classify nm o = Some (int_of_digits ds).
Proof.
  intros Hp Hlen Hr. unfold classify, apply_rules.
  rewrite match_builtin_heading, Hp, (int_heading_scan _ _ Hp).
  replace (Z.of_nat (length ds) <=? max_str_digits) with true by lia.
  replace ((1 <=? int_of_digits ds) && (int_of_digits ds <=? 9)) with true by lia.
  done.
Qed.

(** Step 1 raises exactly on the names of the pattern whose number has
    more than 4300 digits. *)
Lemma apply_rules_raises nm o :
  apply_rules nm o = ValueError <->
  exists ds, heading_scan (chars nm) = Some ds /\ max_str_digits < Z.of_nat (length ds).
Proof.
  unfold apply_rules. cbv zeta. rewrite match_builtin_heading.
  destruct (heading_scan (chars nm)) as [ds|] eqn:Hp.
  - rewrite (int_heading_scan _ _ Hp).
    destruct (Z.of_nat (length ds) <=? max_str_digits) eqn:Hlen.
    + split; [|intros (ds' & [= <-] & Hlong); lia].
      destruct ((1 <=? int_of_digits ds) && (int_of_digits ds <=? 9)); [done|].
      destruct (re.group_0 <$> _); [done|].
      repeat match goal with
             | |- context [if ?b then _ else _] => destruct b
             | |- context [match outline_level ?o with _ => _ end] =>
                 destruct (outline_level o)
             end; done.
    + split; [|done]. intros _. exists ds. split; [done|lia].
  - split; [|by intros (ds & ? & _)].
    destruct (re.group_0 <$> _); [done|].
    repeat match goal with
           | |- context [if ?b then _ else _] => destruct b
           | |- context [match outline_level ?o with _ => _ end] =>
               destruct (outline_level o)
           end; done.
Qed.

(** The entries that end the loop: those that cannot be read, and the
    paragraph styles whose name matches the pattern of step 1 with a
    number of more than 4300 digits. *)
Lemma passes_false e :
  passes e = false <->
  e = Raises \/
  exists style nm ds,
    e = Readable style /\ type style = PARAGRAPH /\ name style = Some nm /\
    nm <> ""%string /\
    re.match_ builtin_heading_pattern (chars nm) ≫= re.group_1 = Some ds /\
    max_str_digits < Z.of_nat (length ds).
Proof.
  destruct e as [style|]; [|split; [by left|done]]. unfold passes. split.
  - intros Hp. apply bool_decide_eq_false_1 in Hp. right. revert Hp. unfold visit.
    destruct (name style) as [nm|] eqn:Hn; [|intros Hp; destruct Hp; by eexists].
    destruct (type style) eqn:Ht; simpl; try (intros Hp; destruct Hp; by eexists).
    destruct (String.eqb nm "") eqn:He; simpl; [intros Hp; destruct Hp; by eexists|].
    destruct (apply_rules nm (outline style)) eqn:Hv;
      try (intros Hp; destruct Hp; by eexists).
    intros _. apply apply_rules_raises in Hv as (ds & Hs & Hlong).
    exists style, nm, ds. rewrite match_builtin_heading.
    repeat split; try done. intros ->. by rewrite String.eqb_refl in He.
  - intros [Hr|(style' & nm & ds & [= <-] & Ht & Hn & Hne & Hs & Hlong)]; [done|].
    apply bool_decide_eq_false_2. unfold visit. rewrite Hn, Ht. simpl.
    destruct (String.eqb nm "") eqn:He; [by apply String.eqb_eq in He|]. simpl.
    rewrite match_builtin_heading in Hs.
    rewrite (proj2 (apply_rules_raises nm (outline style)));
      [intros [? ?]; done|by exists ds].
Qed.

End builtin_heading.

(** C1, as the code has it.  A paragraph style whose name matches
    [^Heading\s+\d+$] without regard to letter case, with a number N
    between 1 and 9 that is written with at most 4300 digits, is in the
    map returned by [build_style_heading_map] at level N, provided the
    loop reaches the style: every entry before it in the catalog can be
    read and none of them makes step 1 raise. *)
Theorem builtin_heading_gets_its_level
    `{Document D} {Cfg : Type} (doc : D) (plugin_config : option Cfg)
    pre style post h ws ds nl :
  styles doc = Catalog (pre ++ Readable style :: post) ->
  forallb passes pre = true ->
  type style = PARAGRAPH ->
  name style = Some (text (h ++ ws ++ ds ++ nl)) ->
  spec.heading_name h ws ds nl ->
  Z.of_nat (length ds) <= max_str_digits ->
  1 <= int_of_digits ds <= 9 ->
  build_style_heading_map doc plugin_config !! text (h ++ ws ++ ds ++ nl)
    = Some (int_of_digits ds).
Proof.
  intros Hdoc Hpre Ht Hn Hshape Hlen Hrange. unfold build_style_heading_map. rewrite Hdoc.
  apply visit_all_reaches; try done.
  - apply text_nonempty. destruct Hshape as [_ [Hws _] _ _].
    destruct h; simpl; [|done]. by destruct ws.
  - intros o. apply classify_builtin; [|done|done].
    rewrite chars_text. by apply heading_pattern_accepts.
Qed.

Lemma builtin_heading_gets_its_level_witness :
  build_style_heading_map
    (Catalog [Readable {| type := CHARACTER; name := Some "Emphasis"%string;
                          outline := NoElement |};
              Readable {| type := PARAGRAPH; name := Some "heading  7"%string;
                          outline := XPathRaises |};
              Raises])
    (None : option unit) !! "heading  7"%string = Some 7.
Proof.
  apply (builtin_heading_gets_its_level (D := Styles) _ None
           [Readable {| type := CHARACTER; name := Some "Emphasis"%string;
                        outline := NoElement |}]
           {| type := PARAGRAPH; name := Some "heading  7"%string;
              outline := XPathRaises |}
           [Raises]
           (chars "heading") (chars "  ") (chars "7") []).
  - reflexivity.
  - reflexivity.
  - reflexivity.
  - reflexivity.
  - split; [reflexivity | split; [discriminate | reflexivity]
           | split; [discriminate | reflexivity] | left; reflexivity].
  - vm_compute. discriminate.
  - vm_compute. split; discriminate.
Defined.

(** C1, as the specification has it, fails in two ways.  The name
    "Heading " followed by 4300 zeros and a 5 matches the pattern with
    N = 5, yet [int] refuses its 4301 digits, the error leaves the
    loop, and the style is not in the map.  And a style named
    "Heading 1" that comes after an entry that cannot be read is not in
    the map either. *)
Lemma builtin_heading_can_be_lost :
  let long_name := text (chars "Heading " ++ replicate 4300 "0"%char ++ chars "5") in
  let long_heading :=
    Readable {| type := PARAGRAPH; name := Some long_name; outline := NoElement |} in
  let heading_1 :=
    Readable {| type := PARAGRAPH; name := Some "Heading 1"%string; outline := NoElement |} in
  (re.match_ builtin_heading_pattern (chars long_name) ≫= re.group_1
     = Some (replicate 4300 "0"%char ++ chars "5")
   /\ int_of_digits (replicate 4300 "0"%char ++ chars "5") = 5)
  /\ build_style_heading_map (Catalog [long_heading]) (None : option unit) !! long_name
     = None
  /\ build_style_heading_map (Catalog [Raises; heading_1]) (None : option unit)
       !! "Heading 1"%string = None.
Proof.
  repeat split; vm_compute; reflexivity.
Qed.

(** ** Substrings and stripping *)

Section substrings.

Lemma startswith_app p r : startswith p (p ++ r) = true.
Proof. induction p as [|a p IH]; simpl; [done|]. by rewrite Ascii.eqb_refl. Qed.

Lemma startswith_inv p s : startswith p s = true -> exists r, s = p ++ r.
Proof.
  revert s. induction p as [|a p IH]; intros s H; simpl in *; [by exists s|].
  destruct s as [|b s]; [done|]. destruct (Ascii.eqb a b) eqn:Hab; [|done].
  apply Ascii.eqb_eq in Hab as ->. destruct (IH _ H) as [r ->]. by exists r.
Qed.

Lemma contains_unfold p s :
  contains p s = startswith p s || match s with [] => false | _ :: s' => contains p s' end.
Proof. by destruct s. Qed.

Lemma contains_app p a b : contains p (a ++ p ++ b) = true.
Proof.
  induction a as [|c a IH]; simpl.
  - rewrite contains_unfold, startswith_app. done.
  - rewrite IH. apply orb_true_r.
Qed.

Lemma contains_inv p s : contains p s = true -> exists a b, s = a ++ p ++ b.
Proof.
  induction s as [|c s IH]; rewrite contains_unfold; intros H.
  - rewrite orb_false_r in H. apply startswith_inv in H as [r ->]. by exists [], r.
  - apply orb_prop in H as [H|H].
    + apply startswith_inv in H as [r ->]. by exists [], r.
    + destruct (IH H) as (a & b & ->). by exists (c :: a), b.
Qed.

(** [in] is transitive. *)
Lemma contains_trans p q s :
  contains p q = true -> contains q s = true -> contains p s = true.
Proof.
  intros H1 H2. apply contains_inv in H1 as (a & b & ->).
  apply contains_inv in H2 as (a' & b' & ->).
  replace (a' ++ (a ++ p ++ b) ++ b') with ((a' ++ a) ++ p ++ (b ++ b'))
    by (by rewrite !app_assoc).
  apply contains_app.
Qed.

(** A pattern with a character that [s] lacks is not in [s]. *)
Lemma contains_needs ok p s :
  forallb ok s = true -> existsb (fun c => negb (ok c)) p = true -> contains p s = false.
Proof.
  intros Hs Hp. destruct (contains p s) eqn:Hc; [|done].
  apply contains_inv in Hc as (a & b & ->).
  rewrite !forallb_app in Hs. apply andb_prop in Hs as [_ Hs]. apply andb_prop in Hs as [Hs _].
  apply existsb_exists in Hp as (c & Hin & Hc).
  rewrite forallb_forall in Hs. rewrite (Hs c Hin) in Hc. done.
Qed.

Lemma any_in_foreign patterns s :
  forallb foreign patterns = true -> forallb heading_char s = true ->
  any_in patterns s = false.
Proof.
  intros Hp Hs. unfold any_in. induction patterns as [|p ps IH]; simpl in *; [done|].
  apply andb_prop in Hp as [Hp Hps]. rewrite (contains_needs heading_char _ _ Hs Hp).
  by apply IH.
Qed.

Lemma lstrip_head c s : isspace c = false -> lstrip (c :: s) = c :: s.
Proof. intros H. unfold lstrip. simpl. by rewrite H. Qed.

Lemma rstrip_run x d sp :
  isspace d = false -> forallb isspace sp = true -> rstrip (x ++ d :: sp) = x ++ [d].
Proof.
  intros Hd Hsp. unfold rstrip, lstrip.
  rewrite rev_app_distr. simpl. rewrite <- app_assoc. simpl.
  rewrite (span_run isspace (rev sp) (d :: rev x)).
  - simpl. by rewrite rev_involutive.
  - by rewrite forallb_rev.
  - simpl. by rewrite Hd.
Qed.

Lemma strip_run c x d sp :
  isspace c = false -> isspace d = false -> forallb isspace sp = true ->
  strip (c :: x ++ d :: sp) = c :: x ++ [d].
Proof.
  intros Hc Hd Hsp. unfold strip. rewrite lstrip_head by done.
  by apply (rstrip_run (c :: x)).
Qed.

Lemma lower_app a b : lower (a ++ b) = lower a ++ lower b.
Proof. apply map_app. Qed.

Lemma lower_fixed (keep : ascii -> bool) s :
  (forall c, keep c = true -> lower_char c = c) ->
  forallb keep s = true -> lower s = s.
Proof.
  intros Hk. induction s as [|c s IH]; simpl; [done|].
  intros H. apply andb_prop in H as [Hc Hs]. by rewrite (Hk _ Hc), IH.
Qed.

Lemma lower_idem s : lower (lower s) = lower s.
Proof. induction s as [|c s IH]; simpl; [done|]. by rewrite lower_char_idem, IH. Qed.

End substrings.

(** ** "Heading N" with N out of range (rules 1 to 7) *)

Section heading_out_of_range.

Lemma existsb_none {A} (f g : A -> bool) l :
  forallb g l = true -> (forall x, g x = true -> f x = false) -> existsb f l = false.
Proof.
  intros Hl Hfg. induction l as [|x l IH]; simpl in *; [done|].
  apply andb_prop in Hl as [Hx Hl]. by rewrite (Hfg _ Hx), IH.
Qed.

Lemma forallb_map {A B} (f : B -> bool) (g : A -> B) l :
  forallb f (map g l) = forallb (fun x => f (g x)) l.
Proof. induction l as [|x l IH]; simpl; [done|]. by rewrite IH. Qed.

Lemma forallb_ext' {A} (f g : A -> bool) l :
  (forall x, f x = g x) -> forallb f l = forallb g l.
Proof. intros H. induction l as [|x l IH]; simpl; [done|]. by rewrite H, IH. Qed.

Lemma lower_heading : lower (chars "Heading") = chars "heading".
Proof. reflexivity. Qed.

Lemma no_builtin_starts_heading :
  forallb (fun b => negb (startswith (chars "heading") (lower (chars b))))
          builtin_non_heading_styles = true.
Proof. vm_compute. reflexivity. Qed.

Lemma starts_plain_lower s : starts_plain (lower s) = starts_plain s.
Proof.
  destruct s as [|c s]; simpl; [done|].
  by rewrite lower_keeps_space, lower_keeps_decimal.
Qed.

Lemma numeric_leading_none s :
  starts_plain s = true -> numeric_scan s = None.
Proof.
  unfold numeric_scan. destruct s as [|c s]; simpl; [done|].
  intros H. apply andb_prop in H as [Hs Hd].
  destruct (isspace c); [done|]. simpl. by destruct (isdecimal c).
Qed.

(** Rewrites away the tests for patterns that have a foreign character. *)
Ltac no_pattern H :=
  repeat match goal with
         | |- context [any_in ?ps ?s] => rewrite (any_in_foreign ps s eq_refl H)
         | |- context [contains ?p ?s] =>
             rewrite (contains_needs heading_char p s H eq_refl)
         end.

Variables h ws ds nl : list ascii.
Hypothesis shape : spec.heading_name h ws ds nl.

Let full := h ++ ws ++ ds ++ nl.

Lemma word_lower : lower h = chars "heading".
Proof. pose proof shape as [Hh _ _ _]. by rewrite Hh. Qed.

Lemma end_is_space : forallb isspace nl = true.
Proof. pose proof shape as [_ _ _ [-> | ->]]; reflexivity. Qed.

Lemma full_lower : lower full = chars "heading" ++ ws ++ ds ++ nl.
Proof.
  pose proof shape as [_ [_ Hws] [_ Hds] _]. unfold full.
  rewrite !lower_app, word_lower.
  rewrite (lower_fixed isspace ws space_lower Hws).
  rewrite (lower_fixed isdecimal ds decimal_lower Hds).
  by rewrite (lower_fixed isspace nl space_lower end_is_space).
Qed.

Lemma spaces_heading_chars s : forallb isspace s = true -> forallb heading_char s = true.
Proof.
  rewrite !forallb_forall. intros Hs c Hc. unfold heading_char. by rewrite (Hs c Hc).
Qed.

Lemma decimals_heading_chars s : forallb isdecimal s = true -> forallb heading_char s = true.
Proof.
  rewrite !forallb_forall. intros Hs c Hc. unfold heading_char.
  rewrite (Hs c Hc). by rewrite orb_true_r.
Qed.

Lemma full_lower_chars : forallb heading_char (lower full) = true.
Proof.
  pose proof shape as [_ [_ Hws] [_ Hds] _].
  rewrite full_lower, !forallb_app.
  rewrite (spaces_heading_chars _ Hws), (decimals_heading_chars _ Hds).
  rewrite (spaces_heading_chars _ end_is_space). reflexivity.
Qed.

Lemma full_stripped : strip (lower full) = chars "heading" ++ ws ++ ds.
Proof.
  pose proof shape as [_ _ [Hne Hds] _]. rewrite full_lower.
  destruct (exists_last Hne) as (ds0 & d & Hlast). rewrite Hlast in Hds |- *.
  rewrite forallb_app in Hds. apply andb_prop in Hds as [_ Hd]. simpl in Hd.
  rewrite andb_true_r in Hd.
  change (chars "heading") with ("h"%char :: chars "eading").
  replace (("h"%char :: chars "eading") ++ ws ++ (ds0 ++ [d]) ++ nl)
    with ("h"%char :: (chars "eading" ++ ws ++ ds0) ++ d :: nl)
    by (simpl; by rewrite <- !app_assoc).
  rewrite strip_run; [| reflexivity | by apply decimal_not_space | apply end_is_space].
  simpl. by rewrite <- !app_assoc.
Qed.

Lemma stripped_chars : forallb heading_char (strip (lower full)) = true.
Proof.
  pose proof full_lower_chars as H. rewrite full_lower in H.
  rewrite full_stripped. rewrite !forallb_app in *.
  apply andb_prop in H as [H1 H]. apply andb_prop in H as [H2 H].
  apply andb_prop in H as [H3 _]. by rewrite H1, H2, H3.
Qed.

Lemma full_starts_plain : starts_plain full = true.
Proof.
  rewrite <- starts_plain_lower, full_lower. reflexivity.
Qed.

Lemma full_not_builtin b :
  negb (startswith (chars "heading") (lower (chars b))) = true ->
  text full <> b /\ lower (chars b) <> strip (lower full).
Proof.
  intros Hb. split.
  - intros <-. rewrite chars_text, full_lower in Hb.
    by rewrite startswith_app in Hb.
  - intros Heq. rewrite Heq, full_stripped in Hb.
    by rewrite startswith_app in Hb.
Qed.

Lemma word_no_decimal : forallb (fun c => negb (isdecimal c)) (h ++ ws) = true.
Proof.
  pose proof shape as [_ [_ Hws] _ _]. rewrite forallb_app. apply andb_true_intro. split.
  - rewrite (forallb_ext' _ (fun c => negb (isdecimal (lower_char c))))
      by (intros c; by rewrite lower_keeps_decimal).
    rewrite <- (forallb_map (fun c => negb (isdecimal c)) lower_char).
    fold (lower h). rewrite word_lower. reflexivity.
  - apply forallb_forall. intros c Hc. rewrite forallb_forall in Hws.
    by rewrite (space_not_decimal _ (Hws c Hc)).
Qed.

Lemma full_first_number : first_decimals full = Some ds.
Proof.
  pose proof shape as [_ _ [Hne Hds] Hnl]. unfold first_decimals, full.
  rewrite app_assoc.
  rewrite (span_run (fun c => negb (isdecimal c)) (h ++ ws) (ds ++ nl) word_no_decimal).
  - destruct (newline_stops_decimal nl Hnl) as [Hstop _].
    rewrite (span_run isdecimal ds nl Hds Hstop). by destruct ds.
  - destruct ds as [|d ds']; [done|]. simpl in *.
    apply andb_prop in Hds as [Hd _]. by rewrite Hd.
Qed.

Hypothesis out_of_range : ~ (1 <= int_of_digits ds <= 9).

Lemma infer_out_of_range : _infer_heading_level (text full) = 2.
Proof.
  unfold _infer_heading_level. cbv zeta.
  rewrite search_number_pattern, chars_text, full_first_number.
  rewrite (int_first_decimals _ _ full_first_number).
  replace (match (if Z.of_nat (length ds) <=? max_str_digits
                  then Some (int_of_digits ds) else None) with
           | Some level => if (1 <=? level) && (level <=? 9) then Some level else None
           | None => None
           end) with (@None Z).
  - no_pattern full_lower_chars. done.
  - destruct (Z.of_nat (length ds) <=? max_str_digits); [|done].
    by replace ((1 <=? int_of_digits ds) && (int_of_digits ds <=? 9)) with false by lia.
Qed.

Hypothesis short : Z.of_nat (length ds) <= max_str_digits.

Lemma classify_out_of_range o : classify (text full) o = Some 2.
Proof.
  unfold classify, apply_rules. cbv zeta.
  rewrite match_builtin_heading, match_numeric_leading, chars_text.
  assert (heading_scan full = Some ds) as Hscan
    by apply (heading_pattern_accepts _ _ _ _ shape).
  rewrite Hscan, (int_heading_scan _ _ Hscan).
  replace (Z.of_nat (length ds) <=? max_str_digits) with true by lia.
  replace ((1 <=? int_of_digits ds) && (int_of_digits ds <=? 9)) with false by lia.
  rewrite (numeric_leading_none _ full_starts_plain).
  rewrite bool_decide_eq_false_2; cycle 1.
  { intros Hin. apply list_elem_of_In in Hin.
    pose proof no_builtin_starts_heading as Hall. rewrite forallb_forall in Hall.
    by destruct (full_not_builtin _ (Hall _ Hin)). }
  rewrite (existsb_none _ _ _ no_builtin_starts_heading); cycle 1.
  { intros b Hb. apply bool_decide_eq_false_2. by destruct (full_not_builtin _ Hb). }
  rewrite (any_in_foreign strong_exclusions _ eq_refl stripped_chars).
  rewrite (any_in_foreign medium_exclusions _ eq_refl stripped_chars).
  rewrite (any_in_foreign international_patterns _ eq_refl stripped_chars).
  replace (contains (chars "heading") (strip (lower full))) with true
    by (by rewrite full_stripped, contains_unfold, startswith_app).
  no_pattern stripped_chars.
  by rewrite infer_out_of_range.
Qed.

End heading_out_of_range.

(** C10, as the code has it.  A style named "Heading N" with N outside
    1..9, written with at most 4300 digits, is not rejected: rule 1
    lets it pass, no exclusion applies, the "heading" rule takes it and
    level inference falls to its default, so it is in the map at
    level 2, provided the loop reaches the style: every entry before it
    in the catalog can be read and none of them makes step 1 raise. *)
Theorem heading_out_of_range_is_level_2
    `{Document D} {Cfg : Type} (doc : D) (plugin_config : option Cfg)
    pre style post h ws ds nl :
  styles doc = Catalog (pre ++ Readable style :: post) ->
  forallb passes pre = true ->
  type style = PARAGRAPH ->
  name style = Some (text (h ++ ws ++ ds ++ nl)) ->
  spec.heading_name h ws ds nl ->
  Z.of_nat (length ds) <= max_str_digits ->
  ~ (1 <= int_of_digits ds <= 9) ->
  build_style_heading_map doc plugin_config !! text (h ++ ws ++ ds ++ nl) = Some 2.
Proof.
  intros Hdoc Hpre Ht Hn Hshape Hlen Hrange. unfold build_style_heading_map. rewrite Hdoc.
  apply visit_all_reaches; try done.
  - apply text_nonempty. destruct Hshape as [_ [Hws _] _ _].
    destruct h; simpl; [|done]. by destruct ws.
  - intros o. by apply classify_out_of_range.
Qed.

Lemma heading_out_of_range_is_level_2_witness :
  build_style_heading_map
    (Catalog [Readable {| type := PARAGRAPH; name := Some "Heading 10"%string;
                          outline := NoElement |}])
    (None : option unit) !! "Heading 10"%string = Some 2.
Proof.
  apply (heading_out_of_range_is_level_2 (D := Styles) _ None []
           {| type := PARAGRAPH; name := Some "Heading 10"%string; outline := NoElement |}
           [] (chars "Heading") (chars " ") (chars "10") []).
  - reflexivity.
  - reflexivity.
  - reflexivity.
  - reflexivity.
  - split; [reflexivity | split; [discriminate | reflexivity]
           | split; [discriminate | reflexivity] | left; reflexivity].
  - vm_compute. discriminate.
  - vm_compute. intros [_ Hle]. apply Hle. reflexivity.
Defined.

(** C10, as the specification has it, fails in two ways.  The name
    "Heading " followed by 4301 ones matches the pattern with a number
    outside 1..9, yet step 1 raises on it and the style is not in the
    map at all.  And a style named "Heading 10" that comes after an
    entry that cannot be read is not in the map either. *)
Lemma heading_out_of_range_can_be_lost :
  let long_name := text (chars "Heading " ++ replicate 4301 "1"%char) in
  let long_heading :=
    Readable {| type := PARAGRAPH; name := Some long_name; outline := NoElement |} in
  let heading_10 :=
    Readable {| type := PARAGRAPH; name := Some "Heading 10"%string; outline := NoElement |} in
  (re.match_ builtin_heading_pattern (chars long_name) ≫= re.group_1
     = Some (replicate 4301 "1"%char)
   /\ 9 < int_of_digits (replicate 4301 "1"%char))
  /\ build_style_heading_map (Catalog [long_heading]) (None : option unit) !! long_name
     = None
  /\ build_style_heading_map (Catalog [Raises; heading_10]) (None : option unit)
       !! "Heading 10"%string = None.
Proof.
  repeat split; vm_compute; reflexivity.
Qed.

(** ** Rule 3: the built-in names that are never headings *)

Section builtin_non_headings.

Lemma heading_pattern_needs_word s :
  startswith (chars "heading") (lower s) = false -> heading_scan s = None.
Proof.
  intros Hs. unfold heading_scan.
  destruct (match_literal_ignorecase _ s) as [r|] eqn:Hm; [|done].
  apply match_literal_ignorecase_inv in Hm as (h & -> & Hh).
  rewrite lower_app, Hh, lower_heading, startswith_app in Hs. done.
Qed.

(** What is checked of the table, name by name: in lower case a name
    does not start with "heading", starts with neither white space nor
    a decimal, and has no white space at its ends. *)
Lemma builtin_table_checked :
  forallb (fun b =>
             negb (startswith (chars "heading") (lower (chars b)))
             && starts_plain (lower (chars b))
             && bool_decide (strip (lower (chars b)) = lower (chars b)))
          builtin_non_heading_styles = true.
Proof. vm_compute. reflexivity. Qed.

Lemma apply_rules_builtin_name b nm o :
  b ∈ builtin_non_heading_styles ->
  lower (chars nm) = lower (chars b) ->
  apply_rules nm o = BodyText.
Proof.
  intros Hin Heq. pose proof builtin_table_checked as Hall.
  rewrite forallb_forall in Hall. pose proof Hin as Hin'.
  apply list_elem_of_In, Hall in Hin'.
  apply andb_prop in Hin' as [Hin' Hstrip]. apply andb_prop in Hin' as [Hword Hplain].
  apply negb_true_iff in Hword. apply bool_decide_eq_true in Hstrip.
  unfold apply_rules. cbv zeta. rewrite match_builtin_heading, match_numeric_leading.
  rewrite heading_pattern_needs_word by (by rewrite Heq).
  rewrite numeric_leading_none by (by rewrite <- starts_plain_lower, Heq).
  destruct (bool_decide (nm ∈ builtin_non_heading_styles)); [done|].
  replace (existsb _ builtin_non_heading_styles) with true; [done|].
  symmetry. apply existsb_exists. exists b. split; [by apply list_elem_of_In|].
  apply bool_decide_eq_true. by rewrite Heq, Hstrip.
Qed.

Lemma classify_builtin_name b nm o :
  b ∈ builtin_non_heading_styles ->
  lower (chars nm) = lower (chars b) ->
  classify nm o = None.
Proof.
  intros Hin Heq. unfold classify. by rewrite (apply_rules_builtin_name b nm o Hin Heq).
Qed.

Lemma visit_all_never nm entries (m : gmap string Z) :
  (forall o, classify nm o = None) ->
  m !! nm = None -> visit_all entries m !! nm = None.
Proof.
  intros Hcl. revert m. induction entries as [|[style|] rest IH]; intros m Hm; simpl; try done.
  destruct (visit style m) as [m'|] eqn:Hv; [|done].
  apply IH. destruct (visit_lookup style m m' nm Hv) as [->|(N & _ & _ & _ & Hc & _)]; [done|].
  rewrite Hcl in Hc. done.
Qed.

End builtin_non_headings.

(** C5.  A style whose name equals, in any letter case, one of the
    enumerated built-in non-heading names is never a key of the map that
    [build_style_heading_map] returns, whatever the catalog. *)
Theorem builtin_non_heading_never_in_map
    `{Document D} {Cfg : Type} (doc : D) (plugin_config : option Cfg) b nm :
  b ∈ builtin_non_heading_styles ->
  lower (chars nm) = lower (chars b) ->
  build_style_heading_map doc plugin_config !! nm = None.
Proof.
  intros Hin Heq. unfold build_style_heading_map.
  destruct (styles doc) as [|entries]; [done|].
  apply visit_all_never; [|done].
  intros o. by apply (classify_builtin_name b).
Qed.

Lemma builtin_non_heading_never_in_map_witness :
  build_style_heading_map
    (Catalog [Readable {| type := PARAGRAPH; name := Some "toc 3"%string;
                          outline := OutlineVals ["0"%string] |};
              Readable {| type := PARAGRAPH; name := Some "Title"%string;
                          outline := NoElement |}])
    (None : option unit) !! "toc 3"%string = None.
Proof.
  apply (builtin_non_heading_never_in_map (D := Styles) _ None "TOC 3"%string).
  - vm_compute. repeat first [ apply list_elem_of_here | apply list_elem_of_further ].
  - reflexivity.
Defined.

(** ** Range of the levels *)

Section level_range.

Lemma infer_heading_level_range nm : 1 <= _infer_heading_level nm <= 9.
Proof.
  unfold _infer_heading_level. cbv zeta. rewrite search_number_pattern.
  destruct (first_decimals (chars nm)) as [ds|].
  - destruct (int ds) as [level|].
    + destruct ((1 <=? level) && (level <=? 9)) eqn:Hr; [lia|].
      repeat match goal with |- context [if ?b then _ else _] => destruct b end; lia.
    + repeat match goal with |- context [if ?b then _ else _] => destruct b end; lia.
  - repeat match goal with |- context [if ?b then _ else _] => destruct b end; lia.
Qed.

Lemma outline_level_range o l : outline_level o = Some l -> 1 <= l <= 9.
Proof.
  unfold outline_level. destruct o as [| |[|v vs]]; try done.
  destruct (int (chars v)) as [n|]; [|done].
  destruct ((0 <=? n) && (n <=? 8)) eqn:Hr; [|done]. intros [= <-]. lia.
Qed.

Lemma classify_range nm o l : classify nm o = Some l -> 1 <= l <= 9.
Proof.
  pose proof (infer_heading_level_range nm) as Hinfer.
  pose proof (outline_level_range o) as Houtline.
  unfold classify, apply_rules. cbv zeta.
  destruct (re.match_ builtin_heading_pattern (chars nm) ≫= re.group_1) as [ds|].
  - destruct (int ds) as [level|]; [|done].
    destruct ((1 <=? level) && (level <=? 9)) eqn:Hr; [intros [= <-]; lia|].
    destruct (re.group_0 <$> _); [intros [= <-]; lia|].
    repeat match goal with |- context [if ?b then _ else _] => destruct b end;
      try done; try (intros [= <-]; lia).
    destruct (outline_level o) as [lo|]; [|done]. intros [= <-]. by apply Houtline.
  - destruct (re.group_0 <$> _); [intros [= <-]; lia|].
    repeat match goal with |- context [if ?b then _ else _] => destruct b end;
      try done; try (intros [= <-]; lia).
    destruct (outline_level o) as [lo|]; [|done]. intros [= <-]. by apply Houtline.
Qed.

Lemma visit_in_range style m m' : visit style m = Some m' -> in_range m -> in_range m'.
Proof.
  intros Hv Hm nm l Hl.
  destruct (visit_lookup style m m' nm Hv) as [Heq|(N & _ & _ & _ & Hc & Heq)];
    rewrite Heq in Hl.
  - by apply (Hm nm).
  - injection Hl as <-. by apply (classify_range nm (outline style)).
Qed.

Lemma visit_all_in_range entries m : in_range m -> in_range (visit_all entries m).
Proof.
  revert m. induction entries as [|[style|] rest IH]; intros m Hm; simpl; try done.
  destruct (visit style m) as [m'|] eqn:Hv; [|done].
  by apply IH, (visit_in_range style m).
Qed.

End level_range.

(** C9.  Every level in the map returned by [build_style_heading_map] is
    an integer from 1 to 9, whatever the catalog. *)
Theorem heading_levels_between_1_and_9
    `{Document D} {Cfg : Type} (doc : D) (plugin_config : option Cfg) nm level :
  build_style_heading_map doc plugin_config !! nm = Some level ->
  1 <= level <= 9.
Proof.
  unfold build_style_heading_map. destruct (styles doc) as [|entries].
  - by rewrite lookup_empty.
  - apply visit_all_in_range. intros ? ?. by rewrite lookup_empty.
Qed.

Lemma heading_levels_between_1_and_9_witness :
  build_style_heading_map
    (Catalog [Readable {| type := PARAGRAPH; name := Some "Annex"%string;
                          outline := OutlineVals [" 8 "%string] |};
              Readable {| type := PARAGRAPH; name := Some "1.2.3.4.5.6.7 Deep"%string;
                          outline := NoElement |}])
    (None : option unit) !! "Annex"%string = Some 9
  /\ 1 <= 9 <= 9.
Proof.
  split; [reflexivity|].
  apply (heading_levels_between_1_and_9 (D := Styles)
           (Catalog [Readable {| type := PARAGRAPH; name := Some "Annex"%string;
                                 outline := OutlineVals [" 8 "%string] |};
                     Readable {| type := PARAGRAPH; name := Some "1.2.3.4.5.6.7 Deep"%string;
                                 outline := NoElement |}])
           (None : option unit) "Annex"%string 9).
  reflexivity.
Defined.

(** ** Level inference: the keyword tiers *)

Section keyword_tiers.

Lemma any_in_cons p ps s : any_in (p :: ps) s = contains (chars p) s || any_in ps s.
Proof. reflexivity. Qed.

(** Whatever contains "subsection" or "subchapter" contains "section"
    or "chapter": the second tier answers before the third is asked. *)
Lemma third_tier_shadowed s :
  any_in ["subsection"; "subchapter"]%string s = true ->
  any_in ["section"; "chapter"; "part"]%string s = true.
Proof.
  rewrite !any_in_cons. intros H.
  apply orb_prop in H as [H|H]; [|apply orb_prop in H as [H|H]; [|done]].
  - rewrite (contains_trans (chars "section") (chars "subsection") s eq_refl H). done.
  - rewrite (contains_trans (chars "chapter") (chars "subchapter") s eq_refl H).
    apply orb_true_iff. right. done.
Qed.

(** Without any digit in the name the inferred level is 1 or 2, never 3. *)
Lemma infer_without_number nm :
  re.search number_pattern (chars nm) = None ->
  _infer_heading_level nm =
    if any_in ["title"; "main"; "principal"; "primary"]%string (lower (chars nm))
    then 1 else 2.
Proof.
  intros Hn. unfold _infer_heading_level. cbv zeta. rewrite Hn.
  destruct (any_in ["title"; "main"; "principal"; "primary"]%string _); [done|].
  destruct (any_in ["section"; "chapter"; "part"]%string _) eqn:H2; [done|].
  destruct (any_in ["subsection"; "subchapter"]%string _) eqn:H3; [|done].
  apply third_tier_shadowed in H3. congruence.
Qed.

Lemma infer_subsection_is_2 nm :
  re.search number_pattern (chars nm) = None ->
  any_in ["subsection"; "subchapter"]%string (lower (chars nm)) = true ->
  any_in ["title"; "main"; "principal"; "primary"]%string (lower (chars nm)) = false ->
  _infer_heading_level nm = 2.
Proof. intros Hn _ H1. by rewrite infer_without_number, H1. Qed.

End keyword_tiers.

(** C6.  The claim asks for level 3 on a name without digits whose lower
    case contains "subsection" (and none of "title", "main", "primary").
    On the style name "Subsection Heading", which rule 7 hands to level
    inference, the code answers 2: "section" is found before
    "subsection" is looked for. *)
Theorem subsection_inferred_at_level_2 :
  re.search number_pattern (chars "Subsection Heading") = None /\
  contains (chars "subsection") (lower (chars "Subsection Heading")) = true /\
  any_in ["title"; "main"; "primary"]%string (lower (chars "Subsection Heading")) = false /\
  _infer_heading_level "Subsection Heading" = 2 /\
  build_style_heading_map
    (Catalog [Readable {| type := PARAGRAPH; name := Some "Subsection Heading"%string;
                          outline := NoElement |}])
    (None : option unit) !! "Subsection Heading"%string = Some 2.
Proof. repeat split; reflexivity. Qed.

(** ** The exclusion map *)

Section exclusion_map.
Import filter_provider.

Lemma build_exclusion_map_level_1_only exclusions :
  level_1_only (build_exclusion_map exclusions) (default ∅ exclusions).
Proof.
  unfold build_exclusion_map. generalize (default ∅ exclusions) as m.
  apply (map_fold_weak_ind (fun r m => level_1_only r m)).
  - split.
    + intros lvl _. apply lookup_empty.
    + intros s. rewrite !lookup_empty. simpl. split; [|done].
      intros Hin. by apply not_elem_of_empty in Hin.
    + rewrite lookup_empty. split; [by intros [? ?]|]. intros [s Hs].
      by rewrite lookup_empty in Hs.
  - intros style excluded m r Hfresh [Hk Hf Hs]. destruct excluded.
    + split.
      * intros lvl Hl. rewrite lookup_insert_ne by done. by apply Hk.
      * intros s. rewrite lookup_insert_eq. simpl. rewrite elem_of_union, Hf.
        destruct (decide (style = s)) as [->|Hne].
        -- rewrite lookup_insert_eq. split; [done|]. intros _. right.
           by apply elem_of_singleton.
        -- rewrite lookup_insert_ne by done. split; [|by left].
           intros [?|Hin]; [done|]. apply elem_of_singleton in Hin. congruence.
      * rewrite lookup_insert_eq. split; [|by eauto].
        intros _. exists style. by rewrite lookup_insert_eq.
    + split.
      * done.
      * intros s. rewrite Hf. destruct (decide (style = s)) as [->|Hne].
        -- rewrite lookup_insert_eq, Hfresh. split; intros; congruence.
        -- by rewrite lookup_insert_ne.
      * rewrite Hs. split; intros [s Hm]; exists s.
        -- rewrite lookup_insert_ne; [done|]. intros ->. congruence.
        -- destruct (decide (style = s)) as [->|Hne].
           ++ by rewrite lookup_insert_eq in Hm.
           ++ by rewrite lookup_insert_ne in Hm.
Qed.

End exclusion_map.

(** C8.  Whatever the exclusions, the only key of the map returned by
    [build_exclusion_map] is level 1; it is present exactly when some
    style is flagged [True], and it holds exactly the styles flagged
    [True]; a style flagged [False] is at no level. *)
Theorem exclusion_map_records_level_1 (exclusions : gmap string bool) :
  let result := filter_provider.build_exclusion_map (Some exclusions) in
  (forall lvl styles_at, result !! lvl = Some styles_at ->
     lvl = 1 /\ forall s, s ∈ styles_at <-> exclusions !! s = Some true)
  /\ (is_Some (result !! 1) <-> exists s, exclusions !! s = Some true)
  /\ (forall lvl styles_at s, result !! lvl = Some styles_at ->
        exclusions !! s = Some false -> s ∉ styles_at).
Proof.
  intros result.
  destruct (build_exclusion_map_level_1_only (Some exclusions)) as [Hk Hf Hs].
  simpl in *. fold result in Hk, Hf, Hs.
  assert (Hone : forall lvl styles_at, result !! lvl = Some styles_at ->
            lvl = 1 /\ forall s, s ∈ styles_at <-> exclusions !! s = Some true).
  { intros lvl S HS. destruct (decide (lvl = 1)) as [->|Hne].
    - split; [done|]. intros s. rewrite <- Hf, HS. done.
    - rewrite (Hk lvl Hne) in HS. done. }
  repeat split.
  - by apply (Hone lvl styles_at).
  - by apply (Hone lvl styles_at).
  - by apply (Hone lvl styles_at).
  - by apply Hs.
  - by apply Hs.
  - intros lvl S s HS Hfalse Hin. apply (Hone lvl S HS) in Hin. congruence.
Qed.

(** ** The caller's overrides *)

Import docx_conversion_logic.

Section overrides.
Context `{Document D} {ColorRules : Type}.
Variable STYLE_MAP : gmap string Z.

Lemma user_override_lookup md (m overrides : gmap string Z) k v :
  style_heading_map md = Some overrides ->
  overrides !! k = Some v ->
  user_override md m !! k = Some v.
Proof.
  intros Hmd. unfold user_override. rewrite Hmd. revert k v.
  apply (map_fold_weak_ind
           (fun (r : gmap string Z) (ov : gmap string Z) =>
              forall k v, ov !! k = Some v -> r !! k = Some v)).
  - intros k v Hk. by rewrite lookup_empty in Hk.
  - intros i x ov r Hfresh IH k v Hk. destruct (decide (i = k)) as [->|Hne].
    + rewrite lookup_insert_eq in Hk |- *. done.
    + rewrite lookup_insert_ne in Hk |- * by done. by apply IH.
Qed.

(** Where the caller says nothing, the map is left as it was. *)
Lemma user_override_other md (m overrides : gmap string Z) k :
  style_heading_map md = Some overrides ->
  overrides !! k = None ->
  user_override md m !! k = m !! k.
Proof.
  intros Hmd. unfold user_override. rewrite Hmd. revert k.
  apply (map_fold_weak_ind
           (fun (r : gmap string Z) (ov : gmap string Z) =>
              forall k, ov !! k = None -> r !! k = m !! k)).
  - done.
  - intros i x ov r Hfresh IH k Hk. destruct (decide (i = k)) as [->|Hne].
    + by rewrite lookup_insert_eq in Hk.
    + rewrite lookup_insert_ne in Hk |- * by done. by apply IH.
Qed.

(** C3.  Every style that is a key of the caller's [style_heading_map]
    is in the final style-to-level map at the caller's level, whatever
    classification (and the legacy table) decided for it. *)
Theorem user_overrides_win (doc : D) md
    (plugin_config : option (PluginConfig ColorRules)) overrides k v :
  style_heading_map md = Some overrides ->
  overrides !! k = Some v ->
  final_style_heading_map STYLE_MAP doc md plugin_config !! k = Some v.
Proof.
  intros Hmd Hk. unfold final_style_heading_map.
  by apply (user_override_lookup md _ overrides).
Qed.

End overrides.

Lemma user_overrides_win_witness :
  build_style_heading_map
    (Catalog [Readable {| type := PARAGRAPH; name := Some "Caption"%string;
                          outline := NoElement |}]) (None : option (PluginConfig unit))
    !! "Caption"%string = None /\
  final_style_heading_map (∅ : gmap string Z)
    (Catalog [Readable {| type := PARAGRAPH; name := Some "Caption"%string;
                          outline := NoElement |}])
    {| manual_title := None; revision_date := None;
       style_heading_map := Some {[ "Caption"%string := 3 ]} |}
    (None : option (PluginConfig unit)) !! "Caption"%string = Some 3.
Proof.
  split; [reflexivity|].
  apply (user_overrides_win (D := Styles) ∅ _ _ None {[ "Caption"%string := 3 ]}).
  - reflexivity.
  - reflexivity.
Defined.

(** ** Errors while the catalog is read *)

Section catalog_errors.


(** An error inside the outline lookup (the xpath query raises, or the
    value is not an integer) is the same as no outline level. *)
Lemma outline_errors_swallowed v vs :
  int (chars v) = None ->
  outline_level XPathRaises = outline_level NoElement /\
  outline_level (OutlineVals (v :: vs)) = outline_level NoElement.
Proof. intros Hv. simpl. by rewrite Hv. Qed.

End catalog_errors.




(** ** Rule 2: names with a numeric prefix *)

Section numeric_prefix.
Import spec.

Lemma plain_or_not_heading :
  forall c, isspace c || isdecimal c = true -> Ascii.eqb "h" (lower_char c) = false.
Proof.
  intros c; destruct c as [[] [] [] [] [] [] [] []]; vm_compute;
    first [ reflexivity | discriminate ].
Qed.

Lemma heading_pattern_needs_letter s :
  starts_plain s = false -> heading_scan s = None.
Proof.
  intros Hs. apply heading_pattern_needs_word.
  destruct s as [|c s]; [done|]. simpl in Hs.
  change (startswith (chars "heading") (lower (c :: s)))
    with (if Ascii.eqb "h" (lower_char c)
          then startswith (chars "eading") (lower s) else false).
  rewrite plain_or_not_heading; [done|].
  destruct (isspace c); [done|]. by destruct (isdecimal c).
Qed.

Lemma segment_inv sep ds :
  segment (sep, ds) = true ->
  is_dot_dash sep = true /\ forallb isdecimal ds = true /\ ds <> [].
Proof.
  unfold segment. simpl. intros H.
  apply andb_prop in H as [H Hne]. apply andb_prop in H as [Hsep Hds].
  repeat split; try done. intros ->. done.
Qed.

Lemma segments_text_cons sep ds gs :
  segments_text ((sep, ds) :: gs) = sep :: ds ++ segments_text gs.
Proof. reflexivity. Qed.

Variable rest : list ascii.
Hypothesis rest_ends : prefix_ends rest = true.

Lemma rest_not_decimal : stops isdecimal rest = true.
Proof.
  destruct rest as [|c r]; [done|]. simpl in *.
  by apply andb_prop in rest_ends as [-> _].
Qed.

(** After a number, neither the further segments nor the rest go on
    with a decimal. *)
Lemma after_number_stops gs :
  forallb segment gs = true -> stops isdecimal (segments_text gs ++ rest) = true.
Proof.
  destruct gs as [|[sep ds] gs]; simpl; [intros _; apply rest_not_decimal|].
  intros H. apply andb_prop in H as [H _]. apply segment_inv in H as (Hsep & _ & _).
  by rewrite (dot_dash_not_decimal _ Hsep).
Qed.

(** The text of the segments splits back into their numbers. *)
Lemma re_split_decimal c s :
  isdecimal c = true ->
  re_split is_dot_dash (c :: s) =
    match re_split is_dot_dash s with
    | piece :: pieces => (c :: piece) :: pieces
    | [] => [[c]]
    end.
Proof. intros Hc. cbn [re_split]. by rewrite (decimal_not_dot_dash _ Hc). Qed.

Lemma re_split_segments gs :
  forallb segment gs = true ->
  forall ds, forallb isdecimal ds = true ->
  re_split is_dot_dash (ds ++ segments_text gs) = ds :: map snd gs.
Proof.
  induction gs as [|[sep d] gs IH]; intros Hgs ds;
    induction ds as [|c ds IHds]; intros Hds.
  - reflexivity.
  - cbn [forallb] in Hds. apply andb_prop in Hds as [Hc Hds]. cbn [app].
    by rewrite (re_split_decimal _ _ Hc), (IHds Hds).
  - cbn [forallb] in Hgs. apply andb_prop in Hgs as [Hg Hgs].
    apply segment_inv in Hg as (Hsep & Hd & _).
    cbn [app]. rewrite segments_text_cons. cbn [re_split]. rewrite Hsep.
    by rewrite (IH Hgs d Hd).
  - cbn [forallb] in Hds. apply andb_prop in Hds as [Hc Hds]. cbn [app].
    by rewrite (re_split_decimal _ _ Hc), (IHds Hds).
Qed.

Lemma numbers_are_digits gs :
  forallb segment gs = true ->
  filter (fun s => isdigit s = true) (map snd gs) = map snd gs.
Proof.
  induction gs as [|[sep d] gs IH]; simpl; [done|]. intros H.
  apply andb_prop in H as [Hg Hgs]. apply segment_inv in Hg as (_ & Hd & Hne).
  rewrite filter_cons_True.
  - by rewrite (IH Hgs).
  - destruct d as [|c d]; [done|]. unfold isdigit.
    apply forallb_forall. intros x Hx. rewrite forallb_forall in Hd.
    apply decimal_is_digit. by apply Hd.
Qed.

Lemma take_segments n gs :
  forallb segment gs = true -> forallb segment (take n gs) = true.
Proof.
  revert gs. induction n as [|n IH]; intros [|g gs]; simpl; try done.
  intros H. apply andb_prop in H as [-> H]. by apply IH.
Qed.

Hypothesis rest_boundary : boundary_after_word rest = true.

Lemma segments_boundary gs :
  forallb segment gs = true -> boundary_after_word (segments_text gs ++ rest) = true.
Proof.
  destruct gs as [|[sep ds] gs]; simpl; [done|].
  intros H. apply andb_prop in H as [H _]. apply segment_inv in H as (Hsep & _ & _).
  by rewrite (dot_dash_not_word _ Hsep).
Qed.

(** At most [n] of the segments are matched, and all of them when
    there are no more than [n]. *)
Lemma numeric_groups_takes n gs :
  forallb segment gs = true ->
  numeric_groups n (segments_text gs ++ rest) = Some (segments_text (take n gs)).
Proof.
  revert gs. induction n as [|n IH]; intros gs Hgs.
  - simpl. rewrite (segments_boundary gs Hgs). by destruct gs.
  - destruct gs as [|[sep ds] gs].
    + simpl. rewrite rest_boundary.
      destruct rest as [|c r] eqn:Hrest; [done|].
      destruct (is_dot_dash c) eqn:Hc; [|done].
      simpl in rest_ends. rewrite Hc in rest_ends. simpl in rest_ends.
      apply andb_prop in rest_ends as [_ Hstop]. apply negb_true_iff, negb_false_iff in Hstop.
      destruct r as [|x r']; [done|]. simpl in Hstop |- *.
      apply negb_true_iff in Hstop. by rewrite Hstop.
    + simpl in Hgs. apply andb_prop in Hgs as [Hg Hgs].
      apply segment_inv in Hg as (Hsep & Hds & Hne).
      rewrite segments_text_cons.
      replace ((sep :: ds ++ segments_text gs) ++ rest)
        with (sep :: ds ++ (segments_text gs ++ rest))
        by (simpl; by rewrite app_assoc).
      cbn [numeric_groups take]. rewrite Hsep.
      rewrite (span_run isdecimal ds _ Hds (after_number_stops gs Hgs)).
      rewrite (IH gs Hgs). destruct ds; [done|]. by rewrite segments_text_cons.
Qed.

Variables ws d0 : list ascii.
Variable gs : list (ascii * list ascii).
Hypothesis leading_space : forallb isspace ws = true.
Hypothesis first_number_ok : d0 <> [] /\ forallb isdecimal d0 = true.
Hypothesis segments_ok : forallb segment gs = true.

Let full := ws ++ d0 ++ segments_text gs ++ rest.

Lemma prefixed_not_plain : starts_plain full = false.
Proof.
  unfold full. destruct first_number_ok as [Hne Hd0].
  destruct ws as [|w ws']; simpl in *.
  - destruct d0 as [|d d0']; [done|]. simpl in *.
    apply andb_prop in Hd0 as [Hd _]. rewrite Hd. apply andb_false_r.
  - apply andb_prop in leading_space as [Hw _]. by rewrite Hw.
Qed.

Lemma prefixed_match :
  numeric_scan full = Some (ws ++ d0 ++ segments_text (take 8 gs)).
Proof.
  destruct first_number_ok as [Hne Hd0]. unfold numeric_scan, full.
  rewrite (span_run isspace ws _ leading_space)
    by (by apply decimals_stop_space).
  rewrite (span_run isdecimal d0 _ Hd0 (after_number_stops gs segments_ok)).
  rewrite (numeric_groups_takes 8 gs segments_ok). by destruct d0.
Qed.

Lemma prefixed_segments :
  filter (fun s => isdigit s = true)
    (re_split is_dot_dash (lstrip (ws ++ d0 ++ segments_text (take 8 gs))))
  = d0 :: map snd (take 8 gs).
Proof.
  destruct first_number_ok as [Hne Hd0].
  pose proof (take_segments 8 gs segments_ok) as Htake.
  unfold lstrip.
  rewrite (span_run isspace ws _ leading_space) by (by apply decimals_stop_space).
  simpl. rewrite (re_split_segments _ Htake d0 Hd0).
  rewrite filter_cons_True.
  - by rewrite (numbers_are_digits _ Htake).
  - destruct d0 as [|c d]; [done|]. unfold isdigit.
    apply forallb_forall. intros x Hx. rewrite forallb_forall in Hd0.
    apply decimal_is_digit. by apply Hd0.
Qed.

Lemma classify_prefixed o :
  classify (text full) o = Some (Z.min 6 (Z.of_nat (S (length gs)))).
Proof.
  unfold classify, apply_rules. cbv zeta.
  rewrite match_builtin_heading, match_numeric_leading, chars_text.
  rewrite (heading_pattern_needs_letter _ prefixed_not_plain).
  rewrite prefixed_match, prefixed_segments.
  f_equal. cbn [length]. rewrite length_map, length_take. lia.
Qed.

End numeric_prefix.

(** C4, as the code has it.  A paragraph style whose name begins,
    after optional white space, with a numeric dotted or dashed prefix
    that ends at a word boundary (the name ends there, or goes on with a
    character that is not a letter, a digit or an underscore) is in the
    map at level min(6, number of numeric segments of the prefix), which
    is at least 1, provided the loop reaches the style: every entry
    before it in the catalog can be read and none of them makes step 1
    raise.  Such a name never matches the "Heading N" pattern. *)
Theorem numeric_prefix_gives_segment_count
    `{Document D} {Cfg : Type} (doc : D) (plugin_config : option Cfg)
    pre style post ws d0 gs rest :
  styles doc = Catalog (pre ++ Readable style :: post) ->
  forallb passes pre = true ->
  type style = PARAGRAPH ->
  name style = Some (text (ws ++ d0 ++ spec.segments_text gs ++ rest)) ->
  forallb isspace ws = true ->
  spec.numeric_prefix d0 gs rest ->
  spec.boundary_after_word rest = true ->
  build_style_heading_map doc plugin_config
    !! text (ws ++ d0 ++ spec.segments_text gs ++ rest)
    = Some (Z.min 6 (Z.of_nat (S (length gs))))
  /\ 1 <= Z.min 6 (Z.of_nat (S (length gs))).
Proof.
  intros Hdoc Hpre Ht Hn Hws [Hd0 Hgs Hrest] Hb. split; [|lia].
  unfold build_style_heading_map. rewrite Hdoc.
  apply visit_all_reaches; try done.
  - apply text_nonempty. destruct Hd0 as [Hne _].
    destruct ws; simpl; [|done]. by destruct d0.
  - intros o. by apply classify_prefixed.
Qed.

Lemma numeric_prefix_gives_segment_count_witness :
  build_style_heading_map
    (Catalog [Readable {| type := PARAGRAPH; name := Some "1.2-3 Title"%string;
                          outline := NoElement |}])
    (None : option unit) !! "1.2-3 Title"%string = Some 3
  /\ 1 <= 3.
Proof.
  apply (numeric_prefix_gives_segment_count (D := Styles) _ None []
           {| type := PARAGRAPH; name := Some "1.2-3 Title"%string; outline := NoElement |}
           [] [] (chars "1") [("."%char, chars "2"); ("-"%char, chars "3")]
           (chars " Title")).
  - reflexivity.
  - reflexivity.
  - reflexivity.
  - reflexivity.
  - reflexivity.
  - split; [split; [discriminate | reflexivity] | reflexivity | reflexivity].
  - reflexivity.
Defined.

(** C4, as the specification has it, fails where the prefix runs into
    a word: "1.2abc" begins with the prefix "1.2" of two segments and is
    put at level 1, because [\b] sends the match back to "1"; "1abc"
    is not matched at all and stays out of the map.  It also fails for
    a style that the loop does not reach: "1.2 Title" after an entry
    that cannot be read is not in the map. *)
Lemma numeric_prefix_before_a_letter :
  spec.numeric_prefix (chars "1") [("."%char, chars "2")] (chars "abc")
  /\ re.match_ builtin_heading_pattern (chars "1.2abc") = None
  /\ build_style_heading_map
       (Catalog [Raises;
                 Readable {| type := PARAGRAPH; name := Some "1.2 Title"%string;
                             outline := NoElement |}])
       (None : option unit) !! "1.2 Title"%string = None
  /\ build_style_heading_map
       (Catalog [Readable {| type := PARAGRAPH; name := Some "1.2abc"%string;
                             outline := NoElement |}])
       (None : option unit) !! "1.2abc"%string = Some 1
  /\ build_style_heading_map
       (Catalog [Readable {| type := PARAGRAPH; name := Some "1abc"%string;
                             outline := NoElement |}])
       (None : option unit) !! "1abc"%string = None
  /\ ~ (forall d0 gs rest,
          spec.numeric_prefix d0 gs rest ->
          re.match_ builtin_heading_pattern (d0 ++ spec.segments_text gs ++ rest) = None ->
          build_style_heading_map
            (Catalog [Readable {| type := PARAGRAPH;
                                  name := Some (text (d0 ++ spec.segments_text gs ++ rest));
                                  outline := NoElement |}])
            (None : option unit) !! text (d0 ++ spec.segments_text gs ++ rest)
          = Some (Z.max 1 (Z.min 6 (Z.of_nat (S (length gs)))))).
Proof.
  assert (Hp : spec.numeric_prefix (chars "1") [("."%char, chars "2")] (chars "abc")).
  { split; [split; [discriminate | reflexivity] | reflexivity | reflexivity]. }
  split; [exact Hp|]. split; [reflexivity|]. split; [reflexivity|].
  split; [reflexivity|]. split; [reflexivity|].
  intros Hall. specialize (Hall _ _ _ Hp eq_refl).
  vm_compute in Hall. discriminate Hall.
Qed.

(** ** File names *)

Section file_names.
Import ospath.

Example basename_of_path :
  text (basename (chars "/home/user/docs/report.v2.docx")) = "report.v2.docx"%string.
Proof. reflexivity. Qed.

Example splitext_of_name :
  splitext (chars "report.v2.docx") = (chars "report.v2", chars ".docx").
Proof. reflexivity. Qed.

Example splitext_of_dot_file : splitext (chars ".docx") = (chars ".docx", []).
Proof. reflexivity. Qed.

Lemma forallb_nil_or {A} (f : A -> bool) l : forallb f l = false -> l <> [].
Proof. by destruct l. Qed.

(** A name that is not empty keeps something before its extension. *)
Lemma splitext_keeps_a_stem q : q <> [] -> fst (splitext q) <> [].
Proof.
  intros Hq. unfold splitext.
  destruct (rfind "/" q <? rfind "." q); [|done].
  destruct (forallb _ (slice q _ _)) eqn:Hdots; [done|]. simpl.
  apply forallb_nil_or in Hdots. unfold slice in Hdots.
  destruct (Z.to_nat (rfind "." q)) as [|n]; [|by destruct q].
  by rewrite Nat.sub_0_l, take_0 in Hdots.
Qed.

End file_names.

(** ** The fallback topic *)

Section fallback_topic.
Context {E D Block Images ImageMap ColorRules Node : Type} `{!Document D}.

Variable open_document : string -> Result E D.
Variable no_images : Images.
Variable no_color_rules : ColorRules.
Variable STYLE_MAP : gmap string Z.
Variable extract_images_to_context :
  D -> DitaContext Images -> Result E (ImageMap * DitaContext Images).
Variable add_orlando_topicmeta : ET.Element -> Metadata -> Result E ET.Element.
Variable build_document_structure :
  D -> gmap string Z -> ImageMap -> Result E (list Node).
Variable determine_node_roles : list Node -> Result E (list Node).
Variable generate_dita_from_structure :
  list Node -> DitaContext Images -> Metadata -> ImageMap -> ET.Element ->
  list Z -> ColorRules -> Result E (DitaContext Images * ET.Element).
Variable iter_block_items : D -> Result E (list Block).
Variable create_dita_concept :
  string -> string -> string -> Result E (ET.Around * ET.Element).
Variable _add_content_to_topic :
  ET.Element -> list Block -> ImageMap -> ColorRules -> Result E ET.Element.

Variable amb : Ambient.
Variable file_path : string.

Let stem := fst (ospath.splitext (ospath.basename (chars file_path))).

Lemma fallback_title_is_stem :
  ospath.basename (chars file_path) <> [] -> fallback_title file_path = text stem.
Proof.
  intros Hb. apply splitext_keeps_a_stem in Hb. unfold fallback_title. fold stem.
  fold stem in Hb. by destruct stem.
Qed.

(** Only a path without base name (empty, or ending in "/") gets the
    default title. *)
Lemma fallback_title_default :
  ospath.basename (chars file_path) = [] -> fallback_title file_path = "Document"%string.
Proof. intros Hb. unfold fallback_title. by rewrite Hb. Qed.

Lemma fallback_topicref_shape md :
  let entry := fallback_topicref amb file_path md in
  ET.tag entry = "topicref"%string
  /\ ET.get "href" entry = Some ("topics/" +:+ file_name amb)
  /\ ET.get "data-level" entry = Some "1"%string
  /\ navtitle_texts entry = [Some (fallback_title file_path)]
  /\ othermeta_values "foldout" entry = [Some "false"%string]
  /\ othermeta_values "tdm" entry = [Some "false"%string].
Proof. repeat split; reflexivity. Qed.

(** C2.  When generation leaves no topic, the conversion adds exactly
    one: it is stored under the new file name, its title is the source
    file's name without extension, and its body is what
    [_add_content_to_topic] makes of all the block items of the
    document.  Exactly one entry is appended to the map, at level 1,
    with [foldout] and [tdm] both "false".  The path names a file (its
    base name is not empty), and the collaborators called on the way
    return. *)
Theorem zero_topics_fallback md
    (plugin_config : option (PluginConfig ColorRules))
    g concept_root conbody all_blocks body :
  generate open_document no_images no_color_rules STYLE_MAP
    extract_images_to_context add_orlando_topicmeta build_document_structure
    determine_node_roles generate_dita_from_structure file_path md plugin_config
    = Ok g ->
  topics (g_context g) = ∅ ->
  ospath.basename (chars file_path) <> [] ->
  create_dita_concept (text stem) (topic_id amb)
    (default (today_for_concept amb) (revision_date (metadata (g_context g))))
    = Ok (concept_root, conbody) ->
  iter_block_items (g_doc g) = Ok all_blocks ->
  _add_content_to_topic conbody all_blocks (g_images g) (g_color_rules g) = Ok body ->
  exists context entry,
    convert_docx_to_dita_internal open_document no_images no_color_rules STYLE_MAP
      extract_images_to_context add_orlando_topicmeta build_document_structure
      determine_node_roles generate_dita_from_structure iter_block_items
      create_dita_concept _add_content_to_topic amb file_path md plugin_config
      = Ok context
    /\ topics context = {[ file_name amb := ET.plug concept_root body ]}
    /\ ditamap_root context = Some (ET.append entry (g_map_root g))
    /\ ET.children (ET.append entry (g_map_root g))
       = ET.children (g_map_root g) ++ [entry]
    /\ ET.tag entry = "topicref"%string
    /\ ET.get "href" entry = Some ("topics/" +:+ file_name amb)
    /\ ET.get "data-level" entry = Some "1"%string
    /\ navtitle_texts entry = [Some (text stem)]
    /\ othermeta_values "foldout" entry = [Some "false"%string]
    /\ othermeta_values "tdm" entry = [Some "false"%string].
Proof.
  intros Hgen Htopics Hname Hconcept Hblocks Hbody.
  pose proof (fallback_title_is_stem Hname) as Htitle.
  exists (with_topic (with_root (g_context g)
                        (ET.append (fallback_topicref amb file_path (metadata (g_context g)))
                                   (g_map_root g)))
                     (file_name amb) (ET.plug concept_root body)),
         (fallback_topicref amb file_path (metadata (g_context g))).
  split.
  - unfold convert_docx_to_dita_internal. rewrite Hgen. simpl. unfold fallback.
    rewrite bool_decide_eq_true_2 by done.
    rewrite Htitle, Hconcept. simpl. rewrite Hblocks. simpl. rewrite Hbody. done.
  - split; [simpl; by rewrite Htopics, insert_empty|].
    split; [done|]. split; [done|].
    pose proof (fallback_topicref_shape (metadata (g_context g))) as Hshape.
    simpl in Hshape. rewrite Htitle in Hshape. exact Hshape.
Qed.

End fallback_topic.

Lemma zero_topics_fallback_witness :
  exists context,
    sample.run "/home/user/notes.docx" = Ok context
    /\ topics context =
         {[ "topic_0123456789.dita"%string :=
              ET.mkElement "concept" [("id", "topic_0123456789")] None
                [ET.mkElement "title" [] (Some "notes") [];
                 ET.mkElement "conbody" [] None
                   [ET.new "p" []; ET.new "p" []; ET.new "p" []]] ]}.
Proof.
  destruct (zero_topics_fallback
              sample.open_document tt tt ∅
              sample.extract_images_to_context sample.add_orlando_topicmeta
              sample.build_document_structure sample.determine_node_roles
              sample.generate_dita_from_structure sample.iter_block_items
              sample.create_dita_concept sample._add_content_to_topic
              sample.amb "/home/user/notes.docx" sample.md None
              _ _ _ _ _
              eq_refl eq_refl ltac:(discriminate) eq_refl eq_refl eq_refl)
    as (context & entry & Hrun & Htopics & _).
  exists context. split; [exact Hrun | exact Htopics].
Defined.

(** * Further properties of the classifier *)

Section keys_of_the_map.

(** Whatever the loop adds comes from a readable paragraph style of that
    name, at the level its classification gave. *)
Lemma visit_all_keys entries : forall (m : gmap string Z) nm l,
  visit_all entries m !! nm = Some l ->
  m !! nm = Some l \/
  exists style, In (Readable style) entries /\ type style = PARAGRAPH /\
                name style = Some nm /\ nm <> ""%string /\
                classify nm (outline style) = Some l.
Proof.
  induction entries as [|[style|] rest IH]; intros m nm l Hl; simpl in Hl;
    [by left| |by left].
  destruct (visit style m) as [m'|] eqn:Hv; [|by left].
  destruct (IH _ _ _ Hl) as [Hm|(s & Hin & Hs)].
  - destruct (visit_lookup style m m' nm Hv) as [Heq|(N & Hn & Ht & Hne & Hc & Heq)];
      rewrite Heq in Hm; [by left|].
    right. exists style. injection Hm as <-. repeat split; try done. by left.
  - right. exists s. split; [by right | done].
Qed.

Lemma classify_name_decides nm l :
  classify nm NoElement = Some l -> forall o, classify nm o = Some l.
Proof.
  unfold classify, apply_rules. cbv zeta.
  destruct (re.match_ builtin_heading_pattern (chars nm) ≫= re.group_1) as [ds|];
    [destruct (int ds) as [level|];
       [destruct ((1 <=? level) && (level <=? 9))|]|];
    try done;
    (destruct (re.group_0 <$> re.match_ numeric_leading_pattern (chars nm)); [done|]);
    repeat match goal with |- context [if ?b then _ else _] => destruct b end;
    try done; cbn [outline_level]; by destruct (outline_level o).
Qed.

Lemma classify_by_outline_only nm o l :
  classify nm NoElement = None -> classify nm o = Some l ->
  outline_level o = Some l.
Proof.
  unfold classify, apply_rules. cbv zeta.
  destruct (re.match_ builtin_heading_pattern (chars nm) ≫= re.group_1) as [ds|];
    [destruct (int ds) as [level|];
       [destruct ((1 <=? level) && (level <=? 9))|]|];
    try done;
    (destruct (re.group_0 <$> re.match_ numeric_leading_pattern (chars nm)); [done|]);
    repeat match goal with |- context [if ?b then _ else _] => destruct b end;
    try done; cbn [outline_level]; by destruct (outline_level o).
Qed.

Lemma outline_level_inv o l :
  outline_level o = Some l ->
  exists v vs n, o = OutlineVals (v :: vs) /\ int (chars v) = Some n /\
                 0 <= n <= 8 /\ l = n + 1.
Proof.
  unfold outline_level. destruct o as [| |[|v vs]]; try done.
  destruct (int (chars v)) as [n|] eqn:Hn; [|done].
  destruct ((0 <=? n) && (n <=? 8)) eqn:Hr; [|done]. intros [= <-].
  exists v, vs, n. repeat split; try done; lia.
Qed.

End keys_of_the_map.

(** X1.  Every key of the map returned by [build_style_heading_map] is
    the name of a readable paragraph style of the catalog, not empty,
    and its level is what the rules give for that style. *)
Theorem heading_map_keys_are_paragraph_styles
    `{Document D} {Cfg : Type} (doc : D) (plugin_config : option Cfg) nm l :
  build_style_heading_map doc plugin_config !! nm = Some l ->
  exists entries style,
    styles doc = Catalog entries /\ In (Readable style) entries /\
    type style = PARAGRAPH /\ name style = Some nm /\ nm <> ""%string /\
    classify nm (outline style) = Some l.
Proof.
  unfold build_style_heading_map. destruct (styles doc) as [|entries] eqn:Hdoc.
  - by rewrite lookup_empty.
  - intros Hl. apply visit_all_keys in Hl as [Hl|(style & Hin & Hs)].
    + by rewrite lookup_empty in Hl.
    + by exists entries, style.
Qed.

Lemma heading_map_keys_are_paragraph_styles_witness :
  exists entries style,
    Catalog [Readable {| type := CHARACTER; name := Some "Title"%string;
                         outline := NoElement |};
             Readable {| type := PARAGRAPH; name := Some "Chapter Title"%string;
                         outline := NoElement |}] = Catalog entries /\
    In (Readable style) entries /\
    type style = PARAGRAPH /\ name style = Some "Chapter Title"%string /\
    "Chapter Title"%string <> ""%string /\
    classify "Chapter Title" (outline style) = Some 1.
Proof.
  exact (heading_map_keys_are_paragraph_styles (D := Styles)
           (Catalog [Readable {| type := CHARACTER; name := Some "Title"%string;
                                 outline := NoElement |};
                     Readable {| type := PARAGRAPH; name := Some "Chapter Title"%string;
                                 outline := NoElement |}])
           (None : option unit) "Chapter Title"%string 1 eq_refl).
Defined.

(** X2.  The rules on the name come before the outline level: when the
    name alone gives level [l], a paragraph style of that name is in the
    map at level [l] whatever outline level its definition carries,
    provided the loop reaches the style: every entry before it in the
    catalog can be read and none of them makes step 1 raise. *)
Theorem name_rules_come_before_outline_level
    `{Document D} {Cfg : Type} (doc : D) (plugin_config : option Cfg)
    pre style post nm l :
  styles doc = Catalog (pre ++ Readable style :: post) ->
  forallb passes pre = true ->
  type style = PARAGRAPH -> name style = Some nm -> nm <> ""%string ->
  classify nm NoElement = Some l ->
  build_style_heading_map doc plugin_config !! nm = Some l.
Proof.
  intros Hdoc Hpre Ht Hn Hne Hcl. unfold build_style_heading_map. rewrite Hdoc.
  apply visit_all_reaches; try done. by apply classify_name_decides.
Qed.

Lemma name_rules_come_before_outline_level_witness :
  build_style_heading_map
    (Catalog [Readable {| type := PARAGRAPH; name := Some "Chapter Title"%string;
                          outline := OutlineVals ["4"%string] |}])
    (None : option unit) !! "Chapter Title"%string = Some 1.
Proof.
  apply (name_rules_come_before_outline_level (D := Styles) _ None []
           {| type := PARAGRAPH; name := Some "Chapter Title"%string;
              outline := OutlineVals ["4"%string] |} []).
  - reflexivity.
  - reflexivity.
  - reflexivity.
  - reflexivity.
  - discriminate.
  - reflexivity.
Defined.

(** X3.  A style that the rules on the name leave alone is in the map
    only through an outline level: some paragraph style of that name
    has a first [w:outlineLvl] value that [int] reads as n, 0 <= n <= 8,
    and the level is n + 1. *)
Theorem unknown_name_is_heading_by_outline_only
    `{Document D} {Cfg : Type} (doc : D) (plugin_config : option Cfg) nm l :
  classify nm NoElement = None ->
  build_style_heading_map doc plugin_config !! nm = Some l ->
  exists entries style v vs n,
    styles doc = Catalog entries /\ In (Readable style) entries /\
    name style = Some nm /\ outline style = OutlineVals (v :: vs) /\
    int (chars v) = Some n /\ 0 <= n <= 8 /\ l = n + 1.
Proof.
  intros Hname Hl.
  apply heading_map_keys_are_paragraph_styles in Hl
    as (entries & style & Hdoc & Hin & _ & Hn & _ & Hc).
  apply (classify_by_outline_only _ _ _ Hname) in Hc.
  apply outline_level_inv in Hc as (v & vs & n & Ho & Hv & Hr & ->).
  by exists entries, style, v, vs, n.
Qed.

Lemma unknown_name_is_heading_by_outline_only_witness :
  exists entries style v vs n,
    Catalog [Readable {| type := PARAGRAPH; name := Some "Annex"%string;
                         outline := OutlineVals ["2"%string; "7"%string] |}]
      = Catalog entries /\ In (Readable style) entries /\
    name style = Some "Annex"%string /\ outline style = OutlineVals (v :: vs) /\
    int (chars v) = Some n /\ 0 <= n <= 8 /\ 3 = n + 1.
Proof.
  exact (unknown_name_is_heading_by_outline_only (D := Styles)
           (Catalog [Readable {| type := PARAGRAPH; name := Some "Annex"%string;
                                 outline := OutlineVals ["2"%string; "7"%string] |}])
           (None : option unit) "Annex"%string 3 eq_refl eq_refl).
Defined.

Section exclusion_words.

Lemma any_in_app ps qs s : any_in (ps ++ qs) s = any_in ps s || any_in qs s.
Proof. unfold any_in. apply existsb_app. Qed.

Lemma excluded_name_is_no_heading_name s :
  any_in (strong_exclusions ++ medium_exclusions) (strip (lower s)) = true ->
  heading_scan s = None.
Proof.
  intros Hex. destruct (heading_scan s) as [ds|] eqn:Hs; [|done].
  apply heading_pattern_only in Hs as (h & ws & nl & -> & Hshape).
  rewrite (any_in_foreign (strong_exclusions ++ medium_exclusions) _ eq_refl
             (stripped_chars h ws ds nl Hshape)) in Hex.
  done.
Qed.

Lemma classify_excluded nm o :
  any_in (strong_exclusions ++ medium_exclusions) (strip (lower (chars nm))) = true ->
  re.match_ numeric_leading_pattern (chars nm) = None ->
  classify nm o = None.
Proof.
  intros Hex Hnum. unfold classify, apply_rules. cbv zeta.
  rewrite match_builtin_heading, (excluded_name_is_no_heading_name _ Hex), Hnum.
  cbn [fmap option_fmap option_map]. rewrite any_in_app in Hex.
  destruct (bool_decide (nm ∈ builtin_non_heading_styles)); [done|].
  match goal with |- context [existsb ?f builtin_non_heading_styles] =>
    destruct (existsb f builtin_non_heading_styles); [done|] end.
  destruct (any_in strong_exclusions _); [done|].
  rewrite orb_false_l in Hex. by rewrite Hex.
Qed.

End exclusion_words.

(** X4.  A style whose name, lower-cased and stripped, contains one of
    the strong or medium exclusion words is never in the map, whatever
    its outline level and whatever else its name says, unless the name
    starts with a number that the numeric pattern matches. *)
Theorem exclusion_words_are_never_headings
    `{Document D} {Cfg : Type} (doc : D) (plugin_config : option Cfg) nm :
  any_in (strong_exclusions ++ medium_exclusions) (strip (lower (chars nm))) = true ->
  re.match_ numeric_leading_pattern (chars nm) = None ->
  build_style_heading_map doc plugin_config !! nm = None.
Proof.
  intros Hex Hnum. unfold build_style_heading_map.
  destruct (styles doc) as [|entries]; [done|].
  apply visit_all_never; [|done]. intros o. by apply classify_excluded.
Qed.

Lemma exclusion_words_are_never_headings_witness :
  build_style_heading_map
    (Catalog [Readable {| type := PARAGRAPH; name := Some "Heading Text Title"%string;
                          outline := OutlineVals ["0"%string] |}])
    (None : option unit) !! "Heading Text Title"%string = None.
Proof.
  apply (exclusion_words_are_never_headings (D := Styles)); reflexivity.
Defined.

Section detect_level.

Lemma detect_is_scan nm :
  _detect_builtin_heading_level nm = heading_scan (chars nm) ≫= int.
Proof.
  unfold _detect_builtin_heading_level. rewrite match_builtin_heading.
  destruct (chars nm) eqn:E; [|by destruct (heading_scan _)].
  by destruct (heading_scan []) eqn:Hs.
Qed.

End detect_level.

(** X5.  [_detect_builtin_heading_level] answers N exactly on the names
    "Heading", white space, digits (any letter case; a final newline is
    let through) whose number has at most 4300 digits, N being the
    value of the digits; beyond 4300 digits [int] raises and the answer
    is [None].  Whenever its answer is between 1 and 9 the classifier
    stores the style at that level. *)
Theorem detect_builtin_heading_level_spec nm n :
  (_detect_builtin_heading_level nm = Some n <->
   exists h ws ds nl, chars nm = h ++ ws ++ ds ++ nl /\ spec.heading_name h ws ds nl /\
                      Z.of_nat (length ds) <= max_str_digits /\
                      n = int_of_digits ds)
  /\ (_detect_builtin_heading_level nm = Some n -> 1 <= n <= 9 ->
      forall o, classify nm o = Some n).
Proof.
  rewrite detect_is_scan. split; [split|].
  - destruct (heading_scan (chars nm)) as [ds|] eqn:Hs; [|done]. cbn [mbind option_bind].
    rewrite (int_heading_scan _ _ Hs).
    destruct (Z.of_nat (length ds) <=? max_str_digits) eqn:Hlen; [|done].
    intros [= <-].
    apply heading_pattern_only in Hs as (h & ws & nl & Hnm & Hshape).
    exists h, ws, ds, nl. apply Z.leb_le in Hlen.
    split; [exact Hnm|]. split; [exact Hshape|]. split; [exact Hlen|reflexivity].
  - intros (h & ws & ds & nl & -> & Hshape & Hlen & ->).
    pose proof (heading_pattern_accepts _ _ _ _ Hshape) as Hs.
    rewrite Hs. cbn [mbind option_bind]. rewrite (int_heading_scan _ _ Hs).
    by replace (Z.of_nat (length ds) <=? max_str_digits) with true by lia.
  - destruct (heading_scan (chars nm)) as [ds|] eqn:Hs; [|done]. cbn [mbind option_bind].
    rewrite (int_heading_scan _ _ Hs).
    destruct (Z.of_nat (length ds) <=? max_str_digits) eqn:Hlen; [|done].
    intros [= <-] Hr o. apply Z.leb_le in Hlen. by apply classify_builtin.
Qed.

(** The digit limit at work in [_detect_builtin_heading_level]. *)
Example detect_refuses_a_long_number :
  _detect_builtin_heading_level (text (chars "Heading " ++ replicate 4300 "0"%char ++ chars "5"))
  = None /\
  _detect_builtin_heading_level (text (chars "Heading " ++ replicate 4299 "0"%char ++ chars "5"))
  = Some 5.
Proof.
  split; [vm_compute; reflexivity|].
  rewrite detect_is_scan, chars_text.
  replace (heading_scan (chars "Heading " ++ replicate 4299 "0"%char ++ chars "5"))
    with (Some (replicate 4299 "0"%char ++ chars "5")) by (vm_compute; reflexivity).
  cbn [mbind option_bind]. rewrite int_of_decimals;
    solve [vm_compute; reflexivity | vm_compute; discriminate].
Qed.

Section number_in_the_name.

Lemma first_decimals_run a ds b :
  forallb (fun c => negb (isdecimal c)) a = true ->
  ds <> [] -> forallb isdecimal ds = true -> stops isdecimal b = true ->
  first_decimals (a ++ ds ++ b) = Some ds.
Proof.
  intros Ha Hne Hds Hb. unfold first_decimals.
  rewrite (span_run (fun c => negb (isdecimal c)) a (ds ++ b) Ha).
  - rewrite (span_run isdecimal ds b Hds Hb). by destruct ds.
  - destruct ds as [|d ds']; [done|]. simpl in *.
    apply andb_prop in Hds as [Hd _]. by rewrite Hd.
Qed.

Lemma infer_tiers (s : list ascii) :
  (if any_in ["title"; "main"; "principal"; "primary"]%string s then 1
   else if any_in ["section"; "chapter"; "part"]%string s then 2
   else if any_in ["subsection"; "subchapter"]%string s then 3
   else 2)
  = if any_in ["title"; "main"; "principal"; "primary"]%string s then 1 else 2.
Proof.
  destruct (any_in ["title"; "main"; "principal"; "primary"]%string s); [done|].
  destruct (any_in ["section"; "chapter"; "part"]%string s) eqn:H2; [done|].
  destruct (any_in ["subsection"; "subchapter"]%string s) eqn:H3; [|done].
  apply third_tier_shadowed in H3. congruence.
Qed.

Lemma infer_closed_form nm :
  _infer_heading_level nm =
    match first_decimals (chars nm) with
    | Some ds =>
        if (Z.of_nat (length ds) <=? max_str_digits)
           && (1 <=? int_of_digits ds) && (int_of_digits ds <=? 9)
        then int_of_digits ds
        else if any_in ["title"; "main"; "principal"; "primary"]%string (lower (chars nm))
             then 1 else 2
    | None =>
        if any_in ["title"; "main"; "principal"; "primary"]%string (lower (chars nm))
        then 1 else 2
    end.
Proof.
  unfold _infer_heading_level. cbv zeta. rewrite search_number_pattern.
  destruct (first_decimals (chars nm)) as [ds|] eqn:Hds.
  - rewrite (int_first_decimals _ _ Hds).
    destruct (Z.of_nat (length ds) <=? max_str_digits); cbn [andb];
      [|apply infer_tiers].
    destruct ((1 <=? int_of_digits ds) && (int_of_digits ds <=? 9)); [done|].
    apply infer_tiers.
  - apply infer_tiers.
Qed.

End number_in_the_name.

(** X6.  [_infer_heading_level] answers 3 only for a name whose first
    run of digits is the number 3: no keyword leads to level 3. *)
Theorem infer_level_3_needs_the_number_3 nm :
  _infer_heading_level nm = 3 ->
  exists ds, re.search number_pattern (chars nm) ≫= re.group_1 = Some ds /\
             int_of_digits ds = 3.
Proof.
  rewrite infer_closed_form, search_number_pattern.
  destruct (first_decimals (chars nm)) as [ds|].
  - destruct ((Z.of_nat (length ds) <=? max_str_digits)
              && (1 <=? int_of_digits ds) && (int_of_digits ds <=? 9)).
    + intros H3. by exists ds.
    + by destruct (any_in _ _).
  - by destruct (any_in _ _).
Qed.

Lemma infer_level_3_needs_the_number_3_witness :
  exists ds, re.search number_pattern (chars "Custom 03 Header 7") ≫= re.group_1 = Some ds /\
             int_of_digits ds = 3.
Proof.
  apply (infer_level_3_needs_the_number_3 "Custom 03 Header 7"). reflexivity.
Defined.

(** X7.  Only the first run of digits of the name counts for
    [_infer_heading_level]: when it has at most 4300 digits and its
    value is between 1 and 9, that value is the level, whatever
    keywords and further numbers the name has; otherwise (the value is
    out of range, or [int] refuses the run for its length) the level is
    1 or 2 by the keywords, and the further numbers are not looked
    at. *)
Theorem first_number_decides_inferred_level a ds b :
  forallb (fun c => negb (isdecimal c)) a = true ->
  ds <> [] -> forallb isdecimal ds = true -> stops isdecimal b = true ->
  _infer_heading_level (text (a ++ ds ++ b)) =
    if (Z.of_nat (length ds) <=? max_str_digits)
       && (1 <=? int_of_digits ds) && (int_of_digits ds <=? 9)
    then int_of_digits ds
    else if any_in ["title"; "main"; "principal"; "primary"]%string
              (lower (a ++ ds ++ b))
         then 1 else 2.
Proof.
  intros Ha Hne Hds Hb. rewrite infer_closed_form, chars_text.
  by rewrite (first_decimals_run a ds b Ha Hne Hds Hb).
Qed.

Lemma first_number_decides_inferred_level_witness :
  _infer_heading_level "Titre 12 niveau 3" = 2 /\
  _infer_heading_level "Main Title 4 of 9" = 4.
Proof.
  split.
  - apply (first_number_decides_inferred_level (chars "Titre ") (chars "12")
             (chars " niveau 3")); [reflexivity | discriminate | reflexivity | reflexivity].
  - apply (first_number_decides_inferred_level (chars "Main Title ") (chars "4")
             (chars " of 9")); [reflexivity | discriminate | reflexivity | reflexivity].
Defined.

(** The digit limit at work in [_infer_heading_level]: 4300 zeros and a
    5 are 4301 digits, which [int] refuses, and the keywords decide. *)
Example infer_ignores_a_long_number :
  _infer_heading_level
    (text (chars "T" ++ (replicate 4300 "0"%char ++ chars "5") ++ chars " x")) = 2 /\
  _infer_heading_level
    (text (chars "T" ++ (replicate 4299 "0"%char ++ chars "5") ++ chars " x")) = 5.
Proof.
  split; rewrite infer_closed_form, chars_text, first_decimals_run;
    solve [vm_compute; reflexivity | vm_compute; discriminate].
Qed.

(** ** Letter case *)

Section letter_case.

Ltac by_chars :=
  let c := fresh "c" in
  intros c; destruct c as [[] [] [] [] [] [] [] []]; vm_compute;
  first [ reflexivity | discriminate | congruence
        | intros; first [ discriminate | reflexivity | congruence ] ].

Lemma lower_keeps_word : forall c, isword (lower_char c) = isword c.
Proof. by_chars. Qed.

Lemma lower_keeps_dot_dash : forall c, is_dot_dash (lower_char c) = is_dot_dash c.
Proof. by_chars. Qed.

Lemma dot_dash_lower : forall c, is_dot_dash c = true -> lower_char c = c.
Proof. by_chars. Qed.

Lemma lower_keeps_newline : forall c, Ascii.eqb (lower_char c) "010" = Ascii.eqb c "010".
Proof. by_chars. Qed.

Lemma span_lower p s :
  (forall c, p (lower_char c) = p c) ->
  span p (lower s) = (lower (fst (span p s)), lower (snd (span p s))).
Proof.
  intros Hp. induction s as [|c r IH]; simpl; [done|].
  rewrite Hp. destruct (p c); [|done].
  change (map lower_char r) with (lower r). rewrite IH.
  by destruct (span p r).
Qed.

Lemma span_lower_fixed p s :
  (forall c, p (lower_char c) = p c) -> (forall c, p c = true -> lower_char c = c) ->
  span p (lower s) = (fst (span p s), lower (snd (span p s))).
Proof.
  intros Hp Hfix. rewrite (span_lower p s Hp).
  by rewrite (lower_fixed p _ Hfix (span_fst_all p s)).
Qed.

Lemma match_literal_lower lit s :
  match_literal_ignorecase lit (lower s) = lower <$> match_literal_ignorecase lit s.
Proof.
  revert s. induction lit as [|a lit IH]; intros [|b s]; simpl; try done.
  rewrite lower_char_idem. destruct (Ascii.eqb (lower_char a) (lower_char b)); [|done].
  apply IH.
Qed.

Lemma at_dollar_lower s : re.at_dollar (lower s) = re.at_dollar s.
Proof.
  destruct s as [|c [|d s]]; simpl; [done| |done]. apply lower_keeps_newline.
Qed.

Lemma boundary_lower s : spec.boundary_after_word (lower s) = spec.boundary_after_word s.
Proof. destruct s as [|c s]; simpl; [done|]. by rewrite lower_keeps_word. Qed.

Lemma heading_scan_lower s : heading_scan (lower s) = heading_scan s.
Proof.
  unfold heading_scan. rewrite match_literal_lower.
  destruct (match_literal_ignorecase (chars "Heading") s) as [r|]; [|done].
  cbn [fmap option_fmap option_map].
  rewrite (span_lower_fixed isspace r lower_keeps_space space_lower).
  destruct (span isspace r) as [ws r1]. cbn [fst snd].
  rewrite (span_lower_fixed isdecimal r1 lower_keeps_decimal decimal_lower).
  destruct (span isdecimal r1) as [ds r2]. cbn [fst snd].
  by rewrite at_dollar_lower.
Qed.

Lemma numeric_groups_lower n s : numeric_groups n (lower s) = numeric_groups n s.
Proof.
  revert s. induction n as [|n IH]; intros s; cbn [numeric_groups].
  - by rewrite boundary_lower.
  - rewrite boundary_lower. destruct s as [|c r]; [done|].
    cbn [lower map]. change (map lower_char r) with (lower r).
    rewrite lower_keeps_dot_dash. destruct (is_dot_dash c) eqn:Hc; [|done].
    rewrite (dot_dash_lower c Hc).
    rewrite (span_lower_fixed isdecimal r lower_keeps_decimal decimal_lower).
    destruct (span isdecimal r) as [ds r']. cbn [fst snd].
    by rewrite IH.
Qed.

Lemma numeric_scan_lower s : numeric_scan (lower s) = numeric_scan s.
Proof.
  unfold numeric_scan.
  rewrite (span_lower_fixed isspace s lower_keeps_space space_lower).
  destruct (span isspace s) as [ws r0]. cbn [fst snd].
  rewrite (span_lower_fixed isdecimal r0 lower_keeps_decimal decimal_lower).
  destruct (span isdecimal r0) as [d0 r1]. cbn [fst snd].
  by rewrite numeric_groups_lower.
Qed.

Lemma first_decimals_lower s : first_decimals (lower s) = first_decimals s.
Proof.
  unfold first_decimals.
  rewrite (span_lower (fun c => negb (isdecimal c)) s)
    by (intros c; by rewrite lower_keeps_decimal).
  destruct (span (fun c => negb (isdecimal c)) s) as [a r]. cbn [fst snd].
  rewrite (span_lower_fixed isdecimal r lower_keeps_decimal decimal_lower).
  by destruct (span isdecimal r).
Qed.

Lemma infer_by_lower nm nm' :
  lower (chars nm) = lower (chars nm') ->
  _infer_heading_level nm = _infer_heading_level nm'.
Proof.
  intros Heq. rewrite !infer_closed_form.
  rewrite <- (first_decimals_lower (chars nm)), <- (first_decimals_lower (chars nm')).
  by rewrite Heq.
Qed.

Lemma apply_rules_by_lower nm nm' o :
  lower (chars nm) = lower (chars nm') ->
  apply_rules nm o = apply_rules nm' o.
Proof.
  intros Heq.
  destruct (decide (nm ∈ builtin_non_heading_styles)) as [Hin|Hout].
  { rewrite (apply_rules_builtin_name nm nm o Hin eq_refl).
    by rewrite (apply_rules_builtin_name nm nm' o Hin (eq_sym Heq)). }
  destruct (decide (nm' ∈ builtin_non_heading_styles)) as [Hin'|Hout'].
  { rewrite (apply_rules_builtin_name nm' nm' o Hin' eq_refl).
    by rewrite (apply_rules_builtin_name nm' nm o Hin' Heq). }
  unfold apply_rules. cbv zeta.
  rewrite !match_builtin_heading, !match_numeric_leading.
  rewrite <- (heading_scan_lower (chars nm)), <- (heading_scan_lower (chars nm')).
  rewrite <- (numeric_scan_lower (chars nm)), <- (numeric_scan_lower (chars nm')).
  rewrite (bool_decide_eq_false_2 _ Hout), (bool_decide_eq_false_2 _ Hout').
  by rewrite (infer_by_lower nm nm' Heq), Heq.
Qed.

End letter_case.

(** X8.  For style names within Latin-1 (code points up to U+00FF, the
    range that this development covers), steps 1 to 11 do not look at
    letter case: two names with the same lower-case form end the same
    way, both stored at the same level, both left out, or both raising
    in step 1.  (Beyond Latin-1 this is not so: U+0130 is matched by
    the "i" of the pattern of step 1 under [re.IGNORECASE] while its
    lower-case form is not.) *)
Theorem classification_ignores_letter_case nm nm' o :
  lower (chars nm) = lower (chars nm') ->
  apply_rules nm o = apply_rules nm' o.
Proof. apply apply_rules_by_lower. Qed.

Lemma classification_ignores_letter_case_witness :
  apply_rules "CHAPTER TITLE 2" NoElement = apply_rules "Chapter Title 2" NoElement /\
  apply_rules "bOdY tExT" (OutlineVals ["1"%string])
  = apply_rules "Body Text" (OutlineVals ["1"%string]).
Proof.
  split.
  - apply (classification_ignores_letter_case "CHAPTER TITLE 2" "Chapter Title 2"). reflexivity.
  - apply (classification_ignores_letter_case "bOdY tExT" "Body Text"). reflexivity.
Defined.

(** ** The final map of the conversion *)

Section final_map.
Context `{Document D} {ColorRules : Type}.
Variable STYLE_MAP : gmap string Z.

Lemma legacy_fill_lookup (m : gmap string Z) k :
  legacy_fill STYLE_MAP m !! k =
    match m !! k with
    | Some l => Some l
    | None => STYLE_MAP !! k
    end.
Proof.
  unfold legacy_fill. revert k.
  apply (map_fold_weak_ind
           (fun (r : gmap string Z) (sm : gmap string Z) =>
              forall k, r !! k = match m !! k with Some l => Some l | None => sm !! k end)).
  - intros k. rewrite lookup_empty. by destruct (m !! k).
  - intros i x sm r Hfresh IH k.
    destruct (decide (i = k)) as [->|Hne].
    + specialize (IH k). rewrite Hfresh in IH. rewrite lookup_insert_eq.
      destruct (bool_decide (is_Some (r !! k))) eqn:Hr.
      * apply bool_decide_eq_true_1 in Hr as [l Hl]. rewrite Hl in IH |- *.
        by destruct (m !! k).
      * apply bool_decide_eq_false_1 in Hr. rewrite lookup_insert_eq.
        destruct (m !! k) as [l|]; [|done].
        exfalso. apply Hr. by rewrite IH.
    + rewrite (lookup_insert_ne sm) by done.
      destruct (bool_decide (is_Some (r !! i))); [apply IH|].
      rewrite lookup_insert_ne by done. apply IH.
Qed.

Lemma user_override_lookup_eq md (m : gmap string Z) k :
  user_override md m !! k =
    match style_heading_map md ≫= (fun overrides => overrides !! k) with
    | Some v => Some v
    | None => m !! k
    end.
Proof.
  destruct (style_heading_map md) as [overrides|] eqn:Hmd; simpl.
  - destruct (overrides !! k) as [v|] eqn:Hk.
    + by apply (user_override_lookup md m overrides).
    + by apply (user_override_other md m overrides).
  - unfold user_override. by rewrite Hmd.
Qed.

(** X9.  In the map handed to the structure pass a style has the level
    of the caller's overrides when they name it; otherwise the level the
    classifier gave it; and the level of [STYLE_MAP] only when neither
    has it.  [STYLE_MAP] never replaces a classified level. *)
Theorem final_map_precedence (doc : D) md
    (plugin_config : option (PluginConfig ColorRules)) k :
  final_style_heading_map STYLE_MAP doc md plugin_config !! k =
    match style_heading_map md ≫= (fun overrides => overrides !! k) with
    | Some v => Some v
    | None =>
        match build_style_heading_map doc plugin_config !! k with
        | Some level => Some level
        | None => STYLE_MAP !! k
        end
    end.
Proof.
  unfold final_style_heading_map.
  by rewrite user_override_lookup_eq, legacy_fill_lookup.
Qed.

End final_map.

(** ** The name of the fallback topic *)

Section topic_names.

Lemma chars_append a b : chars (a +:+ b) = chars a ++ chars b.
Proof. induction a as [|c a IH]; simpl; [done|]. by rewrite IH. Qed.

Lemma hex_char_no_dot c : hex_char c = true -> Ascii.eqb "." c = false.
Proof.
  revert c. intros c; destruct c as [[] [] [] [] [] [] [] []]; vm_compute;
    first [reflexivity | discriminate].
Qed.

Lemma replace_suffix fuel a :
  forallb hex_char a = true -> (length a < fuel)%nat ->
  replace_fuel fuel (chars ".dita") [] (a ++ chars ".dita") = a.
Proof.
  revert fuel. induction a as [|c a IH]; intros fuel Ha Hlen.
  - destruct fuel as [|fuel]; [simpl in Hlen; lia|]. simpl. by destruct fuel.
  - destruct fuel as [|fuel]; [simpl in Hlen; lia|].
    simpl in Ha. apply andb_prop in Ha as [Hc Ha].
    cbn [app replace_fuel]. change (chars ".dita") with ("."%char :: chars "dita").
    cbn [startswith]. rewrite (hex_char_no_dot c Hc).
    change ("."%char :: chars "dita") with (chars ".dita").
    rewrite IH; [done|done|simpl in Hlen; lia].
Qed.

Lemma replace_after_prefix a :
  forallb hex_char a = true ->
  replace (chars ".dita") [] (chars "topic_" ++ a ++ chars ".dita") = chars "topic_" ++ a.
Proof.
  intros Ha. unfold replace.
  change (chars "topic_" ++ a ++ chars ".dita")
    with ("t" :: "o" :: "p" :: "i" :: "c" :: "_" :: a ++ chars ".dita")%char.
  cbn [length replace_fuel startswith Ascii.eqb Bool.eqb chars list_ascii_of_string].
  rewrite replace_suffix; [done|done|]. rewrite length_app. simpl. lia.
Qed.

Lemma forallb_take {A} (p : A -> bool) n l : forallb p l = true -> forallb p (take n l) = true.
Proof.
  revert n. induction l as [|x l IH]; intros [|n]; simpl; try done.
  intros Hx. apply andb_prop in Hx as [Hx Hl]. by rewrite Hx, IH.
Qed.

End topic_names.

(** X10.  With the hexadecimal identifier that [uuid4] gives, the topic
    id of the fallback topic is "topic_" and the first ten characters
    of the identifier, and the file name is the topic id followed by
    ".dita": removing ".dita" from the file name touches nothing else. *)
Theorem fallback_topic_id_is_file_stem amb :
  forallb hex_char (chars (uuid4_hex amb)) = true ->
  topic_id amb = "topic_" +:+ text (take 10 (chars (uuid4_hex amb))) /\
  file_name amb = topic_id amb +:+ ".dita".
Proof.
  intros Hhex.
  assert (topic_id amb = "topic_" +:+ text (take 10 (chars (uuid4_hex amb)))) as Hid.
  { unfold topic_id, file_name. rewrite !chars_append, chars_text.
    rewrite replace_after_prefix by (by apply forallb_take).
    rewrite <- (chars_text (take 10 (chars (uuid4_hex amb)))) at 1.
    change (chars "topic_") with (chars "topic_"%string).
    by rewrite <- chars_append, text_chars. }
  split; [done|]. rewrite Hid. unfold file_name.
  generalize (text (take 10 (chars (uuid4_hex amb)))). intros x. reflexivity.
Qed.

Lemma fallback_topic_id_is_file_stem_witness :
  let amb := {| uuid4_hex := "9f1c2ab47de0453b8a6f0c1d2e3f4a5b";
                today_for_concept := "2024-05-01"; today_for_critdates := "2024-05-01" |} in
  topic_id amb = "topic_9f1c2ab47d"%string /\
  file_name amb = "topic_9f1c2ab47d.dita"%string.
Proof.
  exact (fallback_topic_id_is_file_stem
           {| uuid4_hex := "9f1c2ab47de0453b8a6f0c1d2e3f4a5b";
              today_for_concept := "2024-05-01"; today_for_critdates := "2024-05-01" |}
           eq_refl).
Defined.

(** ** The files the handler accepts *)

Section handled_files.
Import ospath pathlib docx_handler.

Lemma rfind_from_app c a b i found :
  rfind_from c (a ++ b) i found =
    rfind_from c b (i + Z.of_nat (length a)) (rfind_from c a i found).
Proof.
  revert i found. induction a as [|x a IH]; intros i found.
  - simpl. by rewrite Z.add_0_r.
  - cbn [app rfind_from length]. rewrite IH. f_equal. lia.
Qed.

Lemma rfind_from_absent c p i found :
  forallb (fun x => negb (Ascii.eqb x c)) p = true -> rfind_from c p i found = found.
Proof.
  revert i. induction p as [|x p IH]; intros i Hp; [done|].
  simpl in *. apply andb_prop in Hp as [Hx Hp].
  destruct (Ascii.eqb x c); [done|]. by apply IH.
Qed.

Lemma rfind_last c a q :
  forallb (fun x => negb (Ascii.eqb x c)) q = true ->
  rfind c (a ++ c :: q) = Z.of_nat (length a).
Proof.
  intros Hq. unfold rfind. rewrite rfind_from_app. cbn [rfind_from].
  rewrite Ascii.eqb_refl. by rewrite rfind_from_absent.
Qed.

Lemma rfind_absent c q :
  forallb (fun x => negb (Ascii.eqb x c)) q = true -> rfind c q = -1.
Proof. apply rfind_from_absent. Qed.

Lemma rfind_from_split c p i found :
  (rfind_from c p i found = found /\
   forallb (fun x => negb (Ascii.eqb x c)) p = true)
  \/ exists a q, p = a ++ c :: q /\
                 rfind_from c p i found = i + Z.of_nat (length a) /\
                 forallb (fun x => negb (Ascii.eqb x c)) q = true.
Proof.
  revert i found. induction p as [|x p IH]; intros i found; [by left|].
  cbn [rfind_from forallb]. destruct (Ascii.eqb x c) eqn:Hx.
  - apply Ascii.eqb_eq in Hx as ->. right.
    destruct (IH (i + 1) i) as [[Hr Hp]|(a & q & -> & Hr & Hq)].
    + exists [], p. rewrite Hr. simpl. split; [done|]. split; [lia|done].
    + exists (c :: a), q. rewrite Hr. simpl. split; [done|]. split; [lia|done].
  - destruct (IH (i + 1) found) as [[Hr Hp]|(a & q & -> & Hr & Hq)].
    + left. by rewrite Hr, Hp.
    + right. exists (x :: a), q. rewrite Hr. simpl. split; [done|]. split; [lia|done].
Qed.

Lemma rfind_split c p :
  0 <= rfind c p ->
  exists a q, p = a ++ c :: q /\ rfind c p = Z.of_nat (length a) /\
              forallb (fun x => negb (Ascii.eqb x c)) q = true.
Proof.
  intros Hi. unfold rfind in *.
  destruct (rfind_from_split c p 0 (-1)) as [[Hr _]|(a & q & Hp & Hr & Hq)].
  - rewrite Hr in Hi. lia.
  - exists a, q. by rewrite Hr.
Qed.

Lemma lower_dot c : lower_char c = "."%char -> c = "."%char.
Proof.
  revert c. intros c; destruct c as [[] [] [] [] [] [] [] []]; vm_compute;
    first [reflexivity | discriminate].
Qed.

Lemma docx_has_no_dot ext :
  lower ext = chars "docx" -> forallb (fun x => negb (Ascii.eqb x ".")) ext = true.
Proof.
  destruct ext as [|a [|b [|c [|d [|e ext]]]]]; try discriminate.
  intros [= Ha Hb Hc Hd]. simpl.
  assert (forall x y, lower_char x = y -> y <> "."%char -> negb (Ascii.eqb x ".") = true)
    as Hne.
  { intros x y Hx Hy. destruct (Ascii.eqb x ".") eqn:E; [|done].
    apply Ascii.eqb_eq in E as ->. by destruct Hy. }
  rewrite (Hne a _ Ha), (Hne b _ Hb), (Hne c _ Hc), (Hne d _ Hd); done.
Qed.

Lemma suffix_of_name p stem ext :
  name p = stem ++ "."%char :: ext -> stem <> [] -> ext <> [] ->
  forallb (fun x => negb (Ascii.eqb x ".")) ext = true ->
  suffix p = "."%char :: ext.
Proof.
  intros Hname Hstem Hext Hdot. unfold suffix. rewrite Hname.
  rewrite (rfind_last "." stem ext Hdot).
  rewrite length_app. cbn [length].
  replace ((0 <? Z.of_nat (length stem))
           && (Z.of_nat (length stem) <? Z.of_nat (length stem + S (length ext)) - 1))
    with true.
  - by rewrite Nat2Z.id, drop_app_length.
  - symmetry. apply andb_true_intro. split; apply Z.ltb_lt.
    + destruct stem; [done|]. simpl. lia.
    + destruct ext; [done|]. simpl. lia.
Qed.

Lemma suffix_inv p :
  suffix p <> [] ->
  exists stem ext, name p = stem ++ "."%char :: ext /\ stem <> [] /\
                   suffix p = "."%char :: ext /\
                   rfind "." (name p) = Z.of_nat (length stem).
Proof.
  unfold suffix.
  destruct ((0 <? rfind "." (name p))
            && (rfind "." (name p) <? Z.of_nat (length (name p)) - 1)) eqn:Hc; [|done].
  intros _. apply andb_prop in Hc as [Hpos _]. apply Z.ltb_lt in Hpos.
  destruct (rfind_split "." (name p)) as (a & q & Hname & Hr & Hq); [lia|].
  exists a, q. rewrite Hr, Nat2Z.id. rewrite Hname at 2.
  rewrite drop_app_length. repeat split; try done.
  intros ->. simpl in Hr. lia.
Qed.

Lemma can_handle_inv p :
  can_handle p = true ->
  exists stem ext, name p = stem ++ "."%char :: ext /\ stem <> [] /\
                   lower ext = chars "docx" /\ suffix p = "."%char :: ext /\
                   rfind "." (name p) = Z.of_nat (length stem).
Proof.
  unfold can_handle. intros H. apply bool_decide_eq_true_1 in H.
  destruct (suffix_inv p) as (stem & ext & Hname & Hstem & Hsuf & Hr).
  { intros Hnil. by rewrite Hnil in H. }
  exists stem, ext. rewrite Hsuf in H.
  change (lower ("."%char :: ext)) with ("."%char :: lower ext) in H.
  repeat split; try done. by injection H.
Qed.

End handled_files.

(** X11.  The handler accepts a path exactly when its last component
    is a non-empty stem, a dot, and "docx" in any letter case: a name
    that is only ".docx", or that has something after "docx", is not
    accepted, and directories of the path do not count. *)
Theorem can_handle_by_name_only p :
  docx_handler.can_handle p = true <->
  exists stem ext, pathlib.name p = stem ++ "."%char :: ext /\ stem <> [] /\
                   lower ext = chars "docx".
Proof.
  split.
  - intros H. destruct (can_handle_inv p H) as (stem & ext & Hname & Hstem & Hext & _).
    by exists stem, ext.
  - intros (stem & ext & Hname & Hstem & Hext).
    unfold docx_handler.can_handle. apply bool_decide_eq_true_2.
    rewrite (suffix_of_name p stem ext Hname Hstem).
    + change (lower ("."%char :: ext)) with ("."%char :: lower ext). by rewrite Hext.
    + intros ->. discriminate Hext.
    + by apply docx_has_no_dot.
Qed.

Section handled_titles.
Import ospath pathlib docx_handler.

Lemma join_snoc sep init q :
  join sep (init ++ [q]) =
    match init with
    | [] => q
    | _ :: _ => join sep init ++ sep ++ q
    end.
Proof.
  induction init as [|x init IH]; [done|].
  cbn [app]. destruct init as [|y init]; [done|].
  change (join sep (x :: (y :: init) ++ [q]))
    with (x ++ sep ++ join sep ((y :: init) ++ [q])).
  rewrite IH. change (join sep (x :: y :: init)) with (x ++ sep ++ join sep (y :: init)).
  by rewrite <- !app_assoc.
Qed.

Lemma basename_after c_pre q :
  forallb (fun x => negb (Ascii.eqb x "/")) q = true ->
  (c_pre = [] \/ exists pre, c_pre = pre ++ chars "/") ->
  basename (c_pre ++ q) = q.
Proof.
  intros Hq [->|[pre ->]]; unfold basename.
  - simpl. by rewrite (rfind_absent "/" q Hq).
  - rewrite <- app_assoc. change (chars "/" ++ q) with ("/"%char :: q).
    rewrite (rfind_last "/" pre q Hq).
    replace (pre ++ "/"%char :: q) with ((pre ++ ["/"%char]) ++ q) by (by rewrite <- app_assoc).
    rewrite drop_app_length'; [done|]. rewrite length_app. simpl. lia.
Qed.

Lemma basename_of_parsed p q :
  parsed p = true -> name p = q -> q <> [] ->
  str p <> [] /\ basename (str p) = q.
Proof.
  unfold parsed, name, str. intros Hp Hname Hq.
  apply andb_prop in Hp as [Hroot Hparts]. apply bool_decide_eq_true_1 in Hroot.
  destruct (last (parts p)) as [q'|] eqn:Hlast; simpl in Hname; [subst q'|by subst].
  apply last_Some in Hlast as [init Hinit]. rewrite Hinit in Hparts |- *.
  rewrite forallb_app in Hparts. apply andb_prop in Hparts as [_ Hlastpart].
  simpl in Hlastpart. rewrite andb_true_r in Hlastpart.
  apply andb_prop in Hlastpart as [_ Hslash].
  rewrite join_snoc.
  assert (exists c_pre, root p ++ match init with
                                  | [] => q
                                  | _ :: _ => join (chars "/") init ++ chars "/" ++ q
                                  end = c_pre ++ q
                        /\ (c_pre = [] \/ exists pre, c_pre = pre ++ chars "/"))
    as (c_pre & -> & Hpre).
  { destruct init as [|x init].
    - exists (root p). split; [done|].
      apply elem_of_cons in Hroot as [->|Hroot]; [by left|].
      apply elem_of_cons in Hroot as [->|Hroot]; [right; by exists []|].
      apply elem_of_cons in Hroot as [->|Hroot]; [right; by exists (chars "/")|].
      by apply elem_of_nil in Hroot.
    - exists (root p ++ join (chars "/") (x :: init) ++ chars "/").
      split; [by rewrite <- !app_assoc|]. right.
      exists (root p ++ join (chars "/") (x :: init)). by rewrite <- app_assoc. }
  destruct (c_pre ++ q) as [|c s] eqn:E.
  { apply app_eq_nil in E as [_ ->]. done. }
  split; [done|]. rewrite <- E. by apply basename_after.
Qed.

Lemma splitext_at_last_dot q stem ext :
  q = stem ++ "."%char :: ext ->
  forallb (fun x => negb (Ascii.eqb x "/")) q = true ->
  rfind "." q = Z.of_nat (length stem) ->
  splitext q = if forallb (fun c => Ascii.eqb c ".") stem
               then (q, []) else (stem, "."%char :: ext).
Proof.
  intros Hq Hslash Hr. unfold splitext.
  rewrite (rfind_absent "/" q Hslash), Hr.
  replace (-1 <? Z.of_nat (length stem)) with true by (symmetry; apply Z.ltb_lt; lia).
  replace (slice q (-1 + 1) (Z.of_nat (length stem))) with stem.
  - destruct (forallb (fun c => Ascii.eqb c ".") stem); [done|].
    rewrite Nat2Z.id, Hq. by rewrite take_app_length, drop_app_length.
  - unfold slice. rewrite Nat2Z.id.
    change (Z.to_nat (-1 + 1)) with 0%nat. rewrite Nat.sub_0_r, drop_0, Hq.
    by rewrite take_app_length.
Qed.

End handled_titles.

(** X12.  For a file that the handler accepts, with the path as
    [pathlib] parses it, the fallback title of the conversion is the
    file's name without its suffix; only when nothing but dots comes
    before the suffix (a name such as "..docx") is the whole name kept.
    Either way the title is not empty, so the default title "Document"
    is never used for want of a name. *)
Theorem handled_file_is_titled_by_its_name p :
  docx_handler.can_handle p = true -> parsed p = true ->
  exists stem,
    pathlib.name p = stem ++ pathlib.suffix p /\ stem <> [] /\
    fallback_title (text (pathlib.str p))
    = text (if forallb (fun c => Ascii.eqb c ".") stem then pathlib.name p else stem).
Proof.
  intros Hcan Hparsed.
  destruct (can_handle_inv p Hcan) as (stem & ext & Hname & Hstem & Hext & Hsuf & Hr).
  assert (pathlib.name p <> []) as Hne by (rewrite Hname; by destruct stem).
  destruct (basename_of_parsed p _ Hparsed eq_refl Hne) as [_ Hbase].
  assert (forallb (fun x => negb (Ascii.eqb x "/")) (pathlib.name p) = true) as Hslash.
  { unfold parsed in Hparsed. apply andb_prop in Hparsed as [_ Hparts].
    unfold pathlib.name in *.
    destruct (last (pathlib.parts p)) as [q|] eqn:Hlast; [|done].
    apply last_Some in Hlast as [init Hinit]. rewrite Hinit, forallb_app in Hparts.
    apply andb_prop in Hparts as [_ Hq]. simpl in Hq. rewrite andb_true_r in Hq.
    by apply andb_prop in Hq as [_ Hq]. }
  exists stem. rewrite Hsuf. split; [exact Hname|]. split; [exact Hstem|].
  unfold fallback_title. rewrite chars_text, Hbase.
  rewrite (splitext_at_last_dot (pathlib.name p) stem ext Hname Hslash Hr).
  destruct (forallb (fun c => Ascii.eqb c ".") stem); cbn [fst].
  - by destruct (pathlib.name p).
  - by destruct stem.
Qed.

Lemma handled_file_is_titled_by_its_name_witness :
  exists stem,
    chars "Annual Report.v2.DOCX" = stem ++ chars ".DOCX" /\ stem <> [] /\
    fallback_title "/home/user/Annual Report.v2.DOCX"
    = text (if forallb (fun c => Ascii.eqb c ".") stem
            then chars "Annual Report.v2.DOCX" else stem).
Proof.
  exact (handled_file_is_titled_by_its_name
           {| pathlib.root := chars "/";
              pathlib.parts := [chars "home"; chars "user"; chars "Annual Report.v2.DOCX"] |}
           eq_refl eq_refl).
Defined.

(** ** Colours *)

Section colours.
Import color_utils.
Context {Spec HSV : Type}.
Variable rgb_to_hsv : Z -> Z -> Z -> option HSV.
Variable in_spec : HSV -> Spec -> option bool.

Lemma first_in_tolerance_is_a_key hsv cfg cls :
  first_in_tolerance in_spec hsv cfg = Some cls -> exists spec, In (cls, spec) cfg.
Proof.
  induction cfg as [|[out_class spec] rest IH]; simpl; [done|].
  destruct (in_spec hsv spec) as [[]|]; [| |done].
  - intros [= <-]. exists spec. by left.
  - intros H. destruct (IH H) as [spec' Hin]. exists spec'. by right.
Qed.

Lemma lower_hash c : lower_char c = "#"%char -> c = "#"%char.
Proof.
  revert c. intros c; destruct c as [[] [] [] [] [] [] [] []]; vm_compute;
    first [reflexivity | discriminate].
Qed.

Lemma hex_pair h l a b :
  hex_value h = Some a -> hex_value l = Some b ->
  int_base16 [lower_char h; lower_char l] = Some (16 * a + b) /\
  0 <= 16 * a + b <= 255.
Proof.
  intros Ha Hb.
  destruct h as [[] [] [] [] [] [] [] []]; vm_compute in Ha; try discriminate Ha;
    injection Ha as <-;
    destruct l as [[] [] [] [] [] [] [] []]; vm_compute in Hb; try discriminate Hb;
    injection Hb as <-; vm_compute; (split; [reflexivity|split; discriminate]).
Qed.

End colours.

(** X13.  Whatever the colour, an output class that
    [convert_color_to_outputclass] returns is one the rules name: a
    value of [color_mappings], a value of [theme_map] or a key of
    [tolerance]. *)
Theorem outputclass_comes_from_the_rules {Spec HSV : Type}
    (rgb_to_hsv : Z -> Z -> Z -> option HSV) (in_spec : HSV -> Spec -> option bool)
    color_value (color_rules : color_utils.ColorRules Spec) cls :
  color_utils.convert_color_to_outputclass rgb_to_hsv in_spec color_value color_rules
    = Some cls ->
  (exists key, color_utils.color_mappings color_rules !! key = Some cls)
  \/ (exists key, color_utils.theme_map color_rules !! key = Some cls)
  \/ (exists spec, In (cls, spec) (color_utils.tolerance color_rules)).
Proof.
  unfold color_utils.convert_color_to_outputclass.
  destruct color_value as [v|]; [|done].
  destruct (String.eqb v ""); [done|].
  destruct (color_utils.color_mappings color_rules !! text (lower (chars v)))
    as [out|] eqn:Hexact.
  { intros [= <-]. left. by eexists. }
  destruct (startswith (chars "theme-") (chars v)).
  { intros H. right. left. by eexists. }
  destruct (startswith (chars "background-") (chars v)).
  { intros H. left. by eexists. }
  destruct (_ && _ && _); [|done].
  destruct (color_utils.int_base16 (ospath.slice _ 1 3)) as [r|];
    cbn [mbind option_bind]; [|done].
  destruct (color_utils.int_base16 (ospath.slice _ 3 5)) as [g|];
    cbn [mbind option_bind]; [|done].
  destruct (color_utils.int_base16 (ospath.slice _ 5 7)) as [b|];
    cbn [mbind option_bind]; [|done].
  destruct (rgb_to_hsv r g b) as [hsv|]; cbn [mbind option_bind]; [|done].
  intros H. right. right. by apply (first_in_tolerance_is_a_key in_spec hsv).
Qed.

Lemma outputclass_comes_from_the_rules_witness :
  let color_rules :=
    {| color_utils.color_mappings := {[ "#ff0000"%string := "color-red"%string ]};
       color_utils.theme_map := ∅;
       color_utils.tolerance := [("color-red"%string, 200); ("color-dark"%string, 0)] |} in
  (exists key, color_utils.color_mappings color_rules !! key = Some "color-dark"%string)
  \/ (exists key, color_utils.theme_map color_rules !! key = Some "color-dark"%string)
  \/ (exists spec, In ("color-dark"%string, spec) (color_utils.tolerance color_rules)).
Proof.
  exact (outputclass_comes_from_the_rules channels red_at_least (Some "#3A0000"%string)
           {| color_utils.color_mappings := {[ "#ff0000"%string := "color-red"%string ]};
              color_utils.theme_map := ∅;
              color_utils.tolerance := [("color-red"%string, 200); ("color-dark"%string, 0)] |}
           "color-dark"%string eq_refl).
Defined.

(** X14.  Two colour values that start with "#" and differ only in
    letter case get the same output class: the exact match and the
    tolerance test both read the lower-cased value. *)
Theorem hex_colours_ignore_letter_case {Spec HSV : Type}
    (rgb_to_hsv : Z -> Z -> Z -> option HSV) (in_spec : HSV -> Spec -> option bool)
    (value value' : string) (color_rules : color_utils.ColorRules Spec) :
  startswith (chars "#") (chars value) = true ->
  lower (chars value) = lower (chars value') ->
  color_utils.convert_color_to_outputclass rgb_to_hsv in_spec (Some value) color_rules =
  color_utils.convert_color_to_outputclass rgb_to_hsv in_spec (Some value') color_rules.
Proof.
  intros Hhash Heq.
  destruct value as [|c rest]; [discriminate Hhash|].
  destruct value' as [|c' rest']; [discriminate Heq|].
  cbn [chars list_ascii_of_string startswith] in Hhash.
  destruct (Ascii.eqb "#" c) eqn:Hc; [|discriminate Hhash].
  apply Ascii.eqb_eq in Hc as <-.
  assert (c' = "#"%char) as ->.
  { cbn [chars list_ascii_of_string lower map] in Heq. injection Heq as Hc' _.
    apply lower_hash. by rewrite <- Hc'. }
  unfold color_utils.convert_color_to_outputclass. cbv zeta.
  rewrite <- Heq. reflexivity.
Qed.

Lemma hex_colours_ignore_letter_case_witness :
  let color_rules :=
    {| color_utils.color_mappings := {[ "#ff0000"%string := "color-red"%string ]};
       color_utils.theme_map := ∅;
       color_utils.tolerance := [("color-red"%string, 200)] |} in
  color_utils.convert_color_to_outputclass channels red_at_least (Some "#FF0000"%string)
    color_rules =
  color_utils.convert_color_to_outputclass channels red_at_least (Some "#Ff0000"%string)
    color_rules.
Proof.
  exact (hex_colours_ignore_letter_case channels red_at_least "#FF0000" "#Ff0000"
           {| color_utils.color_mappings := {[ "#ff0000"%string := "color-red"%string ]};
              color_utils.theme_map := ∅;
              color_utils.tolerance := [("color-red"%string, 200)] |}
           eq_refl eq_refl).
Defined.

(** X15.  A colour written "#" and six hexadecimal digits, in any
    letter case, always reaches the tolerance test when the rules have
    no exact entry for it and the tolerance table is not empty: the
    three channels are read without error, each is between 0 and 255,
    and the class is that of the first entry of the table that accepts
    the colour. *)
Theorem hex_colour_is_read_by_channels {Spec HSV : Type}
    (rgb_to_hsv : Z -> Z -> Z -> option HSV) (in_spec : HSV -> Spec -> option bool)
    (color_rules : color_utils.ColorRules Spec) h1 l1 h2 l2 h3 l3 r1 r0 g1 g0 b1 b0 :
  color_utils.hex_value h1 = Some r1 -> color_utils.hex_value l1 = Some r0 ->
  color_utils.hex_value h2 = Some g1 -> color_utils.hex_value l2 = Some g0 ->
  color_utils.hex_value h3 = Some b1 -> color_utils.hex_value l3 = Some b0 ->
  let value := text ["#"%char; h1; l1; h2; l2; h3; l3] in
  color_utils.color_mappings color_rules !! text (lower (chars value)) = None ->
  color_utils.tolerance color_rules <> [] ->
  color_utils.convert_color_to_outputclass rgb_to_hsv in_spec (Some value) color_rules =
    (rgb_to_hsv (16 * r1 + r0) (16 * g1 + g0) (16 * b1 + b0) ≫=
       fun hsv => color_utils.first_in_tolerance in_spec hsv
                    (color_utils.tolerance color_rules))
  /\ 0 <= 16 * r1 + r0 <= 255 /\ 0 <= 16 * g1 + g0 <= 255 /\ 0 <= 16 * b1 + b0 <= 255.
Proof.
  intros Hr1 Hr0 Hg1 Hg0 Hb1 Hb0 value Hexact Htol.
  destruct (hex_pair h1 l1 r1 r0 Hr1 Hr0) as [Hr Hrr].
  destruct (hex_pair h2 l2 g1 g0 Hg1 Hg0) as [Hg Hgr].
  destruct (hex_pair h3 l3 b1 b0 Hb1 Hb0) as [Hb Hbr].
  split; [|done].
  unfold color_utils.convert_color_to_outputclass. cbv zeta.
  rewrite Hexact. subst value. rewrite chars_text.
  change (String.eqb (text ["#"%char; h1; l1; h2; l2; h3; l3]) "") with false.
  change (startswith (chars "theme-") ["#"%char; h1; l1; h2; l2; h3; l3]) with false.
  change (startswith (chars "background-") ["#"%char; h1; l1; h2; l2; h3; l3]) with false.
  change (lower ["#"%char; h1; l1; h2; l2; h3; l3])
    with ["#"%char; lower_char h1; lower_char l1; lower_char h2; lower_char l2;
          lower_char h3; lower_char l3].
  rewrite (bool_decide_eq_false_2 _ Htol).
  change (ospath.slice ["#"%char; lower_char h1; lower_char l1; lower_char h2;
                        lower_char l2; lower_char h3; lower_char l3] 1 3)
    with [lower_char h1; lower_char l1].
  change (ospath.slice ["#"%char; lower_char h1; lower_char l1; lower_char h2;
                        lower_char l2; lower_char h3; lower_char l3] 3 5)
    with [lower_char h2; lower_char l2].
  change (ospath.slice ["#"%char; lower_char h1; lower_char l1; lower_char h2;
                        lower_char l2; lower_char h3; lower_char l3] 5 7)
    with [lower_char h3; lower_char l3].
  rewrite Hr, Hg, Hb. reflexivity.
Qed.

Lemma hex_colour_is_read_by_channels_witness :
  let color_rules :=
    {| color_utils.color_mappings := ∅; color_utils.theme_map := ∅;
       color_utils.tolerance := [("color-red"%string, 200); ("color-dark"%string, 0)] |} in
  color_utils.convert_color_to_outputclass channels red_at_least (Some "#E61Fa0"%string)
    color_rules = Some "color-red"%string.
Proof.
  exact (proj1 (hex_colour_is_read_by_channels channels red_at_least
           {| color_utils.color_mappings := ∅; color_utils.theme_map := ∅;
              color_utils.tolerance := [("color-red"%string, 200); ("color-dark"%string, 0)] |}
           "E" "6" "1" "F" "a" "0" 14 6 1 15 10 0
           eq_refl eq_refl eq_refl eq_refl eq_refl eq_refl eq_refl
           ltac:(discriminate))).
Defined.
